(** * Motor efficiency calculators: a shallow embedding

    Embeds the computational core of [unified_calculator.py] and
    [factor_calculator.py]:

    - [calculate_simple_efficiency] and [calculate_single_efficiency]
      (verification method on one run),
    - [calculate_unified_efficiencies] (both methods, both polarities, and
      the dual-polarity combiner),
    - [compare_dual_motor_efficiencies],
    - [ExperimentConfig.get_experiment_params].

    Number model.  A Python/NumPy float is a real number or NaN:
    [float := option R], [None] being NaN.  Arithmetic is exact real
    arithmetic that propagates NaN; comparisons with NaN are false, as in
    IEEE 754.  Rounding, overflow and infinities are outside the model, and
    with them NumPy's division by zero: the properties that speak of decoded
    currents take [reference_v] non-zero.
    A cell of a sample table is the value [pd.to_numeric(..., errors='coerce')]
    gives for it: a number, or NaN when the raw field is missing or does not
    parse.

    Control model.  Every embedded calculator runs inside a [try] whose
    handlers print and [return None]; a raised exception and an explicit
    [return None] are therefore the same observable outcome, the [None] of
    [option].  [get_experiment_params] has no handler, so its exceptions are
    kept in [pyresult]. *)

From Stdlib Require Import Reals Lra Lia ZArith.
From stdpp Require Import base option list gmap strings.

Open Scope R_scope.

(** ** Floats with NaN *)

Module Float.

Definition float : Type := option R.

Definition nan : float := None.

Definition lift1 (f : R -> R) (a : float) : float :=
  match a with Some x => Some (f x) | None => None end.

Definition lift2 (f : R -> R -> R) (a b : float) : float :=
  match a, b with
  | Some x, Some y => Some (f x y)
  | _, _ => None
  end.

Definition add : float -> float -> float := lift2 Rplus.
Definition sub : float -> float -> float := lift2 Rminus.
Definition mul : float -> float -> float := lift2 Rmult.
Definition div : float -> float -> float := lift2 Rdiv.

(** [abs(x)] *)
Definition abs : float -> float := lift1 Rabs.

(** [x ** 0.5], used in the source on non-negative operands only. *)
Definition pow_half : float -> float := lift1 sqrt.

(** [np.isnan] *)
Definition isnan (a : float) : bool :=
  match a with None => true | Some _ => false end.

(** [a > b]; false when either side is NaN. *)
Definition gtb (a b : float) : bool :=
  match a, b with
  | Some x, Some y => if Rlt_dec y x then true else false
  | _, _ => false
  end.

(** [a >= b]; false when either side is NaN. *)
Definition geb (a b : float) : bool :=
  match a, b with
  | Some x, Some y => if Rle_dec y x then true else false
  | _, _ => false
  end.

(** Python's builtin [max(0, x)]: the first argument is kept unless a later
    one compares strictly greater, so [max(0, nan)] is [0]. *)
Definition max0 (x : float) : float :=
  if gtb x (Some 0) then x else Some 0.

End Float.

Import Float.

(** ** NumPy array helpers *)

(** [a[mask]]: boolean-mask indexing of an array. *)
Fixpoint mask_select {A : Type} (a : list A) (mask : list bool) : list A :=
  match a, mask with
  | x :: a', b :: mask' =>
      if b then x :: mask_select a' mask' else mask_select a' mask'
  | _, _ => []
  end.

(** [~np.isnan(a)] *)
Definition not_nan (a : list float) : list bool :=
  map (fun x => negb (isnan x)) a.

(** [m1 & m2] on boolean arrays. *)
Definition mask_and (m1 m2 : list bool) : list bool :=
  zip_with andb m1 m2.

(** [np.any(mask)] *)
Definition np_any (mask : list bool) : bool := existsb (fun b => b) mask.

(** [np.arange(n) * time_once] *)
Definition arange_times (n : nat) (time_once : R) : list float :=
  map (fun k => Some (INR k * time_once)) (seq 0 n).

(** [np.trapz(y, x=x)]: [sum(diff(x) * (y[1:] + y[:-1]) / 2.0)]. *)
Fixpoint trapz (y x : list float) : float :=
  match y, x with
  | y0 :: ys, x0 :: xs =>
      match ys, xs with
      | y1 :: _, x1 :: _ =>
          add (div (mul (sub x1 x0) (add y1 y0)) (Some 2)) (trapz ys xs)
      | _, _ => Some 0
      end
  | _, _ => Some 0
  end.

(** [np.sum] *)
Definition np_sum (a : list float) : float := foldr add (Some 0) a.

(** [np.mean(a)]: the sum over the length. *)
Definition np_mean (a : list float) : float :=
  div (np_sum a) (Some (INR (length a))).

(** Maximum of two array elements inside [np.max]: NaN propagates. *)
Definition fmax : float -> float -> float := lift2 Rmax.

(** [np.max(a)]; raises [ValueError] on an empty array ([None] here). *)
Definition np_max (a : list float) : option float :=
  match a with
  | [] => None
  | x :: a' => Some (foldl fmax x a')
  end.

(** [output_i ** 2 * r_load], element-wise. *)
Definition power_of_current (r_load : R) (i : float) : float :=
  mul (mul i i) (Some r_load).

(** [(output_v - initial_v) / reference_v], element-wise. *)
Definition current_of_voltage (reference_v initial_v : R) (v : float) : float :=
  div (sub v (Some initial_v)) (Some reference_v).

(** [1.0 / sampling_freq] on Python floats: [ZeroDivisionError] when the
    divisor is zero. *)
Definition py_div (a b : R) : option R :=
  if Req_dec_T b 0 then None else Some (a / b).

(** ** Sample tables *)

(** The frame [pd.read_csv(path, header=None, skiprows=1)] returns:
    [shape1] columns, and rows of cells already coerced to numbers.  A row
    shorter than [shape1] is padded with NaN, as [read_csv] does. *)
Record DataFrame : Type := mkDataFrame {
  shape1 : nat;
  rows : list (list float)
}.

(** [len(df)] *)
Definition df_len (df : DataFrame) : nat := length (rows df).

(** [df.empty]: some axis has length zero. *)
Definition df_empty (df : DataFrame) : bool :=
  (df_len df =? 0)%nat || (shape1 df =? 0)%nat.

(** [pd.to_numeric(df.iloc[:, j], errors='coerce').to_numpy()] *)
Definition column (df : DataFrame) (j : nat) : list float :=
  map (fun r => default nan (r !! j)) (rows df).

(** [df.head(n)] *)
Definition head (df : DataFrame) (n : nat) : DataFrame :=
  mkDataFrame (shape1 df) (take n (rows df)).

(** [df.head(points) if points is not None and points > 0 else df] *)
Definition truncate (df : DataFrame) (points_to_process : option Z) : DataFrame :=
  match points_to_process with
  | Some p => if (0 <? p)%Z then head df (Z.to_nat p) else df
  | None => df
  end.

(** ** [unified_calculator.calculate_simple_efficiency] *)

Module Simple.

Record plot : Type := mkPlot {
  time : list float;
  current : list float;
  power : list float
}.

Record result : Type := mkResult {
  efficiency : float;
  avg_output_power : float;
  max_output_power : float;
  output_energy : float;
  input_energy : float;
  duration : float;
  plot_data : plot
}.

Definition calculate_simple_efficiency
    (data_df_full : DataFrame)
    (reference_v initial_v r_load power_input sampling_freq : R)
    (points_to_process : option Z) : option result :=
  time_once ← py_div 1 sampling_freq;
  let data_df := truncate data_df_full points_to_process in
  if df_empty data_df || (shape1 data_df <? 3)%nat then None else
  let t_original := column data_df 0 in
  let time_array := arange_times (length t_original) time_once in
  let output_v := column data_df 2 in
  let output_i := map (current_of_voltage reference_v initial_v) output_v in
  let valid_idx := mask_and (not_nan output_i) (not_nan time_array) in
  if negb (np_any valid_idx) then None else
  let output_i_cleaned := mask_select output_i valid_idx in
  let time_cleaned := mask_select time_array valid_idx in
  if (length output_i_cleaned <? 2)%nat then None else
  let output_power := map (power_of_current r_load) output_i_cleaned in
  let output_energy := trapz output_power time_cleaned in
  let input_duration := INR (length time_cleaned) * time_once in
  let input_energy := power_input * input_duration in
  let efficiency :=
    if Rlt_dec 0 input_energy
    then div output_energy (Some input_energy) else Some 0 in
  let avg_output_power := np_mean output_power in
  max_output_power ← np_max output_power;
  Some (mkResult efficiency avg_output_power max_output_power
          output_energy (Some input_energy) (Some input_duration)
          (mkPlot time_cleaned output_i_cleaned output_power)).

End Simple.

(** ** [factor_calculator] *)

Module Single.

Record plot : Type := mkPlot {
  time : list float;
  current : list float;
  power : list float
}.

Record result : Type := mkResult {
  efficiency : float;
  avg_output_power : float;
  max_output_power : float;
  avg_output_current : float;
  duration : float;
  plot_data : plot
}.

Definition calculate_single_efficiency
    (csv : DataFrame)
    (reference_v initial_v r_load power_input sampling_freq : R)
    (points_to_process : option Z) : option result :=
  let data_df := truncate csv points_to_process in
  if df_empty data_df || (shape1 data_df <? 3)%nat then None else
  time_once ← py_div 1 sampling_freq;
  let time_array := arange_times (df_len data_df) time_once in
  let output_v := column data_df 2 in
  let output_i := map (current_of_voltage reference_v initial_v) output_v in
  let valid_idx := not_nan output_i in
  if negb (np_any valid_idx) then None else
  let output_i_cleaned := mask_select output_i valid_idx in
  let time_cleaned := mask_select time_array valid_idx in
  let output_power := map (power_of_current r_load) output_i_cleaned in
  let output_energy := trapz output_power time_cleaned in
  let input_energy := power_input * (INR (length time_cleaned) * time_once) in
  let efficiency :=
    if Rlt_dec 0 input_energy
    then div output_energy (Some input_energy) else Some 0 in
  max_output_power ← np_max output_power;
  Some (mkResult efficiency (np_mean output_power) max_output_power
          (np_mean output_i_cleaned)
          (Some (INR (length time_cleaned) * time_once))
          (mkPlot time_cleaned output_i_cleaned output_power)).

(** [compare_dual_motor_efficiencies]: a non-[None] result dict is truthy. *)
Definition compare_dual_motor_efficiencies
    (zheng_file fan_file : DataFrame)
    (reference_v initial_v r_load power_input sampling_freq : R) : float :=
  let zheng_result :=
    calculate_single_efficiency zheng_file reference_v initial_v r_load
      power_input sampling_freq None in
  let fan_result :=
    calculate_single_efficiency fan_file reference_v initial_v r_load
      power_input sampling_freq None in
  match zheng_result, fan_result with
  | Some zr, Some fr =>
      let zheng_eff := max0 (efficiency zr) in
      let fan_eff := max0 (efficiency fr) in
      pow_half (mul zheng_eff fan_eff)
  | _, _ => Some 0
  end.

End Single.

(** ** [unified_calculator.calculate_unified_efficiencies] *)

Module Unified.

(** The dict [{"max": .., "min": .., "avg": ..}] of one channel. *)
Record col_stats : Type := mkStats {
  stat_max : float;
  stat_min : float;
  stat_avg : float
}.

Definition nan_stats : col_stats := mkStats nan nan nan.

(** The non-NaN entries of a numeric series ([skipna=True]). *)
Definition non_null (a : list float) : list R := omap (fun x => x) a.

Definition _calculate_column_stats (column_data_series : list float) : col_stats :=
  match non_null column_data_series with
  | [] => nan_stats
  | x :: xs =>
      mkStats (Some (foldl Rmax x xs)) (Some (foldl Rmin x xs))
        (Some (foldr Rplus 0 (x :: xs) / INR (length (x :: xs))))
  end.

Definition channel_names : list string :=
  ["AIN1"; "AIN2"; "AIN3"; "AIN4"; "AIN5"; "AIN6"; "AIN7"; "AIN8"]%string.

(** The loop [for i, channel in enumerate(channel_names)] filling a
    [stats] dict. *)
Definition channel_stats (df : DataFrame) : gmap string col_stats :=
  foldl
    (fun stats '(i, channel) =>
       if (i + 1 <? shape1 df)%nat
       then <[channel := _calculate_column_stats (column df (i + 1))]> stats
       else <[channel := nan_stats]> stats)
    ∅ (zip (seq 0 (length channel_names)) channel_names).

Record ver_plot : Type := mkVerPlot {
  time : list float;
  current : list float;
  power : list float
}.

Record ver_entry : Type := mkVerEntry {
  efficiency : float;
  stats : gmap string col_stats;
  plot_data : ver_plot
}.

Record theo_plot : Type := mkTheoPlot {
  t_time : list float;
  output_current : list float;
  input_current : list float;
  output_power : list float;
  input_power : list float
}.

Record theo_entry : Type := mkTheoEntry {
  t_efficiency : float;
  t_stats : gmap string col_stats;
  t_plot_data : theo_plot
}.

Record ver_group : Type := mkVerGroup {
  zheng : ver_entry;
  fan : ver_entry;
  finished_efficiency : float
}.

Record theo_group : Type := mkTheoGroup {
  t_zheng : theo_entry;
  t_fan : theo_entry;
  t_finished_efficiency : float
}.

Record comparison_group : Type := mkComparison {
  zheng_diff : float;
  fan_diff : float;
  finished_diff : float
}.

Record results : Type := mkResults {
  verification : ver_group;
  theoretical : theo_group;
  comparison : comparison_group
}.

(** The zero-initialised entries of the [results] literal. *)
Definition default_ver_entry : ver_entry :=
  mkVerEntry (Some 0) ∅ (mkVerPlot [] [] []).

Definition default_theo_entry : theo_entry :=
  mkTheoEntry (Some 0) ∅ (mkTheoPlot [] [] [] [] []).

(** [np.arange(len(t_original)) * time_once], with [t_original] column 0
    when the frame has a column and the empty array otherwise. *)
Definition time_of (df : DataFrame) (time_once : R) : list float :=
  let t_original := if (0 <? shape1 df)%nat then column df 0 else [] in
  arange_times (length t_original) time_once.

(** The verification block ([if df.shape[1] > 2: ...]), written twice in the
    source, once per polarity, with the same text.  It assigns into the
    polarity's entry; [entry] is the entry before the block, the value is the
    entry after it. *)
Definition verification_block (df : DataFrame) (time_arr : list float)
    (reference_v initial_v r_load power_input time_once : R)
    (entry : ver_entry) : ver_entry :=
  if (2 <? shape1 df)%nat then
    let output_v_verification := column df 2 in
    let output_i_verification :=
      map (current_of_voltage reference_v initial_v) output_v_verification in
    let valid_idx_ver :=
      mask_and (not_nan output_i_verification) (not_nan time_arr) in
    if np_any valid_idx_ver then
      let output_i_ver_cleaned := mask_select output_i_verification valid_idx_ver in
      let time_ver_cleaned := mask_select time_arr valid_idx_ver in
      if (2 <=? length output_i_ver_cleaned)%nat then
        let output_power_ver := map (power_of_current r_load) output_i_ver_cleaned in
        let plot := mkVerPlot time_ver_cleaned output_i_ver_cleaned output_power_ver in
        let output_energy := trapz output_power_ver time_ver_cleaned in
        let input_duration := INR (length time_ver_cleaned) * time_once in
        let input_energy := power_input * input_duration in
        if Rlt_dec 0 input_energy
        then mkVerEntry (div output_energy (Some input_energy)) (stats entry) plot
        else mkVerEntry (efficiency entry) (stats entry) plot
      else entry
    else entry
  else entry.

(** The theoretical block ([if df.shape[1] > 7: ...]), likewise written once
    per polarity. *)
Definition theoretical_block (df : DataFrame) (time_arr : list float)
    (reference_v initial_v r_load drive_v : R)
    (entry : theo_entry) : theo_entry :=
  if (7 <? shape1 df)%nat then
    let output_v_theoretical := column df 6 in
    let output_i_theoretical :=
      map (current_of_voltage reference_v initial_v) output_v_theoretical in
    let input_v_theoretical := column df 7 in
    let input_i_theoretical :=
      map (current_of_voltage reference_v initial_v) input_v_theoretical in
    let valid_idx_theo :=
      mask_and (mask_and (not_nan output_i_theoretical) (not_nan input_i_theoretical))
        (not_nan time_arr) in
    if np_any valid_idx_theo then
      let output_i_theo_cleaned := mask_select output_i_theoretical valid_idx_theo in
      let input_i_theo_cleaned := mask_select input_i_theoretical valid_idx_theo in
      let time_theo_cleaned := mask_select time_arr valid_idx_theo in
      if (2 <=? length output_i_theo_cleaned)%nat then
        let output_power_theo := map (power_of_current r_load) output_i_theo_cleaned in
        let input_power_theo := map (mul (Some drive_v)) input_i_theo_cleaned in
        let plot :=
          mkTheoPlot time_theo_cleaned output_i_theo_cleaned input_i_theo_cleaned
            output_power_theo input_power_theo in
        let numerator := trapz output_power_theo time_theo_cleaned in
        let denominator := trapz input_power_theo time_theo_cleaned in
        if gtb denominator (Some 0)
        then mkTheoEntry (div numerator denominator) (t_stats entry) plot
        else mkTheoEntry (t_efficiency entry) (t_stats entry) plot
      else entry
    else entry
  else entry.

(** What the code does with one non-empty polarity frame: the channel
    statistics, then the two blocks. *)
Definition process_polarity (df : DataFrame)
    (reference_v initial_v r_load drive_v power_input time_once : R)
    (ver : ver_entry) (theo : theo_entry) : ver_entry * theo_entry :=
  let st := channel_stats df in
  let ver := mkVerEntry (efficiency ver) st (plot_data ver) in
  let theo := mkTheoEntry (t_efficiency theo) st (t_plot_data theo) in
  let time_arr := time_of df time_once in
  (verification_block df time_arr reference_v initial_v r_load power_input
     time_once ver,
   theoretical_block df time_arr reference_v initial_v r_load drive_v theo).

(** [(max(0, a) * max(0, b)) ** 0.5], the verification combiner
    (also the body of [compare_dual_motor_efficiencies]). *)
Definition combine (eff_forward eff_reverse : float) : float :=
  let ver_zheng_eff := max0 eff_forward in
  let ver_fan_eff := max0 eff_reverse in
  pow_half (mul ver_zheng_eff ver_fan_eff).

(** [(max(0, raw)) ** 0.5 * 100] *)
Definition theo_processed (raw : float) : float :=
  mul (pow_half (max0 raw)) (Some 100).

(** The theoretical [finished_efficiency] from the two processed values. *)
Definition theo_finished (theo_zheng_processed theo_fan_processed : float) : float :=
  if geb theo_zheng_processed (Some 0) && geb theo_fan_processed (Some 0)
  then pow_half (div (mul theo_zheng_processed theo_fan_processed) (Some 10000))
  else Some 0.

Definition calculate_unified_efficiencies
    (zheng_file fan_file : DataFrame)
    (reference_v initial_v r_load drive_v power_input sampling_freq : R)
    (points_to_process_zheng points_to_process_fan : option Z) : option results :=
  time_once ← py_div 1 sampling_freq;
  let data_zheng_df := truncate zheng_file points_to_process_zheng in
  if df_empty data_zheng_df then None else
  let '(ver_zheng, theo_zheng) :=
    process_polarity data_zheng_df reference_v initial_v r_load drive_v
      power_input time_once default_ver_entry default_theo_entry in
  let data_fan_df := truncate fan_file points_to_process_fan in
  let '(ver_fan, theo_fan) :=
    if negb (df_empty data_fan_df)
    then process_polarity data_fan_df reference_v initial_v r_load drive_v
           power_input time_once default_ver_entry default_theo_entry
    else (default_ver_entry, default_theo_entry) in
  let ver_finished := combine (efficiency ver_zheng) (efficiency ver_fan) in
  let theo_zheng_raw := t_efficiency theo_zheng in
  let theo_fan_raw := t_efficiency theo_fan in
  let theo_zheng_processed := theo_processed theo_zheng_raw in
  let theo_fan_processed := theo_processed theo_fan_raw in
  let theo_fin := theo_finished theo_zheng_processed theo_fan_processed in
  let theo_zheng :=
    mkTheoEntry (div theo_zheng_processed (Some 100)) (t_stats theo_zheng)
      (t_plot_data theo_zheng) in
  let theo_fan :=
    mkTheoEntry (div theo_fan_processed (Some 100)) (t_stats theo_fan)
      (t_plot_data theo_fan) in
  Some (mkResults
          (mkVerGroup ver_zheng ver_fan ver_finished)
          (mkTheoGroup theo_zheng theo_fan theo_fin)
          (mkComparison
             (abs (sub (t_efficiency theo_zheng) (efficiency ver_zheng)))
             (abs (sub (t_efficiency theo_fan) (efficiency ver_fan)))
             (abs (sub theo_fin ver_finished)))).

End Unified.

(** ** [unified_calculator.ExperimentConfig] *)

Module Config.

Inductive exploration : Type :=
  | voltage
  | resistance
  | magnetic_distance.

Inductive exn : Type :=
  | IndexError.

Inductive pyresult (A : Type) : Type :=
  | Returned (a : A)
  | Raised (e : exn).

Arguments Returned {A} a.
Arguments Raised {A} e.

(** [l[i]] on a Python list: a negative index counts from the end, and an
    index outside [-len(l) .. len(l) - 1] raises [IndexError]. *)
Definition list_getitem {A : Type} (l : list A) (i : Z) : pyresult A :=
  let n := Z.of_nat (length l) in
  let pos := if (i <? 0)%Z then (i + n)%Z else i in
  if (pos <? 0)%Z || (n <=? pos)%Z then Raised IndexError
  else match l !! Z.to_nat pos with
       | Some x => Returned x
       | None => Raised IndexError
       end.

Section WithValues.

Context {V : Type}.

Record ExperimentConfig : Type := mkConfig {
  exploration_type : option exploration;
  fixed_params : gmap string V;
  variable_params : list (gmap string V);
  common_params : gmap string V;
  is_factor_exploration_mode : bool
}.

(** [d.update(other)]: keys of [other] win. *)
Definition dict_update (d other : gmap string V) : gmap string V := other ∪ d.

Definition get_experiment_params (self : ExperimentConfig) (index : Z)
    : pyresult (gmap string V) :=
  if (Z.of_nat (length (variable_params self)) <=? index)%Z
  then Raised IndexError
  else
    let params := common_params self in
    let params := dict_update params (fixed_params self) in
    match list_getitem (variable_params self) index with
    | Returned level => Returned (dict_update params level)
    | Raised e => Raised e
    end.

End WithValues.

Arguments ExperimentConfig V : clear implicits.

End Config.

(** ** Notions used to state the properties *)

(** The samples of a column that survive NaN filtering, each with the index
    of its row in the (truncated) table; [k] is the index of the first row. *)
Fixpoint valid_from (k : nat) (col : list float) : list (nat * R) :=
  match col with
  | [] => []
  | Some v :: col' => (k, v) :: valid_from (S k) col'
  | None :: col' => valid_from (S k) col'
  end.

Definition valid_samples (col : list float) : list (nat * R) := valid_from 0 col.

(** The trapezoidal rule on real sequences. *)
Fixpoint trapzR (y x : list R) : R :=
  match y, x with
  | y0 :: ys, x0 :: xs =>
      match ys, xs with
      | y1 :: _, x1 :: _ => (x1 - x0) * (y1 + y0) / 2 + trapzR ys xs
      | _, _ => 0
      end
  | _, _ => 0
  end.

(** Current decoded from a raw voltage. *)
Definition decode (reference_v initial_v v : R) : R := (v - initial_v) / reference_v.

(** Currents and times of the surviving AIN2 samples of a table. *)
Definition ain2_samples (df : DataFrame) : list (nat * R) :=
  valid_samples (column df 2).

Definition currents_of (reference_v initial_v : R) (s : list (nat * R)) : list R :=
  map (fun p => decode reference_v initial_v p.2) s.

Definition times_of (sampling_freq : R) (s : list (nat * R)) : list R :=
  map (fun p => INR p.1 * (1 / sampling_freq)) s.

Definition powers_of (r_load : R) (currents : list R) : list R :=
  map (fun i => i * i * r_load) currents.

(** ** Sample inputs *)

(** A three-column table (raw time, AIN1, AIN2) with the given AIN2 cells. *)
Definition ain2_table (ain2 : list float) : DataFrame :=
  mkDataFrame 3 (map (fun c => [Some 0; Some 0; c]) ain2).

(** Number of valid samples the verification method finds in a frame:
    the non-NaN AIN2 cells, none when the frame has no AIN2 column. *)
Definition ver_valid_count (df : DataFrame) : nat :=
  if (2 <? shape1 df)%nat then length (ain2_samples df) else 0%nat.

(** Number of valid aligned samples of the theoretical method: the rows
    whose columns 6 and 7 are both non-NaN, none when the frame has fewer
    than 8 columns. *)
Definition theo_valid_count (df : DataFrame) : nat :=
  if (7 <? shape1 df)%nat
  then length (List.filter (fun p : float * float => negb (isnan p.1) && negb (isnan p.2))
                 (zip (column df 6) (column df 7)))
  else 0%nat.

(** The raw integrated ratio of the theoretical method for one polarity:
    the value of [results["theoretical"][polarity]["efficiency"]] before it
    is replaced by its processed value. *)
Definition theoretical_raw (df : DataFrame)
    (reference_v initial_v r_load drive_v power_input time_once : R) : float :=
  if df_empty df then Some 0
  else Unified.t_efficiency
         (Unified.process_polarity df reference_v initial_v r_load drive_v
            power_input time_once Unified.default_ver_entry
            Unified.default_theo_entry).2.

(** The layered parameter set, key for key: the level's value if the level
    has the key, else the fixed value if [fixed_params] has it, else the
    common value. *)
Definition layered_lookup {V : Type} (common fixed level : gmap string V)
    (key : string) : option V :=
  match level !! key with
  | Some v => Some v
  | None =>
      match fixed !! key with
      | Some v => Some v
      | None => common !! key
      end
  end.

(** A voltage sweep of two levels; [r_load] is both a common and a fixed
    parameter. *)
Definition two_level_config : Config.ExperimentConfig R :=
  Config.mkConfig (Some Config.voltage)
    {[ "r_load"%string := 10 ]}
    [ {[ "drive_v"%string := 6 ]} ; {[ "drive_v"%string := 12 ]} ]
    (<[ "r_load"%string := 5 ]> {[ "reference_v"%string := 1 ]})
    false.

(** An eight-column table with the given cells in columns 6 and 7 (the
    output and input channels of the theoretical method). *)
Definition theo_table (cells : list (float * float)) : DataFrame :=
  mkDataFrame 8
    (map (fun c : float * float =>
            [Some 0; Some 0; Some 0; Some 0; Some 0; Some 0; c.1; c.2])
       cells).

(** ** [ExperimentConfig]: construction and configuration

    Parameter values are floats throughout the callers, so the value type is
    [R] here.  A method that assigns to fields of [self] is a function from
    the configuration before the call to the configuration after it. *)

Module Configure.

(** [ExperimentConfig.__init__] *)
Definition init (is_factor_exploration_mode : bool) : Config.ExperimentConfig R :=
  Config.mkConfig None ∅ []
    (<["reference_v"%string := 1]>
       (<["initial_v"%string := 0]>
          (<["sampling_freq"%string := 87500]> ∅)))
    is_factor_exploration_mode.

(** [configure_voltage_exploration(voltage_levels, r_load_fixed=None)]:
    [fixed_params] is updated in place, not replaced. *)
Definition configure_voltage_exploration (self : Config.ExperimentConfig R)
    (voltage_levels : list (gmap string R)) (r_load_fixed : option R)
    : Config.ExperimentConfig R :=
  let fixed_params :=
    match r_load_fixed with
    | Some r => <["r_load"%string := r]> (Config.fixed_params self)
    | None => Config.fixed_params self
    end in
  Config.mkConfig (Some Config.voltage) fixed_params voltage_levels
    (Config.common_params self) (Config.is_factor_exploration_mode self).

(** [configure_resistance_exploration(resistance_power_levels,
    drive_v_fixed=12.0)]: [fixed_params] is replaced by a new dict. *)
Definition configure_resistance_exploration (self : Config.ExperimentConfig R)
    (resistance_power_levels : list (gmap string R)) (drive_v_fixed : R)
    : Config.ExperimentConfig R :=
  Config.mkConfig (Some Config.resistance)
    {[ "drive_v"%string := drive_v_fixed ]}
    resistance_power_levels
    (Config.common_params self) (Config.is_factor_exploration_mode self).

(** [configure_magnetic_distance_exploration(distance_levels,
    drive_v_fixed=12.0, r_load_fixed=None)] *)
Definition configure_magnetic_distance_exploration
    (self : Config.ExperimentConfig R)
    (distance_levels : list R) (drive_v_fixed : R) (r_load_fixed : option R)
    : Config.ExperimentConfig R :=
  let fixed_params : gmap string R := {[ "drive_v"%string := drive_v_fixed ]} in
  let fixed_params :=
    match r_load_fixed with
    | Some r => <["r_load"%string := r]> fixed_params
    | None => fixed_params
    end in
  let variable_params :=
    map (fun distance =>
           let power_input := 10 in
           <["power_input"%string := power_input]>
             ({[ "magnetic_distance"%string := distance ]} : gmap string R))
      distance_levels in
  Config.mkConfig (Some Config.magnetic_distance) fixed_params variable_params
    (Config.common_params self) (Config.is_factor_exploration_mode self).

End Configure.

(** ** [BatchExperimentAnalyzer.run_batch_experiments]

    The file system is seen through the path patterns: a pattern is the
    function from the 1-based experiment index [k] to what lies at the path
    [pattern.format(index=k)]. *)

Module Batch.

(** What lies at a path: nothing, a file [pd.read_csv] raises on (empty,
    unparsable), or a file it reads into a frame. *)
Inductive file : Type :=
  | Missing
  | Unreadable
  | Readable (df : DataFrame).

(** [os.path.exists(path)] *)
Definition path_exists (f : file) : bool :=
  match f with
  | Missing => false
  | Unreadable | Readable _ => true
  end.

(** [calculate_unified_efficiencies] called on two paths: an exception of
    either [pd.read_csv] is caught by its handlers, which return [None]. *)
Definition unified_on_paths (zheng_file_path fan_file_path : file)
    (reference_v initial_v r_load drive_v power_input sampling_freq : R)
    (points_to_process_zheng points_to_process_fan : option Z)
    : option Unified.results :=
  match zheng_file_path, fan_file_path with
  | Readable zheng, Readable fan =>
      Unified.calculate_unified_efficiencies zheng fan reference_v initial_v
        r_load drive_v power_input sampling_freq points_to_process_zheng
        points_to_process_fan
  | _, _ => None
  end.

Inductive error : Type :=
  | ConfigError (e : Config.exn)
  | KeyError (key : string).

Inductive outcome (A : Type) : Type :=
  | Value (a : A)
  | Exception (e : error).

Arguments Value {A} a.
Arguments Exception {A} e.

Definition bind {A B : Type} (m : outcome A) (k : A -> outcome B) : outcome B :=
  match m with
  | Value a => k a
  | Exception e => Exception e
  end.

(** [d[key]] on a dict. *)
Definition getitem (d : gmap string R) (key : string) : outcome R :=
  match d !! key with
  | Some v => Value v
  | None => Exception (KeyError key)
  end.

(** The call of [calculate_unified_efficiencies] in the loop body; the
    keyword arguments are evaluated from left to right. *)
Definition call_unified (params_from_config : gmap string R)
    (zheng_file fan_file : file) (points_to_process : option Z)
    : outcome (option Unified.results) :=
  bind (getitem params_from_config "reference_v") (fun reference_v =>
  bind (getitem params_from_config "initial_v") (fun initial_v =>
  bind (getitem params_from_config "r_load") (fun r_load =>
  let drive_v := default 0 (params_from_config !! "drive_v"%string) in
  bind (getitem params_from_config "power_input") (fun power_input =>
  bind (getitem params_from_config "sampling_freq") (fun sampling_freq =>
  Value (unified_on_paths zheng_file fan_file reference_v initial_v r_load
           drive_v power_input sampling_freq points_to_process
           points_to_process)))))).

(** The dict appended in factor-exploration mode. *)
Record simplified_result : Type := mkSimplified {
  s_experiment_params : gmap string R;
  s_experiment_index : nat;
  s_factor_exploration_mode : bool;
  s_efficiency : float;
  s_plot_data : Unified.ver_plot;
  s_avg_output_power : float;
  s_max_output_power : float
}.

(** The unified result with its two added keys, appended in dual-motor
    mode. *)
Record full_result : Type := mkFull {
  f_result : Unified.results;
  f_experiment_params : gmap string R;
  f_experiment_index : nat
}.

Inductive entry : Type :=
  | Simplified (s : simplified_result)
  | Full (f : full_result).

Definition experiment_index (e : entry) : nat :=
  match e with
  | Simplified s => s_experiment_index s
  | Full f => f_experiment_index f
  end.

Definition experiment_params (e : entry) : gmap string R :=
  match e with
  | Simplified s => s_experiment_params s
  | Full f => f_experiment_params f
  end.

(** [np.mean(power) if len(power) > 0 else 0] *)
Definition mean_or_zero (power : list float) : float :=
  if (0 <? length power)%nat then np_mean power else Some 0.

(** [np.max(power) if len(power) > 0 else 0]; [np_max] is [None] exactly on
    the empty array, the case the guard replaces by 0. *)
Definition max_or_zero (power : list float) : float :=
  default (Some 0) (np_max power).

(** What one iteration of the loop does. *)
Inductive step : Type :=
  | Continue
  | Append (e : entry)
  | Return
  | Raise (e : error).

Definition level_step (config : Config.ExperimentConfig R)
    (file_pattern_or_zheng : nat -> file)
    (fan_file_pattern : option (nat -> file))
    (points_to_process : option Z) (i : nat) : step :=
  match Config.get_experiment_params config (Z.of_nat i) with
  | Config.Raised e => Raise (ConfigError e)
  | Config.Returned params_from_config =>
      let current_file_path := file_pattern_or_zheng (i + 1)%nat in
      if Config.is_factor_exploration_mode config then
        if negb (path_exists current_file_path) then Continue
        else
          match call_unified params_from_config current_file_path
                  current_file_path points_to_process with
          | Exception e => Raise e
          | Value None => Continue
          | Value (Some result) =>
              let power :=
                Unified.power
                  (Unified.plot_data (Unified.zheng (Unified.verification result))) in
              Append (Simplified
                (mkSimplified params_from_config (i + 1) true
                   (Unified.finished_efficiency (Unified.verification result))
                   (Unified.plot_data (Unified.zheng (Unified.verification result)))
                   (mean_or_zero power) (max_or_zero power)))
          end
      else
        match fan_file_pattern with
        | None => Return
        | Some fan_pattern =>
            let zheng_file := current_file_path in
            let fan_file := fan_pattern (i + 1)%nat in
            if negb (path_exists zheng_file) || negb (path_exists fan_file)
            then Continue
            else
              match call_unified params_from_config zheng_file fan_file
                      points_to_process with
              | Exception e => Raise e
              | Value None => Continue
              | Value (Some result) =>
                  Append (Full (mkFull result params_from_config (i + 1)))
              end
        end
  end.

(** The [for] loop over the remaining level indices; [results] is
    [self.results] so far.  The value is [self.results] when the method
    ends, with the exception it ends by, if any. *)
Fixpoint run_levels (config : Config.ExperimentConfig R)
    (file_pattern_or_zheng : nat -> file)
    (fan_file_pattern : option (nat -> file))
    (points_to_process : option Z)
    (levels : list nat) (results : list entry) : list entry * option error :=
  match levels with
  | [] => (results, None)
  | i :: levels' =>
      match level_step config file_pattern_or_zheng fan_file_pattern
              points_to_process i with
      | Continue =>
          run_levels config file_pattern_or_zheng fan_file_pattern
            points_to_process levels' results
      | Append e =>
          run_levels config file_pattern_or_zheng fan_file_pattern
            points_to_process levels' (results ++ [e])
      | Return => (results, None)
      | Raise e => (results, Some e)
      end
  end.

Definition run_batch_experiments (config : Config.ExperimentConfig R)
    (file_pattern_or_zheng : nat -> file)
    (fan_file_pattern : option (nat -> file))
    (points_to_process : option Z) : list entry * option error :=
  run_levels config file_pattern_or_zheng fan_file_pattern points_to_process
    (seq 0 (length (Config.variable_params config))) [].

End Batch.

(** A factor-exploration voltage sweep of two levels whose common parameters
    hold every calibration value the batch loop reads. *)
Definition sweep_config : Config.ExperimentConfig R :=
  Configure.configure_voltage_exploration
    (Config.mkConfig None ∅ []
       (<["reference_v"%string := 1]>
          (<["initial_v"%string := 0]>
             (<["sampling_freq"%string := 100]> ∅)))
       true)
    [ <["drive_v"%string := 6]> {[ "power_input"%string := 1 ]} ;
      <["drive_v"%string := 12]> {[ "power_input"%string := 1 ]} ]
    (Some 2).

(** Files of a sweep: no file for experiment 1, a three-row table for every
    other index. *)
Definition sweep_files (k : nat) : Batch.file :=
  if (k =? 1)%nat then Batch.Missing
  else Batch.Readable (ain2_table [Some 3; None; Some 3]).

(** The calibration keys the batch loop reads with [params[key]]. *)
Definition required_keys : list string :=
  ["reference_v"; "initial_v"; "r_load"; "power_input"; "sampling_freq"]%string.

(** ** [factor_calculator.calculate_factor_experiment] *)

Module FactorExp.






(** The label of an experiment: the string given under ["label"], or the
    default [f"Factor={factor_value}"], kept unformatted. *)
Inductive label : Type :=
  | Label (text : string)
  | FactorLabel (factor_value : R).



Record trend : Type := mkTrend {
  linear_slope : float;
  linear_intercept : float;
  optimal_factor : R;
  optimal_efficiency : float;
  efficiency_range : float;
  relative_change : float
}.

(** The returned dict; [trend_analysis] is [None] for the empty dict. *)
Record results : Type := mkResults {
  factor_values : list R;
  efficiencies : list float;
  labels : list label;
  avg_powers : list float;
  trend_analysis : option trend
}.



Section WithPolyfit.

(** [np.polyfit(x, y, 1)], NumPy's least-squares line fit: the pair
    [(coeffs[0], coeffs[1])]. *)
Variable polyfit1 : list R -> list float -> float * float.



End WithPolyfit.

End FactorExp.



(** ** [ExperimentConfig.save_config] and [load_config]

    The durable record is the JSON object [json.dump] writes and [json.load]
    reads back; it is modelled by its five keys, each possibly absent in a
    record that did not come from [save_config].  The JSON text in between
    is not modelled. *)

Module Persist.

Record document : Type := mkDocument {
  d_exploration_type : option (option Config.exploration);
  d_fixed_params : option (gmap string R);
  d_variable_params : option (list (gmap string R));
  d_common_params : option (gmap string R);
  d_timestamp : option string
}.

(** [save_config]: the dict [config_data] that is dumped; [now] is
    [datetime.now().strftime(...)]. *)
Definition save_config (self : Config.ExperimentConfig R) (now : string) : document :=
  mkDocument (Some (Config.exploration_type self))
    (Some (Config.fixed_params self))
    (Some (Config.variable_params self))
    (Some (Config.common_params self))
    (Some now).

(** [config_data[key]] *)
Definition field {A : Type} (value : option A) (key : string) : Batch.outcome A :=
  match value with
  | Some v => Batch.Value v
  | None => Batch.Exception (Batch.KeyError key)
  end.

(** [load_config]: [cls()] then the four assignments, in their order. *)
Definition load_config (config_data : document)
    : Batch.outcome (Config.ExperimentConfig R) :=
  let config := Configure.init false in
  Batch.bind (field (d_exploration_type config_data) "exploration_type")
    (fun exploration_type =>
  Batch.bind (field (d_fixed_params config_data) "fixed_params")
    (fun fixed_params =>
  Batch.bind (field (d_variable_params config_data) "variable_params")
    (fun variable_params =>
  Batch.bind (field (d_common_params config_data) "common_params")
    (fun common_params =>
  Batch.Value
    (Config.mkConfig exploration_type fixed_params variable_params
       common_params (Config.is_factor_exploration_mode config)))))).

End Persist.

(** ** [BatchExperimentAnalyzer.generate_comparison_table]

    The loop that builds [table_data].  The [pd.DataFrame] made from it, the
    workbook that is written and the file name are outside the model: the
    value is the list of rows handed to [pd.DataFrame], [None] for the early
    [return None].  A formatted number [f"{x:.4f}"] is kept unformatted. *)

Module Table.

Inductive cell : Type :=
  | Int (n : nat)
  | Number (x : R)
  | Formatted4 (x : float).

(** A row dict, in insertion order. *)
Definition row : Type := list (string * cell).

(** The columns that depend on the exploration type; [i] is the position of
    the result in [self.results]. *)
Definition swept_columns (config : Config.ExperimentConfig R) (i : nat)
    (params : gmap string R) : Batch.outcome row :=
  match Config.exploration_type config with
  | Some Config.voltage =>
      Batch.bind (Batch.getitem params "drive_v") (fun drive_v =>
      Batch.bind (Batch.getitem params "power_input") (fun power_input =>
      Batch.Value [("输入电压(V)"%string, Number drive_v);
                   ("输入功率(W)"%string, Number power_input)]))
  | Some Config.resistance =>
      Batch.bind (Batch.getitem params "r_load") (fun r_load =>
      Batch.bind (Batch.getitem params "power_input") (fun power_input =>
      Batch.Value [("负载电阻(Ω)"%string, Number r_load);
                   ("输入功率(W)"%string, Number power_input)]))
  | _ =>
      match Config.variable_params config !! i with
      | None => Batch.Exception (Batch.ConfigError Config.IndexError)
      | Some var_params =>
          let distance :=
            match var_params !! "magnetic_distance"%string with
            | Some d => [("磁场距离(mm)"%string, Number d)]
            | None => []
            end in
          Batch.bind (Batch.getitem params "power_input") (fun power_input =>
          Batch.Value (distance ++ [("输入功率(W)"%string, Number power_input)]))
      end
  end.

(** The efficiency columns.  Neither kind of entry has a ['simple_mode']
    key, so the [else] branch is taken; a simplified result has no
    ['verification'] key. *)
Definition efficiency_columns (result : Batch.entry) : Batch.outcome row :=
  match result with
  | Batch.Simplified _ => Batch.Exception (Batch.KeyError "verification")
  | Batch.Full f =>
      let r := Batch.f_result f in
      Batch.Value
        [("验证实验-正接效率"%string,
          Formatted4 (Unified.efficiency (Unified.zheng (Unified.verification r))));
         ("验证实验-反接效率"%string,
          Formatted4 (Unified.efficiency (Unified.fan (Unified.verification r))));
         ("验证实验-综合效率"%string,
          Formatted4 (Unified.finished_efficiency (Unified.verification r)));
         ("理论实验-正接效率"%string,
          Formatted4 (Unified.t_efficiency (Unified.t_zheng (Unified.theoretical r))));
         ("理论实验-反接效率"%string,
          Formatted4 (Unified.t_efficiency (Unified.t_fan (Unified.theoretical r))));
         ("理论实验-综合效率"%string,
          Formatted4 (Unified.t_finished_efficiency (Unified.theoretical r)));
         ("正接效率差值"%string, Formatted4 (Unified.zheng_diff (Unified.comparison r)));
         ("反接效率差值"%string, Formatted4 (Unified.fan_diff (Unified.comparison r)));
         ("综合效率差值"%string,
          Formatted4 (Unified.finished_diff (Unified.comparison r)))]
  end.

(** One iteration of the loop. *)
Definition table_row (config : Config.ExperimentConfig R) (i : nat)
    (result : Batch.entry) : Batch.outcome row :=
  let params := Batch.experiment_params result in
  Batch.bind (swept_columns config i params) (fun swept =>
  Batch.bind (efficiency_columns result) (fun effs =>
  Batch.Value (("实验组"%string, Int (Batch.experiment_index result)) :: swept ++ effs))).

(** The loop over [enumerate(self.results)], from position [i] on. *)
Fixpoint table_rows (config : Config.ExperimentConfig R) (i : nat)
    (results : list Batch.entry) : Batch.outcome (list row) :=
  match results with
  | [] => Batch.Value []
  | result :: results' =>
      Batch.bind (table_row config i result) (fun r =>
      Batch.bind (table_rows config (S i) results') (fun rs =>
      Batch.Value (r :: rs)))
  end.

Definition generate_comparison_table (config : Config.ExperimentConfig R)
    (results : list Batch.entry) : Batch.outcome (option (list row)) :=
  match results with
  | [] => Batch.Value None
  | _ :: _ =>
      Batch.bind (table_rows config 0 results) (fun table_data =>
      Batch.Value (Some table_data))
  end.

End Table.

(** A dual-motor magnetic-distance sweep over the distances 5 and 8 mm. *)
Definition distance_config : Config.ExperimentConfig R :=
  Configure.configure_magnetic_distance_exploration
    (Config.mkConfig None ∅ []
       (<["reference_v"%string := 1]>
          (<["initial_v"%string := 0]>
             (<["sampling_freq"%string := 100]> ∅)))
       false)
    [5; 8] 12 (Some 2).

(** ** Arrays without NaN *)

Lemma not_nan_decoded (reference_v initial_v : R) (col : list float) :
  not_nan (map (current_of_voltage reference_v initial_v) col) = not_nan col.
Proof.
  unfold not_nan. rewrite map_map. apply map_ext. intros [v|]; reflexivity.
Qed.

Lemma not_nan_arange (n k0 : nat) (t : R) :
  not_nan (map (fun k => Some (INR k * t)) (seq k0 n)) = repeat true n.
Proof.
  revert k0. induction n as [|n IH]; intros k0; simpl; [reflexivity|].
  f_equal. apply IH.
Qed.

Lemma mask_and_true_r (m : list bool) :
  mask_and m (repeat true (length m)) = m.
Proof.
  induction m as [|b m IH]; simpl; [reflexivity|].
  unfold mask_and in *. simpl. rewrite IH. destruct b; reflexivity.
Qed.

Lemma length_not_nan (a : list float) : length (not_nan a) = length a.
Proof. unfold not_nan. apply length_map. Qed.

Lemma select_decoded (reference_v initial_v : R) (col : list float) (k : nat) :
  mask_select (map (current_of_voltage reference_v initial_v) col) (not_nan col)
  = map Some (currents_of reference_v initial_v (valid_from k col)).
Proof.
  revert k. induction col as [|[v|] col IH]; intros k; simpl.
  - reflexivity.
  - f_equal. apply IH.
  - apply IH.
Qed.

Lemma select_times (t : R) (col : list float) (k : nat) :
  mask_select (map (fun i => Some (INR i * t)) (seq k (length col))) (not_nan col)
  = map (fun p => Some (INR p.1 * t)) (valid_from k col).
Proof.
  revert k. induction col as [|[v|] col IH]; intros k; simpl.
  - reflexivity.
  - f_equal. apply IH.
  - apply IH.
Qed.

Lemma np_any_not_nan (col : list float) (k : nat) :
  np_any (not_nan col) = negb (length (valid_from k col) =? 0)%nat.
Proof.
  revert k. induction col as [|[v|] col IH]; intros k; simpl.
  - reflexivity.
  - reflexivity.
  - apply IH.
Qed.

Lemma trapz_real (ys xs : list R) :
  trapz (map Some ys) (map Some xs) = Some (trapzR ys xs).
Proof.
  revert xs. induction ys as [|y0 ys IH]; intros xs; simpl; [reflexivity|].
  destruct xs as [|x0 xs]; simpl; [reflexivity|].
  destruct ys as [|y1 ys]; simpl; [reflexivity|].
  destruct xs as [|x1 xs]; simpl; [reflexivity|].
  specialize (IH (x1 :: xs)). simpl in IH. rewrite IH. reflexivity.
Qed.

Lemma power_real (r_load : R) (currents : list R) :
  map (power_of_current r_load) (map Some currents)
  = map Some (powers_of r_load currents).
Proof.
  unfold powers_of. rewrite !map_map. reflexivity.
Qed.

Lemma np_max_nonempty (a : list float) :
  (0 < length a)%nat -> exists m, np_max a = Some m.
Proof.
  destruct a as [|x a]; simpl; [lia|]. intros _. eexists. reflexivity.
Qed.

Lemma length_valid_from (col : list float) (k : nat) :
  (length (valid_from k col) <= length col)%nat.
Proof.
  revert k. induction col as [|[v|] col IH]; intros k; simpl.
  - lia.
  - specialize (IH (S k)). lia.
  - specialize (IH (S k)). lia.
Qed.

Lemma length_column (df : DataFrame) (j : nat) :
  length (column df j) = df_len df.
Proof. unfold column, df_len. apply length_map. Qed.

Lemma length_currents_of (reference_v initial_v : R) (s : list (nat * R)) :
  length (currents_of reference_v initial_v s) = length s.
Proof. unfold currents_of. apply length_map. Qed.

Lemma length_times_of (f : R) (s : list (nat * R)) :
  length (times_of f s) = length s.
Proof. unfold times_of. apply length_map. Qed.

(** The valid mask of the verification method is the NaN mask of the AIN2
    column: the synthetic time array never holds NaN. *)
Lemma verification_mask (reference_v initial_v t : R) (col : list float) :
  mask_and (not_nan (map (current_of_voltage reference_v initial_v) col))
    (not_nan (arange_times (length col) t))
  = not_nan col.
Proof.
  rewrite not_nan_decoded. unfold arange_times. rewrite not_nan_arange.
  rewrite <- (length_not_nan col). apply mask_and_true_r.
Qed.

(** The record [calculate_simple_efficiency] returns, in real arithmetic. *)
Lemma simple_efficiency_value
    (df : DataFrame) (reference_v initial_v r_load power_input sampling_freq : R)
    (points : option Z) :
  sampling_freq <> 0 ->
  (3 <= shape1 (truncate df points))%nat ->
  (2 <= length (ain2_samples (truncate df points)))%nat ->
  let s := ain2_samples (truncate df points) in
  let currents := currents_of reference_v initial_v s in
  let times := times_of sampling_freq s in
  let powers := powers_of r_load currents in
  let duration := INR (length s) * (1 / sampling_freq) in
  let input_energy := power_input * duration in
  exists mx,
    Simple.calculate_simple_efficiency df reference_v initial_v r_load
      power_input sampling_freq points
    = Some (Simple.mkResult
              (if Rlt_dec 0 input_energy
               then Some (trapzR powers times / input_energy) else Some 0)
              (np_mean (map Some powers)) mx
              (Some (trapzR powers times)) (Some input_energy) (Some duration)
              (Simple.mkPlot (map Some times) (map Some currents)
                 (map Some powers))).
Proof.
  intros Hf Hcols Hvalid s currents times powers duration input_energy.
  unfold Simple.calculate_simple_efficiency, py_div.
  destruct (Req_dec_T sampling_freq 0) as [E|_]; [contradiction|]. simpl.
  set (d := truncate df points) in *.
  change (2 <= length s)%nat in Hvalid.
  assert (Hlen : (2 <= df_len d)%nat).
  { pose proof (length_valid_from (column d 2) 0) as H.
    rewrite length_column in H. fold (valid_samples (column d 2)) in H.
    fold (ain2_samples d) in H. fold s in H. lia. }
  assert (Hempty : df_empty d || (shape1 d <? 3)%nat = false).
  { unfold df_empty. apply orb_false_intro; [apply orb_false_intro|].
    - apply Nat.eqb_neq. lia.
    - apply Nat.eqb_neq. lia.
    - apply Nat.ltb_ge. lia. }
  rewrite Hempty.
  rewrite length_column, <- (length_column d 2).
  rewrite verification_mask.
  rewrite (np_any_not_nan _ 0).
  fold (valid_samples (column d 2)). fold (ain2_samples d). fold s.
  replace (length s =? 0)%nat with false by (symmetry; apply Nat.eqb_neq; lia).
  simpl negb. cbv iota.
  rewrite (select_decoded _ _ _ 0).
  unfold arange_times. rewrite (select_times _ _ 0).
  fold (valid_samples (column d 2)). fold (ain2_samples d). fold s.
  fold currents.
  change (map (λ p : nat * R, Some (INR p.1 * (1 / sampling_freq))) s)
    with (map (fun p : nat * R => Some (INR p.1 * (1 / sampling_freq))) s).
  replace (map (fun p : nat * R => Some (INR p.1 * (1 / sampling_freq))) s)
    with (map Some times) by (unfold times, times_of; rewrite map_map; reflexivity).
  rewrite !length_map.
  change (length currents) with (length (currents_of reference_v initial_v s)).
  change (length times) with (length (times_of sampling_freq s)).
  rewrite length_currents_of, length_times_of.
  replace (length s <? 2)%nat with false by (symmetry; apply Nat.ltb_ge; lia).
  rewrite power_real. fold powers. rewrite trapz_real.
  fold duration. fold input_energy.
  destruct (np_max_nonempty (map Some powers)) as [mx Hmx].
  { rewrite length_map. unfold powers, powers_of. rewrite length_map.
    unfold currents. rewrite length_currents_of. lia. }
  exists mx. rewrite Hmx. simpl.
  destruct (Rlt_dec 0 input_energy); reflexivity.
Qed.

(** The record [calculate_single_efficiency] returns, in real arithmetic. *)
Lemma single_efficiency_value
    (df : DataFrame) (reference_v initial_v r_load power_input sampling_freq : R)
    (points : option Z) :
  sampling_freq <> 0 ->
  (3 <= shape1 (truncate df points))%nat ->
  (1 <= length (ain2_samples (truncate df points)))%nat ->
  let s := ain2_samples (truncate df points) in
  let currents := currents_of reference_v initial_v s in
  let times := times_of sampling_freq s in
  let powers := powers_of r_load currents in
  let duration := INR (length s) * (1 / sampling_freq) in
  let input_energy := power_input * duration in
  exists mx,
    Single.calculate_single_efficiency df reference_v initial_v r_load
      power_input sampling_freq points
    = Some (Single.mkResult
              (if Rlt_dec 0 input_energy
               then Some (trapzR powers times / input_energy) else Some 0)
              (np_mean (map Some powers)) mx
              (np_mean (map Some currents)) (Some duration)
              (Single.mkPlot (map Some times) (map Some currents)
                 (map Some powers))).
Proof.
  intros Hf Hcols Hvalid s currents times powers duration input_energy.
  unfold Single.calculate_single_efficiency, py_div.
  set (d := truncate df points) in *.
  change (1 <= length s)%nat in Hvalid.
  assert (Hlen : (1 <= df_len d)%nat).
  { pose proof (length_valid_from (column d 2) 0) as H.
    rewrite length_column in H. fold (valid_samples (column d 2)) in H.
    fold (ain2_samples d) in H. fold s in H. lia. }
  assert (Hempty : df_empty d || (shape1 d <? 3)%nat = false).
  { unfold df_empty. apply orb_false_intro; [apply orb_false_intro|].
    - apply Nat.eqb_neq. lia.
    - apply Nat.eqb_neq. lia.
    - apply Nat.ltb_ge. lia. }
  rewrite Hempty.
  destruct (Req_dec_T sampling_freq 0) as [E|_]; [contradiction|]. simpl.
  rewrite <- (length_column d 2).
  rewrite not_nan_decoded.
  rewrite (np_any_not_nan _ 0).
  fold (valid_samples (column d 2)). fold (ain2_samples d). fold s.
  replace (length s =? 0)%nat with false by (symmetry; apply Nat.eqb_neq; lia).
  simpl negb. cbv iota.
  rewrite (select_decoded _ _ _ 0).
  unfold arange_times. rewrite (select_times _ _ 0).
  fold (valid_samples (column d 2)). fold (ain2_samples d). fold s.
  fold currents.
  change (map (λ p : nat * R, Some (INR p.1 * (1 / sampling_freq))) s)
    with (map (fun p : nat * R => Some (INR p.1 * (1 / sampling_freq))) s).
  replace (map (fun p : nat * R => Some (INR p.1 * (1 / sampling_freq))) s)
    with (map Some times) by (unfold times, times_of; rewrite map_map; reflexivity).
  rewrite !length_map.
  change (length times) with (length (times_of sampling_freq s)).
  rewrite length_times_of.
  rewrite power_real. fold powers. rewrite trapz_real.
  fold duration. fold input_energy.
  destruct (np_max_nonempty (map Some powers)) as [mx Hmx].
  { rewrite length_map. unfold powers, powers_of. rewrite length_map.
    unfold currents. rewrite length_currents_of. lia. }
  exists mx. rewrite Hmx. simpl.
  destruct (Rlt_dec 0 input_energy); reflexivity.
Qed.

(** ** Sign of the output energy *)

Lemma valid_from_head_ge (col : list float) (k k1 : nat) (v1 : R)
    (rest : list (nat * R)) :
  valid_from k col = (k1, v1) :: rest -> (k <= k1)%nat.
Proof.
  revert k. induction col as [|[v|] col IH]; intros k; simpl.
  - discriminate.
  - intros H. injection H as -> _ _. lia.
  - intros H. apply IH in H. lia.
Qed.

Lemma trapzR_valid_nonneg (reference_v initial_v r_load f : R)
    (col : list float) (k : nat) :
  0 < f -> 0 <= r_load ->
  0 <= trapzR (powers_of r_load (currents_of reference_v initial_v (valid_from k col)))
         (times_of f (valid_from k col)).
Proof.
  intros Hf Hr. revert k.
  induction col as [|[v|] col IH]; intros k.
  - simpl. lra.
  - specialize (IH (S k)).
    change (valid_from k (Some v :: col)) with ((k, v) :: valid_from (S k) col).
    destruct (valid_from (S k) col) as [|[k1 v1] rest] eqn:E.
    + simpl. lra.
    + apply valid_from_head_ge in E.
      assert (Hk : INR k <= INR k1) by (apply le_INR; lia).
      assert (Ht : 0 < 1 / f) by (apply Rdiv_lt_0_compat; lra).
      change (0 <= (INR k1 * (1 / f) - INR k * (1 / f))
                   * (decode reference_v initial_v v1 * decode reference_v initial_v v1 * r_load
                      + decode reference_v initial_v v * decode reference_v initial_v v * r_load) / 2
                   + trapzR (powers_of r_load (currents_of reference_v initial_v ((k1, v1) :: rest)))
                       (times_of f ((k1, v1) :: rest))).
      pose proof (Rle_0_sqr (decode reference_v initial_v v1)) as H1.
      pose proof (Rle_0_sqr (decode reference_v initial_v v)) as H0.
      unfold Rsqr in H1, H0.
      set (a1 := decode reference_v initial_v v1) in *.
      set (a0 := decode reference_v initial_v v) in *.
      assert (0 <= a1 * a1 * r_load + a0 * a0 * r_load) by nra.
      assert (0 <= INR k1 * (1 / f) - INR k * (1 / f)) by nra.
      assert (0 <= (INR k1 * (1 / f) - INR k * (1 / f))
                   * (a1 * a1 * r_load + a0 * a0 * r_load)) by (apply Rmult_le_pos; assumption).
      lra.
  - apply (IH (S k)).
Qed.

(** ** Verification method on one run *)

(** C1.  On a run whose (truncated) table has at least 3 columns and at least
    2 numerically valid AIN2 samples, with a non-zero sampling frequency and a
    non-zero current scale [reference_v] (the decoded current is a number only
    then), [calculate_simple_efficiency] returns a result whose [output_energy] is the
    trapezoidal integral of current^2 * r_load over the reconstructed times,
    whose [input_energy] is power_input * (valid_count / sampling_freq), and
    whose [efficiency] is their quotient when the input energy is positive and
    0 otherwise; [calculate_single_efficiency] returns the same efficiency.
    With a positive sampling frequency and a non-negative load the efficiency
    is non-negative. *)
Theorem verification_result_formulas
    (df : DataFrame) (reference_v initial_v r_load power_input sampling_freq : R)
    (points : option Z) :
  sampling_freq <> 0 ->
  reference_v <> 0 ->
  (3 <= shape1 (truncate df points))%nat ->
  (2 <= length (ain2_samples (truncate df points)))%nat ->
  let s := ain2_samples (truncate df points) in
  let times := times_of sampling_freq s in
  let powers := powers_of r_load (currents_of reference_v initial_v s) in
  let out_e := trapzR powers times in
  let in_e := power_input * (INR (length s) / sampling_freq) in
  exists r r',
    Simple.calculate_simple_efficiency df reference_v initial_v r_load
      power_input sampling_freq points = Some r /\
    Single.calculate_single_efficiency df reference_v initial_v r_load
      power_input sampling_freq points = Some r' /\
    Simple.time (Simple.plot_data r) = map Some times /\
    Simple.power (Simple.plot_data r) = map Some powers /\
    Simple.output_energy r = Some out_e /\
    Simple.input_energy r = Some in_e /\
    (0 < in_e -> Simple.efficiency r = Some (out_e / in_e)) /\
    (in_e <= 0 -> Simple.efficiency r = Some 0) /\
    Single.efficiency r' = Simple.efficiency r /\
    (0 < sampling_freq -> 0 <= r_load ->
     exists e, Simple.efficiency r = Some e /\ 0 <= e).
Proof.
  intros Hf _ Hcols Hvalid s times powers out_e in_e.
  destruct (simple_efficiency_value df reference_v initial_v r_load power_input
              sampling_freq points Hf Hcols Hvalid) as [mx Hsimple].
  destruct (single_efficiency_value df reference_v initial_v r_load power_input
              sampling_freq points Hf Hcols) as [mx' Hsingle].
  { lia. }
  cbv zeta in Hsimple, Hsingle.
  fold s in Hsimple, Hsingle. fold times in Hsimple, Hsingle.
  fold powers in Hsimple, Hsingle. fold out_e in Hsimple, Hsingle.
  assert (Hin : power_input * (INR (length s) * (1 / sampling_freq)) = in_e).
  { unfold in_e. field. exact Hf. }
  rewrite Hin in Hsimple, Hsingle.
  eexists. eexists.
  split; [exact Hsimple|]. split; [exact Hsingle|]. simpl.
  split; [reflexivity|]. split; [reflexivity|]. split; [reflexivity|].
  split; [reflexivity|].
  split; [|split; [|split]].
  - intros Hpos. destruct (Rlt_dec 0 in_e); [reflexivity|contradiction].
  - intros Hle. destruct (Rlt_dec 0 in_e); [lra|reflexivity].
  - reflexivity.
  - intros Hfpos Hr.
    pose proof (trapzR_valid_nonneg reference_v initial_v r_load sampling_freq
                  (column (truncate df points) 2) 0 Hfpos Hr) as Hout.
    fold (valid_samples (column (truncate df points) 2)) in Hout.
    fold (ain2_samples (truncate df points)) in Hout.
    fold s in Hout. fold powers in Hout. fold times in Hout. fold out_e in Hout.
    destruct (Rlt_dec 0 in_e) as [Hpos|Hnpos].
    + exists (out_e / in_e). split; [reflexivity|].
      apply Rmult_le_pos; [exact Hout|].
      apply Rlt_le, Rinv_0_lt_compat, Hpos.
    + exists 0. split; [reflexivity|lra].
Qed.

Lemma verification_result_formulas_witness :
  (exists r,
      Simple.calculate_simple_efficiency (ain2_table [Some 3; None; Some 3])
        1 1 1 1 1 None = Some r /\
      Simple.output_energy r = Some 8 /\
      Simple.input_energy r = Some 2 /\
      Simple.efficiency r = Some 4 /\
      exists e, Simple.efficiency r = Some e /\ 0 <= e) /\
  (exists r,
      Simple.calculate_simple_efficiency (ain2_table [Some 3; None; Some 3])
        1 1 1 0 1 None = Some r /\
      Simple.efficiency r = Some 0).
Proof.
  assert (Ho : trapzR
                 (powers_of 1 (currents_of 1 1
                    (ain2_samples (truncate (ain2_table [Some 3; None; Some 3]) None))))
                 (times_of 1 (ain2_samples (truncate (ain2_table [Some 3; None; Some 3]) None)))
               = 8).
  { simpl. unfold decode. lra. }
  assert (Hn : INR (length (ain2_samples
                  (truncate (ain2_table [Some 3; None; Some 3]) None))) = 2).
  { simpl. lra. }
  split.
  - destruct (verification_result_formulas (ain2_table [Some 3; None; Some 3])
                1 1 1 1 1 None)
      as (r & r' & H1 & _ & _ & _ & H2 & H3 & H4 & _ & _ & H5).
    + lra.
    + lra.
    + simpl. lia.
    + simpl. lia.
    + exists r. split; [exact H1|].
      cbv zeta in H2, H3, H4. rewrite Ho in H2, H4. rewrite Hn in H3, H4.
      split; [exact H2|]. split; [rewrite H3; f_equal; lra|].
      split; [rewrite H4 by lra; f_equal; lra|].
      apply H5; lra.
  - destruct (verification_result_formulas (ain2_table [Some 3; None; Some 3])
                1 1 1 0 1 None)
      as (r & r' & H1 & _ & _ & _ & _ & _ & _ & H4 & _).
    + lra.
    + lra.
    + simpl. lia.
    + simpl. lia.
    + exists r. split; [exact H1|].
      cbv zeta in H4. apply H4. rewrite Hn. lra.
Defined.

(** ** Reconstructed time *)

Lemma valid_from_lookup (col : list float) (k n i : nat) (v : R) :
  valid_from k col !! n = Some (i, v) ->
  (k <= i)%nat /\ col !! (i - k)%nat = Some (Some v).
Proof.
  revert k n. induction col as [|[w|] col IH]; intros k n; simpl.
  - discriminate.
  - destruct n as [|n]; simpl.
    + intros H. injection H as -> ->. split; [lia|].
      rewrite Nat.sub_diag. reflexivity.
    + intros H. apply IH in H as [Hle Hcol]. split; [lia|].
      replace (i - k)%nat with (S (i - S k)) by lia. exact Hcol.
  - intros H. apply IH in H as [Hle Hcol]. split; [lia|].
    replace (i - k)%nat with (S (i - S k)) by lia. exact Hcol.
Qed.

Lemma column_head (df : DataFrame) (n j : nat) :
  column (head df n) j = take n (column df j).
Proof. unfold column, head. simpl. apply fmap_take. Qed.

Lemma column_truncate (df df' : DataFrame) (points : option Z) (j : nat) :
  column df' j = column df j ->
  column (truncate df' points) j = column (truncate df points) j.
Proof.
  intros H. unfold truncate. destruct points as [p|]; [|exact H].
  destruct (0 <? p)%Z; [|exact H].
  rewrite !column_head, H. reflexivity.
Qed.

Lemma shape1_truncate (df : DataFrame) (points : option Z) :
  shape1 (truncate df points) = shape1 df.
Proof.
  unfold truncate. destruct points as [p|]; [|reflexivity].
  destruct (0 <? p)%Z; reflexivity.
Qed.

(** [calculate_simple_efficiency] reads the table through its column count,
    its row count and its AIN2 column only. *)
Lemma simple_efficiency_reads_ain2
    (df df' : DataFrame) (reference_v initial_v r_load power_input sampling_freq : R)
    (points : option Z) :
  shape1 df' = shape1 df ->
  column df' 2 = column df 2 ->
  Simple.calculate_simple_efficiency df' reference_v initial_v r_load
    power_input sampling_freq points
  = Simple.calculate_simple_efficiency df reference_v initial_v r_load
      power_input sampling_freq points.
Proof.
  intros Hshape Hcol.
  pose proof (column_truncate df df' points 2 Hcol) as Hc.
  assert (Hs : shape1 (truncate df' points) = shape1 (truncate df points)).
  { rewrite !shape1_truncate. exact Hshape. }
  assert (Hl : df_len (truncate df' points) = df_len (truncate df points)).
  { rewrite <- !(length_column _ 2), Hc. reflexivity. }
  unfold Simple.calculate_simple_efficiency.
  destruct (py_div 1 sampling_freq) as [time_once|]; [|reflexivity]. simpl.
  unfold df_empty. rewrite !length_column, Hs, Hl, Hc. reflexivity.
Qed.

(** C2 (as the code has it).  The time paired with a surviving sample is its
    row index in the truncated table, before NaN filtering, over
    [sampling_freq]; the time array does not depend on the contents of
    column 0 (nor of any column but AIN2).  As in C1, [sampling_freq] and
    [reference_v] are non-zero. *)
Theorem reconstructed_time_by_row_index
    (df : DataFrame) (reference_v initial_v r_load power_input sampling_freq : R)
    (points : option Z) :
  sampling_freq <> 0 ->
  reference_v <> 0 ->
  (3 <= shape1 (truncate df points))%nat ->
  (2 <= length (ain2_samples (truncate df points)))%nat ->
  exists r r',
    Simple.calculate_simple_efficiency df reference_v initial_v r_load
      power_input sampling_freq points = Some r /\
    Single.calculate_single_efficiency df reference_v initial_v r_load
      power_input sampling_freq points = Some r' /\
    Single.time (Single.plot_data r') = Simple.time (Simple.plot_data r) /\
    length (Simple.time (Simple.plot_data r))
      = length (ain2_samples (truncate df points)) /\
    (forall (k i : nat) (v : R),
        ain2_samples (truncate df points) !! k = Some (i, v) ->
        column (truncate df points) 2 !! i = Some (Some v) /\
        Simple.time (Simple.plot_data r) !! k = Some (Some (INR i / sampling_freq))) /\
    (forall df' : DataFrame,
        shape1 df' = shape1 df ->
        column df' 2 = column df 2 ->
        Simple.calculate_simple_efficiency df' reference_v initial_v r_load
          power_input sampling_freq points = Some r).
Proof.
  intros Hf _ Hcols Hvalid.
  destruct (simple_efficiency_value df reference_v initial_v r_load power_input
              sampling_freq points Hf Hcols Hvalid) as [mx Hsimple].
  destruct (single_efficiency_value df reference_v initial_v r_load power_input
              sampling_freq points Hf Hcols) as [mx' Hsingle].
  { lia. }
  cbv zeta in Hsimple, Hsingle.
  eexists. eexists.
  split; [exact Hsimple|]. split; [exact Hsingle|]. simpl.
  split; [reflexivity|].
  split; [rewrite length_map; apply length_times_of|].
  split.
  - intros k i v Hk. split.
    + apply valid_from_lookup in Hk as [_ Hk].
      rewrite Nat.sub_0_r in Hk. exact Hk.
    + unfold times_of. rewrite map_map.
      rewrite list_lookup_fmap, Hk. simpl. do 2 f_equal. field. exact Hf.
  - intros df' Hshape Hcol. rewrite <- Hsimple.
    apply simple_efficiency_reads_ain2; assumption.
Qed.

Lemma reconstructed_time_by_row_index_witness :
  exists r,
    Simple.calculate_simple_efficiency (ain2_table [Some 3; None; Some 3])
      1 1 1 1 100 None = Some r /\
    Simple.time (Simple.plot_data r) !! 1%nat = Some (Some (INR 2 / 100)) /\
    Simple.calculate_simple_efficiency
      (mkDataFrame 3 [[None; Some 0; Some 3]; [Some 7; Some 0; None];
                      [Some 7; Some 0; Some 3]])
      1 1 1 1 100 None = Some r.
Proof.
  destruct (reconstructed_time_by_row_index (ain2_table [Some 3; None; Some 3])
              1 1 1 1 100 None) as (r & r' & H1 & _ & _ & _ & H2 & H3).
  - lra.
  - lra.
  - simpl. lia.
  - simpl. lia.
  - exists r. split; [exact H1|]. split.
    + apply (H2 1%nat 2%nat 3). reflexivity.
    + apply H3; reflexivity.
Defined.

(** C2 as stated fails.  AIN2 = [3; NaN; 3] at 100 Hz: the second surviving
    sample (k = 1) sits in row 2 and is paired with time 2/100, not 1/100. *)
Lemma reconstructed_time_not_filtered_index :
  exists r,
    Simple.calculate_simple_efficiency (ain2_table [Some 3; None; Some 3])
      1 1 1 1 100 None = Some r /\
    Simple.time (Simple.plot_data r) !! 1%nat = Some (Some (2 / 100)) /\
    Simple.time (Simple.plot_data r) !! 1%nat <> Some (Some (INR 1 / 100)).
Proof.
  destruct (simple_efficiency_value (ain2_table [Some 3; None; Some 3])
              1 1 1 1 100 None) as [mx E].
  - lra.
  - simpl. lia.
  - simpl. lia.
  - eexists. split; [exact E|]. simpl. split.
    + do 2 f_equal. lra.
    + intros H. injection H as H. lra.
Qed.

(** ** The constant-current scenario *)

Lemma valid_from_all_valid (vs : list R) (k : nat) :
  valid_from k (map Some vs) = zip (seq k (length vs)) vs.
Proof.
  revert k. induction vs as [|v vs IH]; intros k; simpl; [reflexivity|].
  f_equal. apply IH.
Qed.

(** C5 (as the code has it).  Ten rows whose AIN2 cells all decode to 1 A,
    with r_load = 2, sampling_freq = 100 and power_input = 1: the trapezoidal
    rule spans the nine intervals between the ten samples, so the output
    energy is 0.18 J; the input energy is 0.1 J and the efficiency 1.8. *)
Theorem constant_current_scenario
    (df : DataFrame) (reference_v initial_v : R) (points : option Z)
    (vs : list R) :
  (3 <= shape1 (truncate df points))%nat ->
  column (truncate df points) 2 = map Some vs ->
  length vs = 10%nat ->
  Forall (fun v => decode reference_v initial_v v = 1) vs ->
  exists r,
    Simple.calculate_simple_efficiency df reference_v initial_v 2 1 100 points
      = Some r /\
    Simple.output_energy r = Some (18 / 100) /\
    Simple.input_energy r = Some (1 / 10) /\
    Simple.efficiency r = Some (18 / 10).
Proof.
  intros Hcols Hcol Hlen Hdec.
  assert (Hs : ain2_samples (truncate df points) = zip (seq 0 10) vs).
  { unfold ain2_samples, valid_samples.
    rewrite Hcol, valid_from_all_valid, Hlen. reflexivity. }
  destruct (simple_efficiency_value df reference_v initial_v 2 1 100 points)
    as [mx E].
  - lra.
  - exact Hcols.
  - rewrite Hs, length_zip, length_seq, Hlen. simpl. lia.
  - cbv zeta in E. rewrite Hs in E.
    do 11 (destruct vs as [|? vs]; try discriminate Hlen).
    repeat match goal with
           | H : Forall _ (_ :: _) |- _ =>
               apply Forall_cons in H; let H1 := fresh "D" in destruct H as [H1 H]
           end.
    cbn [seq zip zip_with length currents_of powers_of times_of map trapzR fst snd] in E.
    rewrite D, D0, D1, D2, D3, D4, D5, D6, D7, D8 in E.
    simpl INR in E.
    destruct (Rlt_dec 0 _) as [_|Hn] in E; [|exfalso; apply Hn; lra].
    eexists. split; [exact E|].
    cbn [Simple.output_energy Simple.input_energy Simple.efficiency].
    split; [f_equal; lra|]. split; f_equal; lra.
Qed.

Lemma constant_current_scenario_witness :
  exists r,
    Simple.calculate_simple_efficiency (ain2_table (repeat (Some 1) 10))
      1 0 2 1 100 None = Some r /\
    Simple.efficiency r = Some (18 / 10).
Proof.
  destruct (constant_current_scenario (ain2_table (repeat (Some 1) 10)) 1 0 None
              (repeat 1 10)) as (r & H1 & _ & _ & H2).
  - simpl. lia.
  - reflexivity.
  - reflexivity.
  - repeat constructor; unfold decode; lra.
  - exists r. split; [exact H1|exact H2].
Defined.

(** C5 as stated fails: on ten samples of 1 A the code integrates 0.18 J and
    returns efficiency 1.8, not 0.2 J and 2.0. *)
Lemma constant_current_not_two :
  exists r,
    Simple.calculate_simple_efficiency (ain2_table (repeat (Some 1) 10))
      1 0 2 1 100 None = Some r /\
    Simple.output_energy r = Some (18 / 100) /\
    Simple.output_energy r <> Some (2 / 10) /\
    Simple.input_energy r = Some (1 / 10) /\
    Simple.efficiency r = Some (18 / 10) /\
    Simple.efficiency r <> Some 2.
Proof.
  destruct (simple_efficiency_value (ain2_table (repeat (Some 1) 10))
              1 0 2 1 100 None) as [mx E].
  - lra.
  - simpl. lia.
  - simpl. lia.
  - cbv zeta in E.
    assert (Hs : ain2_samples (truncate (ain2_table (repeat (Some 1) 10)) None)
                 = zip (seq 0 10) (repeat 1 10)) by reflexivity.
    rewrite Hs in E.
    cbn [repeat seq zip zip_with length currents_of powers_of times_of map
         trapzR fst snd] in E.
    unfold decode in E. simpl INR in E.
    destruct (Rlt_dec 0 _) as [_|Hn] in E; [|exfalso; apply Hn; lra].
    eexists. split; [exact E|].
    cbn [Simple.output_energy Simple.input_energy Simple.efficiency].
    split; [f_equal; lra|].
    split; [intros H; injection H as H; lra|].
    split; [f_equal; lra|].
    split; [f_equal; lra|].
    intros H; injection H as H; lra.
Qed.

(** ** The combiner *)

Lemma max0_real (a : R) : max0 (Some a) = Some (Rmax 0 a).
Proof.
  unfold max0, gtb. destruct (Rlt_dec 0 a) as [H|H].
  - rewrite Rmax_right by lra. reflexivity.
  - rewrite Rmax_left by lra. reflexivity.
Qed.

Lemma max0_nonneg (x : float) : exists m, max0 x = Some m /\ 0 <= m.
Proof.
  destruct x as [a|].
  - exists (Rmax 0 a). split; [apply max0_real|apply Rmax_l].
  - exists 0. split; [reflexivity|lra].
Qed.

Lemma combine_real (a b : R) :
  Unified.combine (Some a) (Some b) = Some (sqrt (Rmax 0 a * Rmax 0 b)).
Proof. unfold Unified.combine. rewrite !max0_real. reflexivity. Qed.

Lemma combine_comm (a b : float) : Unified.combine a b = Unified.combine b a.
Proof.
  unfold Unified.combine.
  destruct (max0_nonneg a) as (x & -> & _), (max0_nonneg b) as (y & -> & _).
  simpl. rewrite Rmult_comm. reflexivity.
Qed.

Lemma combine_zero_r (a : float) : Unified.combine a (Some 0) = Some 0.
Proof.
  unfold Unified.combine. destruct (max0_nonneg a) as (x & -> & _).
  rewrite max0_real, Rmax_left by lra. simpl.
  rewrite Rmult_0_r, sqrt_0. reflexivity.
Qed.

(** ** Shape of the unified result *)

(** What [calculate_unified_efficiencies] returns on a non-empty forward
    frame, in terms of the per-polarity entries before combination. *)
Lemma unified_efficiencies_value
    (zheng_file fan_file : DataFrame)
    (reference_v initial_v r_load drive_v power_input sampling_freq : R)
    (points_zheng points_fan : option Z) :
  sampling_freq <> 0 ->
  df_empty (truncate zheng_file points_zheng) = false ->
  let pz := Unified.process_polarity (truncate zheng_file points_zheng)
              reference_v initial_v r_load drive_v power_input
              (1 / sampling_freq) Unified.default_ver_entry
              Unified.default_theo_entry in
  let pf := if df_empty (truncate fan_file points_fan)
            then (Unified.default_ver_entry, Unified.default_theo_entry)
            else Unified.process_polarity (truncate fan_file points_fan)
                   reference_v initial_v r_load drive_v power_input
                   (1 / sampling_freq) Unified.default_ver_entry
                   Unified.default_theo_entry in
  exists res,
    Unified.calculate_unified_efficiencies zheng_file fan_file reference_v
      initial_v r_load drive_v power_input sampling_freq points_zheng points_fan
    = Some res /\
    Unified.zheng (Unified.verification res) = pz.1 /\
    Unified.fan (Unified.verification res) = pf.1 /\
    Unified.finished_efficiency (Unified.verification res)
      = Unified.combine (Unified.efficiency pz.1) (Unified.efficiency pf.1) /\
    Unified.t_zheng (Unified.theoretical res)
      = Unified.mkTheoEntry
          (div (Unified.theo_processed (Unified.t_efficiency pz.2)) (Some 100))
          (Unified.t_stats pz.2) (Unified.t_plot_data pz.2) /\
    Unified.t_fan (Unified.theoretical res)
      = Unified.mkTheoEntry
          (div (Unified.theo_processed (Unified.t_efficiency pf.2)) (Some 100))
          (Unified.t_stats pf.2) (Unified.t_plot_data pf.2) /\
    Unified.t_finished_efficiency (Unified.theoretical res)
      = Unified.theo_finished (Unified.theo_processed (Unified.t_efficiency pz.2))
          (Unified.theo_processed (Unified.t_efficiency pf.2)).
Proof.
  intros Hf Hz pz pf.
  unfold Unified.calculate_unified_efficiencies, py_div.
  destruct (Req_dec_T sampling_freq 0) as [E|_]; [contradiction|]. simpl.
  rewrite Hz. fold pz.
  destruct pz as [vz tz] eqn:Epz.
  destruct (df_empty (truncate fan_file points_fan)) eqn:Ef; simpl.
  - eexists. split; [reflexivity|]. simpl. repeat split; reflexivity.
  - fold pf. destruct pf as [vf tf] eqn:Epf.
    eexists. split; [reflexivity|]. simpl. repeat split; reflexivity.
Qed.

Lemma unified_none_on_empty_forward
    (zheng_file fan_file : DataFrame)
    (reference_v initial_v r_load drive_v power_input sampling_freq : R)
    (points_zheng points_fan : option Z) :
  df_empty (truncate zheng_file points_zheng) = true ->
  Unified.calculate_unified_efficiencies zheng_file fan_file reference_v
    initial_v r_load drive_v power_input sampling_freq points_zheng points_fan
  = None.
Proof.
  intros Hz. unfold Unified.calculate_unified_efficiencies.
  destruct (py_div 1 sampling_freq); simpl; [|reflexivity].
  rewrite Hz. reflexivity.
Qed.

(** C3.  The verification combiner is sqrt(max(0, a) * max(0, b)) on all real
    inputs; it is commutative, and returns [a] on [(a, a)] when [a >= 0].
    It is the [finished_efficiency] of every unified result, and the value of
    [compare_dual_motor_efficiencies] when both runs give a result. *)
Theorem combiner_geometric_mean :
  (forall a b : R,
      Unified.combine (Some a) (Some b) = Some (sqrt (Rmax 0 a * Rmax 0 b))) /\
  (forall a b : float, Unified.combine a b = Unified.combine b a) /\
  (forall a : R, 0 <= a -> Unified.combine (Some a) (Some a) = Some a) /\
  (forall (zheng_file fan_file : DataFrame)
      (reference_v initial_v r_load drive_v power_input sampling_freq : R)
      (points_zheng points_fan : option Z) (res : Unified.results),
      Unified.calculate_unified_efficiencies zheng_file fan_file reference_v
        initial_v r_load drive_v power_input sampling_freq points_zheng
        points_fan = Some res ->
      Unified.finished_efficiency (Unified.verification res)
      = Unified.combine
          (Unified.efficiency (Unified.zheng (Unified.verification res)))
          (Unified.efficiency (Unified.fan (Unified.verification res)))) /\
  (forall (zheng_file fan_file : DataFrame)
      (reference_v initial_v r_load power_input sampling_freq : R)
      (zr fr : Single.result),
      Single.calculate_single_efficiency zheng_file reference_v initial_v
        r_load power_input sampling_freq None = Some zr ->
      Single.calculate_single_efficiency fan_file reference_v initial_v
        r_load power_input sampling_freq None = Some fr ->
      Single.compare_dual_motor_efficiencies zheng_file fan_file reference_v
        initial_v r_load power_input sampling_freq
      = Unified.combine (Single.efficiency zr) (Single.efficiency fr)).
Proof.
  split; [exact combine_real|]. split; [exact combine_comm|]. split; [|split].
  - intros a Ha. rewrite combine_real, Rmax_right by exact Ha.
    rewrite sqrt_square by exact Ha. reflexivity.
  - intros zheng_file fan_file reference_v initial_v r_load drive_v power_input
      sampling_freq points_zheng points_fan res H.
    destruct (Req_dec_T sampling_freq 0) as [E|Hf].
    { unfold Unified.calculate_unified_efficiencies, py_div in H.
      destruct (Req_dec_T sampling_freq 0); [discriminate H|contradiction]. }
    destruct (df_empty (truncate zheng_file points_zheng)) eqn:Hz.
    { rewrite unified_none_on_empty_forward in H by exact Hz. discriminate H. }
    destruct (unified_efficiencies_value zheng_file fan_file reference_v
                initial_v r_load drive_v power_input sampling_freq points_zheng
                points_fan Hf Hz) as (res' & E & Hvz & Hvf & Hfin & _).
    rewrite H in E. injection E as <-.
    rewrite Hfin, Hvz, Hvf. reflexivity.
  - intros zheng_file fan_file reference_v initial_v r_load power_input
      sampling_freq zr fr Hzr Hfr.
    unfold Single.compare_dual_motor_efficiencies. rewrite Hzr, Hfr.
    reflexivity.
Qed.

Lemma combiner_geometric_mean_witness :
  Unified.combine (Some 9) (Some 9) = Some 9 /\
  (exists res,
      Unified.calculate_unified_efficiencies (ain2_table [Some 3; Some 3])
        (ain2_table [Some 3; Some 3]) 1 1 1 1 1 100 None None = Some res /\
      Unified.finished_efficiency (Unified.verification res)
      = Unified.combine
          (Unified.efficiency (Unified.zheng (Unified.verification res)))
          (Unified.efficiency (Unified.fan (Unified.verification res)))) /\
  (exists zr,
      Single.calculate_single_efficiency (ain2_table [Some 3; Some 3])
        1 1 1 1 100 None = Some zr /\
      Single.compare_dual_motor_efficiencies (ain2_table [Some 3; Some 3])
        (ain2_table [Some 3; Some 3]) 1 1 1 1 100
      = Unified.combine (Single.efficiency zr) (Single.efficiency zr)).
Proof.
  destruct combiner_geometric_mean as (_ & _ & Hidem & Hunified & Hdual).
  split; [apply (Hidem 9); lra|]. split.
  - destruct (unified_efficiencies_value (ain2_table [Some 3; Some 3])
                (ain2_table [Some 3; Some 3]) 1 1 1 1 1 100 None None)
      as (res & E & _).
    + lra.
    + reflexivity.
    + exists res. split; [exact E|]. exact (Hunified _ _ _ _ _ _ _ _ _ _ res E).
  - destruct (single_efficiency_value (ain2_table [Some 3; Some 3])
                1 1 1 1 100 None) as [mx E].
    + lra.
    + simpl. lia.
    + simpl. lia.
    + eexists. split; [exact E|]. exact (Hdual _ _ _ _ _ _ _ _ _ E E).
Defined.

Lemma combine_minus_one_four :
  Unified.combine (Some (-1)) (Some 4) = Some 0.
Proof.
  rewrite combine_real, (Rmax_left 0 (-1)) by lra.
  rewrite Rmult_0_l, sqrt_0. reflexivity.
Qed.

Lemma combine_zero_four : Unified.combine (Some 0) (Some 4) = Some 0.
Proof. rewrite combine_comm. apply combine_zero_r. Qed.

(** C6 (as the code has it).  The combiner clamps a negative input to zero
    before multiplying, so [combine(-1, 4)] and [combine(0, 4)] agree, and
    both are 0: the clamped factor annihilates the product. *)
Theorem combiner_clamps_negative :
  Unified.combine (Some (-1)) (Some 4) = Unified.combine (Some 0) (Some 4) /\
  Unified.combine (Some (-1)) (Some 4) = Some 0 /\
  Unified.combine (Some 0) (Some 4) = Some 0.
Proof.
  rewrite combine_minus_one_four, combine_zero_four. repeat split; reflexivity.
Qed.

(** C6 as stated fails: [combine(-1, 4)] and [combine(0, 4)] are 0, not 2. *)
Lemma combiner_clamp_not_two :
  Unified.combine (Some (-1)) (Some 4) = Some 0 /\
  Unified.combine (Some (-1)) (Some 4) <> Some 2 /\
  Unified.combine (Some 0) (Some 4) <> Some 2.
Proof.
  rewrite combine_minus_one_four, combine_zero_four. split; [reflexivity|].
  split; intros H; injection H as H; lra.
Qed.

(** ** The theoretical branch *)

Lemma all_some_map (l : list float) :
  Forall is_Some l -> exists l', l = map Some l'.
Proof.
  induction 1 as [|x l [v ->] _ [l' ->]].
  - exists []. reflexivity.
  - exists (v :: l'). reflexivity.
Qed.

Lemma mask_select_valid (a : list float) (m : list bool) :
  (forall k x, a !! k = Some x -> m !! k = Some true -> is_Some x) ->
  Forall is_Some (mask_select a m).
Proof.
  revert m. induction a as [|x a IH]; intros m H; simpl; [constructor|].
  destruct m as [|b m]; [constructor|].
  assert (Hrest : Forall is_Some (mask_select a m)).
  { apply IH. intros k y Ha Hm. apply (H (S k) y); assumption. }
  destruct b; [|exact Hrest].
  constructor; [|exact Hrest]. apply (H 0%nat x); reflexivity.
Qed.

Lemma not_nan_lookup (a : list float) (k : nat) (x : float) :
  a !! k = Some x -> not_nan a !! k = Some true -> is_Some x.
Proof.
  intros Ha Hm. unfold not_nan in Hm.
  change (map ?f a) with (f <$> a) in Hm.
  rewrite list_lookup_fmap, Ha in Hm. simpl in Hm.
  destruct x as [v|]; [eexists; reflexivity|discriminate Hm].
Qed.

Lemma mask_and_lookup (m1 m2 : list bool) (k : nat) :
  mask_and m1 m2 !! k = Some true ->
  m1 !! k = Some true /\ m2 !! k = Some true.
Proof.
  unfold mask_and. rewrite lookup_zip_with.
  destruct (m1 !! k) as [[|]|], (m2 !! k) as [[|]|]; simpl;
    intros H; try discriminate H; split; reflexivity.
Qed.

Lemma trapz_is_some (y x : list float) :
  Forall is_Some y -> Forall is_Some x -> is_Some (trapz y x).
Proof.
  intros Hy Hx.
  destruct (all_some_map y Hy) as [y' ->], (all_some_map x Hx) as [x' ->].
  rewrite trapz_real. eexists. reflexivity.
Qed.

Lemma power_is_some (r_load : R) (a : list float) :
  Forall is_Some a -> Forall is_Some (map (power_of_current r_load) a).
Proof.
  intros H. destruct (all_some_map a H) as [a' ->].
  rewrite power_real. apply Forall_forall. intros x Hx.
  apply list_elem_of_In, in_map_iff in Hx as (v & <- & _). eexists. reflexivity.
Qed.

Lemma scaled_is_some (c : R) (a : list float) :
  Forall is_Some a -> Forall is_Some (map (mul (Some c)) a).
Proof.
  induction 1 as [|x l [v ->] _ IH]; simpl; constructor.
  - eexists. reflexivity.
  - exact IH.
Qed.

(** The raw ratio the theoretical block leaves in an entry is a number. *)
Lemma theoretical_block_ratio_real (df : DataFrame) (time_arr : list float)
    (reference_v initial_v r_load drive_v : R) (entry : Unified.theo_entry) :
  is_Some (Unified.t_efficiency entry) ->
  is_Some (Unified.t_efficiency
             (Unified.theoretical_block df time_arr reference_v initial_v
                r_load drive_v entry)).
Proof.
  intros He. unfold Unified.theoretical_block.
  destruct (7 <? shape1 df)%nat; [|exact He].
  set (O := map (current_of_voltage reference_v initial_v) (column df 6)).
  set (I := map (current_of_voltage reference_v initial_v) (column df 7)).
  set (m := mask_and (mask_and (not_nan O) (not_nan I)) (not_nan time_arr)).
  destruct (np_any m); [|exact He].
  destruct (2 <=? length (mask_select O m))%nat; [|exact He].
  assert (HO : Forall is_Some (mask_select O m)).
  { apply mask_select_valid. intros k x Ha Hm.
    apply mask_and_lookup in Hm as [Hm _]. apply mask_and_lookup in Hm as [Hm _].
    exact (not_nan_lookup O k x Ha Hm). }
  assert (HI : Forall is_Some (mask_select I m)).
  { apply mask_select_valid. intros k x Ha Hm.
    apply mask_and_lookup in Hm as [Hm _]. apply mask_and_lookup in Hm as [_ Hm].
    exact (not_nan_lookup I k x Ha Hm). }
  assert (HT : Forall is_Some (mask_select time_arr m)).
  { apply mask_select_valid. intros k x Ha Hm.
    apply mask_and_lookup in Hm as [_ Hm].
    exact (not_nan_lookup time_arr k x Ha Hm). }
  destruct (trapz_is_some _ _ (power_is_some r_load _ HO) HT) as [num Hnum].
  destruct (trapz_is_some _ _ (scaled_is_some drive_v _ HI) HT) as [den Hden].
  rewrite Hnum, Hden.
  destruct (gtb (Some den) (Some 0)); simpl; [eexists; reflexivity|exact He].
Qed.

Lemma theoretical_raw_real (df : DataFrame)
    (reference_v initial_v r_load drive_v power_input time_once : R) :
  is_Some (theoretical_raw df reference_v initial_v r_load drive_v power_input
             time_once).
Proof.
  unfold theoretical_raw. destruct (df_empty df); [eexists; reflexivity|].
  unfold Unified.process_polarity. simpl.
  apply theoretical_block_ratio_real. simpl. eexists. reflexivity.
Qed.

Lemma theo_processed_real (e : R) :
  Unified.theo_processed (Some e) = Some (sqrt (Rmax 0 e) * 100).
Proof. unfold Unified.theo_processed. rewrite max0_real. reflexivity. Qed.

Lemma theo_finished_real (ez ef : R) :
  Unified.theo_finished (Unified.theo_processed (Some ez))
    (Unified.theo_processed (Some ef))
  = Some (sqrt (sqrt (Rmax 0 ez) * sqrt (Rmax 0 ef))).
Proof.
  rewrite !theo_processed_real. unfold Unified.theo_finished, geb.
  pose proof (sqrt_pos (Rmax 0 ez)) as Hz.
  pose proof (sqrt_pos (Rmax 0 ef)) as Hf'.
  destruct (Rle_dec 0 (sqrt (Rmax 0 ez) * 100)) as [_|H]; [|exfalso; apply H; lra].
  destruct (Rle_dec 0 (sqrt (Rmax 0 ef) * 100)) as [_|H]; [|exfalso; apply H; lra].
  simpl. do 2 f_equal. field.
Qed.

(** C4.  With [e_z] and [e_f] the raw integrated ratios of the two
    polarities, the returned per-polarity theoretical efficiencies are
    sqrt(max(0, e_z)) and sqrt(max(0, e_f)), and the theoretical
    [finished_efficiency] is sqrt(sqrt(max(0, e_z)) * sqrt(max(0, e_f))),
    the fourth root of max(0, e_z) * max(0, e_f). *)
Theorem theoretical_fourth_root
    (zheng_file fan_file : DataFrame)
    (reference_v initial_v r_load drive_v power_input sampling_freq : R)
    (points_zheng points_fan : option Z) (res : Unified.results) :
  Unified.calculate_unified_efficiencies zheng_file fan_file reference_v
    initial_v r_load drive_v power_input sampling_freq points_zheng points_fan
  = Some res ->
  exists e_z e_f : R,
    theoretical_raw (truncate zheng_file points_zheng) reference_v initial_v
      r_load drive_v power_input (1 / sampling_freq) = Some e_z /\
    theoretical_raw (truncate fan_file points_fan) reference_v initial_v
      r_load drive_v power_input (1 / sampling_freq) = Some e_f /\
    Unified.t_efficiency (Unified.t_zheng (Unified.theoretical res))
      = Some (sqrt (Rmax 0 e_z)) /\
    Unified.t_efficiency (Unified.t_fan (Unified.theoretical res))
      = Some (sqrt (Rmax 0 e_f)) /\
    Unified.t_finished_efficiency (Unified.theoretical res)
      = Some (sqrt (sqrt (Rmax 0 e_z) * sqrt (Rmax 0 e_f))) /\
    Unified.t_finished_efficiency (Unified.theoretical res)
      = Some (sqrt (sqrt (Rmax 0 e_z * Rmax 0 e_f))) /\
    (forall q, Unified.t_finished_efficiency (Unified.theoretical res) = Some q ->
               0 <= q /\ q * q * (q * q) = Rmax 0 e_z * Rmax 0 e_f).
Proof.
  intros H.
  destruct (Req_dec_T sampling_freq 0) as [E|Hf].
  { unfold Unified.calculate_unified_efficiencies, py_div in H.
    destruct (Req_dec_T sampling_freq 0); [discriminate H|contradiction]. }
  destruct (df_empty (truncate zheng_file points_zheng)) eqn:Hz.
  { rewrite unified_none_on_empty_forward in H by exact Hz. discriminate H. }
  destruct (unified_efficiencies_value zheng_file fan_file reference_v
              initial_v r_load drive_v power_input sampling_freq points_zheng
              points_fan Hf Hz) as (res' & E & _ & _ & _ & Htz & Htf & Hfin).
  rewrite H in E. injection E as <-.
  destruct (theoretical_raw_real (truncate zheng_file points_zheng) reference_v
              initial_v r_load drive_v power_input (1 / sampling_freq))
    as [e_z Hez].
  destruct (theoretical_raw_real (truncate fan_file points_fan) reference_v
              initial_v r_load drive_v power_input (1 / sampling_freq))
    as [e_f Hef].
  exists e_z, e_f. split; [exact Hez|]. split; [exact Hef|].
  unfold theoretical_raw in Hez, Hef. rewrite Hz in Hez.
  assert (Hef' : Unified.t_efficiency
            (if df_empty (truncate fan_file points_fan)
             then (Unified.default_ver_entry, Unified.default_theo_entry)
             else Unified.process_polarity (truncate fan_file points_fan)
                    reference_v initial_v r_load drive_v power_input
                    (1 / sampling_freq) Unified.default_ver_entry
                    Unified.default_theo_entry).2 = Some e_f).
  { destruct (df_empty (truncate fan_file points_fan)); exact Hef. }
  cbv zeta in Htz, Htf, Hfin.
  rewrite Hez in Htz, Hfin. rewrite Hef' in Htf, Hfin.
  rewrite Htz, Htf, Hfin. simpl Unified.t_efficiency.
  rewrite !theo_processed_real, <- !theo_processed_real, theo_finished_real.
  rewrite !theo_processed_real. simpl div.
  pose proof (Rmax_l 0 e_z) as Mz. pose proof (Rmax_l 0 e_f) as Mf.
  assert (Hroot : sqrt (Rmax 0 e_z) * sqrt (Rmax 0 e_f)
                  = sqrt (Rmax 0 e_z * Rmax 0 e_f)).
  { symmetry. apply sqrt_mult; assumption. }
  split; [f_equal; field|]. split; [f_equal; field|].
  split; [reflexivity|]. split; [rewrite Hroot; reflexivity|].
  intros q Hq. injection Hq as <-. split; [apply sqrt_pos|].
  rewrite Hroot.
  rewrite sqrt_sqrt by apply sqrt_pos.
  apply sqrt_sqrt. apply Rmult_le_pos; assumption.
Qed.

(** A run whose raw theoretical ratio is 1/4 in both polarities. *)
Lemma theoretical_raw_quarter :
  theoretical_raw (theo_table [(Some 1, Some 4); (Some 1, Some 4)])
    1 0 1 1 1 (1 / 1) = Some (1 / 4).
Proof.
  unfold theoretical_raw, Unified.process_polarity, Unified.theoretical_block.
  simpl. unfold gtb.
  destruct (Rlt_dec 0 _) as [_|H]; [|exfalso; apply H; simpl; lra].
  simpl. f_equal. field.
Qed.

Lemma theoretical_fourth_root_witness :
  exists res,
    Unified.calculate_unified_efficiencies
      (theo_table [(Some 1, Some 4); (Some 1, Some 4)])
      (theo_table [(Some 1, Some 4); (Some 1, Some 4)])
      1 0 1 1 1 1 None None = Some res /\
    Unified.t_efficiency (Unified.t_zheng (Unified.theoretical res))
      = Some (sqrt (Rmax 0 (1 / 4))) /\
    Unified.t_finished_efficiency (Unified.theoretical res)
      = Some (sqrt (sqrt (Rmax 0 (1 / 4) * Rmax 0 (1 / 4)))) /\
    0 <= sqrt (sqrt (Rmax 0 (1 / 4) * Rmax 0 (1 / 4))).
Proof.
  destruct (unified_efficiencies_value
              (theo_table [(Some 1, Some 4); (Some 1, Some 4)])
              (theo_table [(Some 1, Some 4); (Some 1, Some 4)])
              1 0 1 1 1 1 None None) as (res & E & _).
  - lra.
  - reflexivity.
  - exists res. split; [exact E|].
    destruct (theoretical_fourth_root _ _ _ _ _ _ _ _ _ _ res E)
      as (e_z & e_f & Hz & Hf & H1 & _ & _ & H2 & H3).
    simpl truncate in Hz, Hf.
    rewrite theoretical_raw_quarter in Hz, Hf.
    injection Hz as <-. injection Hf as <-.
    split; [exact H1|]. split; [exact H2|].
    exact (proj1 (H3 _ H2)).
Defined.

(** ** Too few samples *)

Lemma time_of_columns (df : DataFrame) (t : R) (j : nat) :
  (0 < shape1 df)%nat ->
  Unified.time_of df t = arange_times (length (column df j)) t.
Proof.
  intros H. unfold Unified.time_of.
  replace (0 <? shape1 df)%nat with true by (symmetry; apply Nat.ltb_lt; exact H).
  rewrite !length_column. reflexivity.
Qed.

Lemma verification_block_few (df : DataFrame)
    (reference_v initial_v r_load power_input time_once : R)
    (entry : Unified.ver_entry) :
  (ver_valid_count df < 2)%nat ->
  Unified.verification_block df (Unified.time_of df time_once) reference_v
    initial_v r_load power_input time_once entry = entry.
Proof.
  unfold ver_valid_count, Unified.verification_block.
  destruct (2 <? shape1 df)%nat eqn:Hs; [|reflexivity].
  intros Hfew. apply Nat.ltb_lt in Hs.
  rewrite (time_of_columns df time_once 2) by lia.
  rewrite verification_mask.
  destruct (np_any (not_nan (column df 2))); [|reflexivity].
  rewrite (select_decoded _ _ _ 0), length_map, length_currents_of.
  fold (valid_samples (column df 2)). fold (ain2_samples df).
  replace (2 <=? length (ain2_samples df))%nat with false
    by (symmetry; apply Nat.leb_gt; exact Hfew).
  reflexivity.
Qed.

Lemma length_select_aligned (g : float -> float) (o i : list float) :
  length (mask_select (map g o) (mask_and (not_nan o) (not_nan i)))
  = length (List.filter (fun p : float * float => negb (isnan p.1) && negb (isnan p.2))
              (zip o i)).
Proof.
  unfold mask_and. revert i.
  induction o as [|x o IH]; intros i; simpl; [reflexivity|].
  destruct i as [|y i]; simpl; [reflexivity|].
  specialize (IH i).
  destruct (negb (isnan x) && negb (isnan y)); simpl; rewrite IH; reflexivity.
Qed.

Lemma length_mask_and (m1 m2 : list bool) :
  length m1 = length m2 -> length (mask_and m1 m2) = length m1.
Proof.
  intros H. unfold mask_and. rewrite length_zip_with. lia.
Qed.

Lemma theoretical_block_few (df : DataFrame)
    (reference_v initial_v r_load drive_v time_once : R)
    (entry : Unified.theo_entry) :
  (theo_valid_count df < 2)%nat ->
  Unified.theoretical_block df (Unified.time_of df time_once) reference_v
    initial_v r_load drive_v entry = entry.
Proof.
  unfold theo_valid_count, Unified.theoretical_block.
  destruct (7 <? shape1 df)%nat eqn:Hs; [|reflexivity].
  intros Hfew. apply Nat.ltb_lt in Hs.
  rewrite (time_of_columns df time_once 6) by lia.
  rewrite !not_nan_decoded. unfold arange_times at 1 2 3 4 5.
  rewrite not_nan_arange.
  replace (length (column df 6))
    with (length (mask_and (not_nan (column df 6)) (not_nan (column df 7)))).
  2:{ rewrite length_mask_and; rewrite !length_not_nan, ?length_column; reflexivity. }
  rewrite mask_and_true_r.
  destruct (np_any _); [|reflexivity].
  rewrite length_select_aligned.
  replace (2 <=? _)%nat with false by (symmetry; apply Nat.leb_gt; exact Hfew).
  reflexivity.
Qed.

Lemma processed_zero :
  div (Unified.theo_processed (Some 0)) (Some 100) = Some 0.
Proof.
  rewrite theo_processed_real. simpl. rewrite Rmax_left by lra.
  rewrite sqrt_0. f_equal. field.
Qed.

Lemma simple_efficiency_few
    (df : DataFrame) (reference_v initial_v r_load power_input sampling_freq : R)
    (points : option Z) :
  (length (ain2_samples (truncate df points)) < 2)%nat ->
  Simple.calculate_simple_efficiency df reference_v initial_v r_load
    power_input sampling_freq points = None.
Proof.
  intros Hfew. unfold Simple.calculate_simple_efficiency.
  destruct (py_div 1 sampling_freq) as [time_once|]; [|reflexivity]. simpl.
  destruct (df_empty _ || _); [reflexivity|].
  rewrite length_column, <- (length_column (truncate df points) 2).
  rewrite verification_mask.
  destruct (np_any _); [|reflexivity]. simpl.
  rewrite (select_decoded _ _ _ 0), length_map, length_currents_of.
  fold (valid_samples (column (truncate df points) 2)).
  fold (ain2_samples (truncate df points)).
  replace (_ <? 2)%nat with true by (symmetry; apply Nat.ltb_lt; exact Hfew).
  reflexivity.
Qed.

(** C8 (as the code has it).  With a non-zero sampling frequency and a
    forward frame that is not empty after truncation,
    [calculate_unified_efficiencies] returns a result, and in it every
    (polarity, methodology) contribution with fewer than 2 valid aligned
    samples has efficiency 0 and empty plot arrays.  With a forward frame
    that is empty after truncation it returns [None], and
    [calculate_simple_efficiency] returns [None] on a run with fewer than 2
    valid samples. *)
Theorem few_samples_leave_defaults
    (zheng_file fan_file : DataFrame)
    (reference_v initial_v r_load drive_v power_input sampling_freq : R)
    (points_zheng points_fan : option Z) :
  (df_empty (truncate zheng_file points_zheng) = true ->
   Unified.calculate_unified_efficiencies zheng_file fan_file reference_v
     initial_v r_load drive_v power_input sampling_freq points_zheng points_fan
   = None) /\
  ((length (ain2_samples (truncate zheng_file points_zheng)) < 2)%nat ->
   Simple.calculate_simple_efficiency zheng_file reference_v initial_v r_load
     power_input sampling_freq points_zheng = None) /\
  (sampling_freq <> 0 ->
  df_empty (truncate zheng_file points_zheng) = false ->
  exists res,
    Unified.calculate_unified_efficiencies zheng_file fan_file reference_v
      initial_v r_load drive_v power_input sampling_freq points_zheng points_fan
    = Some res /\
    ((ver_valid_count (truncate zheng_file points_zheng) < 2)%nat ->
     Unified.efficiency (Unified.zheng (Unified.verification res)) = Some 0 /\
     Unified.plot_data (Unified.zheng (Unified.verification res))
       = Unified.mkVerPlot [] [] []) /\
    ((ver_valid_count (truncate fan_file points_fan) < 2)%nat ->
     Unified.efficiency (Unified.fan (Unified.verification res)) = Some 0 /\
     Unified.plot_data (Unified.fan (Unified.verification res))
       = Unified.mkVerPlot [] [] []) /\
    ((theo_valid_count (truncate zheng_file points_zheng) < 2)%nat ->
     Unified.t_efficiency (Unified.t_zheng (Unified.theoretical res)) = Some 0 /\
     Unified.t_plot_data (Unified.t_zheng (Unified.theoretical res))
       = Unified.mkTheoPlot [] [] [] [] []) /\
    ((theo_valid_count (truncate fan_file points_fan) < 2)%nat ->
     Unified.t_efficiency (Unified.t_fan (Unified.theoretical res)) = Some 0 /\
     Unified.t_plot_data (Unified.t_fan (Unified.theoretical res))
       = Unified.mkTheoPlot [] [] [] [] [])).
Proof.
  split; [apply unified_none_on_empty_forward|].
  split; [apply simple_efficiency_few|].
  intros Hf Hz.
  destruct (unified_efficiencies_value zheng_file fan_file reference_v
              initial_v r_load drive_v power_input sampling_freq points_zheng
              points_fan Hf Hz) as (res & E & Hvz & Hvf & _ & Htz & Htf & _).
  cbv zeta in Hvz, Hvf, Htz, Htf.
  exists res. split; [exact E|].
  split; [|split; [|split]].
  - intros Hfew. rewrite Hvz. unfold Unified.process_polarity. simpl.
    rewrite verification_block_few by exact Hfew. split; reflexivity.
  - intros Hfew. rewrite Hvf.
    destruct (df_empty (truncate fan_file points_fan)); [split; reflexivity|].
    unfold Unified.process_polarity. simpl.
    rewrite verification_block_few by exact Hfew. split; reflexivity.
  - intros Hfew. rewrite Htz. unfold Unified.process_polarity. simpl.
    rewrite theoretical_block_few by exact Hfew. simpl.
    split; [exact processed_zero|reflexivity].
  - intros Hfew. rewrite Htf.
    destruct (df_empty (truncate fan_file points_fan)); simpl;
      [split; [exact processed_zero|reflexivity]|].
    unfold Unified.process_polarity. simpl.
    rewrite theoretical_block_few by exact Hfew. simpl.
    split; [exact processed_zero|reflexivity].
Qed.

Lemma few_samples_leave_defaults_witness :
  Unified.calculate_unified_efficiencies (ain2_table [])
    (ain2_table [Some 3; Some 3]) 1 1 1 1 1 100 None None = None /\
  Simple.calculate_simple_efficiency (ain2_table [Some 3; None; None])
    1 1 1 1 100 None = None /\
  exists res,
    Unified.calculate_unified_efficiencies (ain2_table [Some 3; None; None])
      (ain2_table [None; Some 3]) 1 1 1 1 1 100 None None = Some res /\
    Unified.efficiency (Unified.zheng (Unified.verification res)) = Some 0 /\
    Unified.plot_data (Unified.zheng (Unified.verification res))
      = Unified.mkVerPlot [] [] [] /\
    Unified.efficiency (Unified.fan (Unified.verification res)) = Some 0 /\
    Unified.t_efficiency (Unified.t_zheng (Unified.theoretical res)) = Some 0 /\
    Unified.t_efficiency (Unified.t_fan (Unified.theoretical res)) = Some 0.
Proof.
  split; [|split].
  - apply (proj1 (few_samples_leave_defaults (ain2_table [])
                    (ain2_table [Some 3; Some 3]) 1 1 1 1 1 100 None None)).
    reflexivity.
  - apply (proj1 (proj2 (few_samples_leave_defaults
                           (ain2_table [Some 3; None; None])
                           (ain2_table [Some 3; Some 3]) 1 1 1 1 1 100 None None))).
    change (1 < 2)%nat. lia.
  - destruct (proj2 (proj2 (few_samples_leave_defaults
                              (ain2_table [Some 3; None; None])
                              (ain2_table [None; Some 3]) 1 1 1 1 1 100 None None)))
      as (res & E & Hvz & Hvf & Htz & Htf).
    + lra.
    + reflexivity.
    + exists res. split; [exact E|].
      destruct Hvz as [H1 H2]; [change (1 < 2)%nat; lia|].
      destruct Hvf as [H5 _]; [change (1 < 2)%nat; lia|].
      destruct Htz as [H3 _]; [change (0 < 2)%nat; lia|].
      destruct Htf as [H4 _]; [change (0 < 2)%nat; lia|].
      repeat split; assumption.
Defined.

(** C8 as stated fails.  A well-formed three-row table with a single valid
    AIN2 sample makes [calculate_simple_efficiency] return the no-result
    signal, and a forward frame without rows (no valid sample at all) makes
    [calculate_unified_efficiencies] return it for the whole call. *)
Lemma few_samples_can_abort :
  ver_valid_count (ain2_table [Some 3; None; None]) = 1%nat /\
  Simple.calculate_simple_efficiency (ain2_table [Some 3; None; None])
    1 1 1 1 100 None = None /\
  ver_valid_count (ain2_table []) = 0%nat /\
  Unified.calculate_unified_efficiencies (ain2_table [])
    (ain2_table [Some 3; Some 3]) 1 1 1 1 1 100 None None = None.
Proof.
  split; [reflexivity|]. split; [|split; [reflexivity|]].
  - unfold Simple.calculate_simple_efficiency, py_div.
    destruct (Req_dec_T 100 0) as [E|_]; [lra|]. reflexivity.
  - apply unified_none_on_empty_forward. reflexivity.
Qed.

(** ** Empty frames *)

Lemma theo_processed_nonneg (x : float) :
  exists p, Unified.theo_processed x = Some p /\ 0 <= p.
Proof.
  unfold Unified.theo_processed. destruct (max0_nonneg x) as (m & -> & Hm).
  exists (sqrt m * 100). split; [reflexivity|].
  pose proof (sqrt_pos m). lra.
Qed.

Lemma theo_finished_zero_r (x : float) :
  Unified.theo_finished (Unified.theo_processed x)
    (Unified.theo_processed (Some 0)) = Some 0.
Proof.
  destruct (theo_processed_nonneg x) as (p & -> & Hp).
  rewrite theo_processed_real, Rmax_left by lra. rewrite sqrt_0.
  unfold Unified.theo_finished, geb.
  destruct (Rle_dec 0 p) as [_|H]; [|contradiction].
  destruct (Rle_dec 0 (0 * 100)) as [_|H]; [|exfalso; apply H; lra].
  simpl. f_equal.
  replace (p * (0 * 100) / 10000) with 0 by field. apply sqrt_0.
Qed.

(** C9.  The two polarity frames are not treated alike.  A forward frame
    that is empty after truncation makes the whole call return [None].  A
    reverse frame that is empty after truncation, under a non-empty forward
    frame, leaves every reverse field at its zero-initialised default, and
    the combined efficiencies are computed from those zeros (and are 0). *)
Theorem forward_reverse_asymmetry
    (zheng_file fan_file : DataFrame)
    (reference_v initial_v r_load drive_v power_input sampling_freq : R)
    (points_zheng points_fan : option Z) :
  (df_empty (truncate zheng_file points_zheng) = true ->
   Unified.calculate_unified_efficiencies zheng_file fan_file reference_v
     initial_v r_load drive_v power_input sampling_freq points_zheng points_fan
   = None) /\
  (sampling_freq <> 0 ->
   df_empty (truncate zheng_file points_zheng) = false ->
   df_empty (truncate fan_file points_fan) = true ->
   exists res,
     Unified.calculate_unified_efficiencies zheng_file fan_file reference_v
       initial_v r_load drive_v power_input sampling_freq points_zheng
       points_fan = Some res /\
     Unified.fan (Unified.verification res) = Unified.default_ver_entry /\
     Unified.t_fan (Unified.theoretical res) = Unified.default_theo_entry /\
     Unified.finished_efficiency (Unified.verification res)
       = Unified.combine
           (Unified.efficiency (Unified.zheng (Unified.verification res)))
           (Some 0) /\
     Unified.finished_efficiency (Unified.verification res) = Some 0 /\
     Unified.t_finished_efficiency (Unified.theoretical res) = Some 0).
Proof.
  split; [apply unified_none_on_empty_forward|].
  intros Hf Hz Hfan.
  destruct (unified_efficiencies_value zheng_file fan_file reference_v
              initial_v r_load drive_v power_input sampling_freq points_zheng
              points_fan Hf Hz) as (res & E & Hvz & Hvf & Hfin & _ & Htf & Htfin).
  cbv zeta in Hvz, Hvf, Hfin, Htf, Htfin.
  rewrite Hfan in Hvf, Hfin, Htf, Htfin. simpl in Hvf, Hfin, Htf, Htfin.
  exists res. split; [exact E|]. split; [exact Hvf|]. split.
  { rewrite Htf, processed_zero. reflexivity. }
  split; [rewrite Hfin, Hvz; reflexivity|].
  split; [rewrite Hfin; apply combine_zero_r|].
  rewrite Htfin. apply theo_finished_zero_r.
Qed.

Lemma forward_reverse_asymmetry_witness :
  Unified.calculate_unified_efficiencies (ain2_table [])
    (ain2_table [Some 3; Some 3]) 1 1 1 1 1 100 None None = None /\
  exists res,
    Unified.calculate_unified_efficiencies (ain2_table [Some 3; Some 3])
      (ain2_table []) 1 1 1 1 1 100 None None = Some res /\
    Unified.fan (Unified.verification res) = Unified.default_ver_entry /\
    Unified.finished_efficiency (Unified.verification res) = Some 0.
Proof.
  split.
  - apply (forward_reverse_asymmetry (ain2_table []) (ain2_table [Some 3; Some 3])
             1 1 1 1 1 100 None None). reflexivity.
  - destruct (forward_reverse_asymmetry (ain2_table [Some 3; Some 3]) (ain2_table [])
                1 1 1 1 1 100 None None) as [_ H].
    destruct H as (res & E & Hv & _ & _ & Hfin & _).
    + lra.
    + reflexivity.
    + reflexivity.
    + exists res. split; [exact E|]. split; [exact Hv|exact Hfin].
Defined.

(** ** Experiment configuration *)

Lemma dict_update_lookup {V : Type} (common fixed level : gmap string V)
    (key : string) :
  Config.dict_update (Config.dict_update common fixed) level !! key
  = layered_lookup common fixed level key.
Proof.
  unfold Config.dict_update, layered_lookup. rewrite !lookup_union.
  destruct (level !! key), (fixed !! key), (common !! key); reflexivity.
Qed.

(** Python list indexing: the element at the normalised position. *)
Lemma list_getitem_in_range {A : Type} (l : list A) (i : Z) :
  (- Z.of_nat (length l) <= i < Z.of_nat (length l))%Z ->
  exists x,
    l !! Z.to_nat (if (i <? 0)%Z then Z.of_nat (length l) + i else i)%Z = Some x /\
    Config.list_getitem l i = Config.Returned x.
Proof.
  intros Hi. unfold Config.list_getitem.
  set (n := Z.of_nat (length l)) in *.
  replace (i + n)%Z with (n + i)%Z by lia.
  set (pos := if (i <? 0)%Z then (n + i)%Z else i).
  assert (Hpos : (0 <= pos < n)%Z).
  { unfold pos. destruct (i <? 0)%Z eqn:E.
    - apply Z.ltb_lt in E. lia.
    - apply Z.ltb_ge in E. lia. }
  clearbody pos.
  replace (pos <? 0)%Z with false by (symmetry; apply Z.ltb_ge; lia).
  replace (n <=? pos)%Z with false by (symmetry; apply Z.leb_gt; lia).
  simpl.
  destruct (lookup_lt_is_Some_2 l (Z.to_nat pos)) as [x Hx]; [subst n; lia|].
  exists x. rewrite Hx. split; reflexivity.
Qed.

Lemma list_getitem_out_of_range {A : Type} (l : list A) (i : Z) :
  (Z.of_nat (length l) <= i \/ i < - Z.of_nat (length l))%Z ->
  Config.list_getitem l i = Config.Raised Config.IndexError.
Proof.
  intros Hi. unfold Config.list_getitem.
  set (n := Z.of_nat (length l)) in *.
  destruct (i <? 0)%Z eqn:E.
  - apply Z.ltb_lt in E.
    replace (i + n <? 0)%Z with true by (symmetry; apply Z.ltb_lt; lia).
    reflexivity.
  - apply Z.ltb_ge in E.
    replace (i <? 0)%Z with false by (symmetry; apply Z.ltb_ge; lia).
    replace (n <=? i)%Z with true by (symmetry; apply Z.leb_le; lia).
    reflexivity.
Qed.

Lemma get_experiment_params_in_range {V : Type}
    (cfg : Config.ExperimentConfig V) (i : Z) :
  (- Z.of_nat (length (Config.variable_params cfg)) <= i
   < Z.of_nat (length (Config.variable_params cfg)))%Z ->
  exists level,
    Config.variable_params cfg
      !! Z.to_nat (if (i <? 0)%Z
                   then Z.of_nat (length (Config.variable_params cfg)) + i
                   else i)%Z = Some level /\
    Config.get_experiment_params cfg i
    = Config.Returned
        (Config.dict_update
           (Config.dict_update (Config.common_params cfg) (Config.fixed_params cfg))
           level).
Proof.
  intros Hi.
  destruct (list_getitem_in_range (Config.variable_params cfg) i Hi)
    as (level & Hlevel & Hget).
  exists level. split; [exact Hlevel|].
  unfold Config.get_experiment_params.
  replace (Z.of_nat (length (Config.variable_params cfg)) <=? i)%Z with false
    by (symmetry; apply Z.leb_gt; lia).
  rewrite Hget. reflexivity.
Qed.

Lemma get_experiment_params_out_of_range {V : Type}
    (cfg : Config.ExperimentConfig V) (i : Z) :
  (Z.of_nat (length (Config.variable_params cfg)) <= i
   \/ i < - Z.of_nat (length (Config.variable_params cfg)))%Z ->
  Config.get_experiment_params cfg i = Config.Raised Config.IndexError.
Proof.
  intros Hi. unfold Config.get_experiment_params.
  destruct (Z.of_nat (length (Config.variable_params cfg)) <=? i)%Z; [reflexivity|].
  rewrite list_getitem_out_of_range by exact Hi. reflexivity.
Qed.

(** C7 (as the code has it).  For an index [i] with
    [-len(variable_params) <= i < len(variable_params)],
    [get_experiment_params(i)] returns [common_params] overridden key for key
    by [fixed_params], then by [variable_params[i]] (Python indexing, a
    negative index counting from the end); for [i >= len(variable_params)]
    and for [i < -len(variable_params)] it raises [IndexError]. *)
Theorem experiment_params_layered {V : Type}
    (cfg : Config.ExperimentConfig V) (i : Z) :
  ((- Z.of_nat (length (Config.variable_params cfg)) <= i
    < Z.of_nat (length (Config.variable_params cfg)))%Z ->
   exists level params,
     Config.variable_params cfg
       !! Z.to_nat (if (i <? 0)%Z
                    then Z.of_nat (length (Config.variable_params cfg)) + i
                    else i)%Z = Some level /\
     Config.get_experiment_params cfg i = Config.Returned params /\
     forall key : string,
       params !! key
       = layered_lookup (Config.common_params cfg) (Config.fixed_params cfg)
           level key) /\
  ((Z.of_nat (length (Config.variable_params cfg)) <= i)%Z ->
   Config.get_experiment_params cfg i = Config.Raised Config.IndexError) /\
  ((i < - Z.of_nat (length (Config.variable_params cfg)))%Z ->
   Config.get_experiment_params cfg i = Config.Raised Config.IndexError).
Proof.
  split; [|split].
  - intros Hi.
    destruct (get_experiment_params_in_range cfg i Hi) as (level & Hlevel & Hget).
    exists level. eexists. split; [exact Hlevel|]. split; [exact Hget|].
    intros key. apply dict_update_lookup.
  - intros Hi. apply get_experiment_params_out_of_range. left. exact Hi.
  - intros Hi. apply get_experiment_params_out_of_range. right. exact Hi.
Qed.

Lemma experiment_params_layered_witness :
  (exists level params,
      Config.variable_params two_level_config !! 1%nat = Some level /\
      Config.get_experiment_params two_level_config 1 = Config.Returned params /\
      forall key : string,
        params !! key
        = layered_lookup (Config.common_params two_level_config)
            (Config.fixed_params two_level_config) level key) /\
  Config.get_experiment_params two_level_config 2 = Config.Raised Config.IndexError /\
  Config.get_experiment_params two_level_config (-3) = Config.Raised Config.IndexError.
Proof.
  split; [|split].
  - apply (proj1 (experiment_params_layered two_level_config 1)). simpl. lia.
  - apply (proj1 (proj2 (experiment_params_layered two_level_config 2))).
    simpl. lia.
  - apply (proj2 (proj2 (experiment_params_layered two_level_config (-3)))).
    simpl. lia.
Defined.

(** C7 as stated fails: with two levels, index -3 is below
    [len(variable_params)], yet the call raises [IndexError] rather than
    returning a parameter set. *)
Lemma experiment_params_below_range_raises :
  (-3 < Z.of_nat (length (Config.variable_params two_level_config)))%Z /\
  Config.get_experiment_params two_level_config (-3)
  = Config.Raised Config.IndexError /\
  forall params : gmap string R,
    Config.get_experiment_params two_level_config (-3) <> Config.Returned params.
Proof.
  assert (H : Config.get_experiment_params two_level_config (-3)
              = Config.Raised Config.IndexError) by reflexivity.
  split; [simpl; lia|]. split; [exact H|].
  intros params. rewrite H. discriminate.
Qed.

(** C10.  With at least one level and [-len(variable_params) <= i < 0],
    [get_experiment_params(i)] does not raise: it returns the layered
    parameter set built from the level [len(variable_params) + i], so that
    [i = -1] selects the last level. *)
Theorem negative_index_counts_from_end {V : Type}
    (cfg : Config.ExperimentConfig V) (i : Z) :
  Config.variable_params cfg <> [] ->
  (- Z.of_nat (length (Config.variable_params cfg)) <= i < 0)%Z ->
  exists level,
    Config.variable_params cfg
      !! Z.to_nat (Z.of_nat (length (Config.variable_params cfg)) + i) = Some level /\
    Config.get_experiment_params cfg i
    = Config.Returned
        (Config.dict_update
           (Config.dict_update (Config.common_params cfg) (Config.fixed_params cfg))
           level) /\
    (forall key : string,
        Config.dict_update
          (Config.dict_update (Config.common_params cfg) (Config.fixed_params cfg))
          level !! key
        = layered_lookup (Config.common_params cfg) (Config.fixed_params cfg)
            level key) /\
    (i = (-1)%Z -> last (Config.variable_params cfg) = Some level).
Proof.
  intros _ Hi.
  destruct (get_experiment_params_in_range cfg i) as (level & Hlevel & Hget); [lia|].
  replace (i <? 0)%Z with true in Hlevel by (symmetry; apply Z.ltb_lt; lia).
  exists level. split; [exact Hlevel|]. split; [exact Hget|].
  split; [intros key; apply dict_update_lookup|].
  intros ->. rewrite last_lookup. rewrite <- Hlevel. f_equal. lia.
Qed.

Lemma negative_index_counts_from_end_witness :
  exists level,
    Config.variable_params two_level_config !! 1%nat = Some level /\
    Config.get_experiment_params two_level_config (-1)
    = Config.Returned
        (Config.dict_update
           (Config.dict_update (Config.common_params two_level_config)
              (Config.fixed_params two_level_config))
           level) /\
    last (Config.variable_params two_level_config) = Some level.
Proof.
  destruct (negative_index_counts_from_end two_level_config (-1))
    as (level & H1 & H2 & _ & H3).
  - discriminate.
  - simpl. lia.
  - exists level. split; [exact H1|]. split; [exact H2|].
    apply H3. reflexivity.
Defined.

(** * Further properties of the calculators *)

(** ** What a returned single-run result implies about its input *)

Lemma py_div_some (a b t : R) : py_div a b = Some t -> b <> 0 /\ t = a / b.
Proof.
  unfold py_div. destruct (Req_dec_T b 0); [discriminate|].
  intros [= <-]. split; [assumption|reflexivity].
Qed.

Lemma simple_efficiency_returns
    (df : DataFrame) (reference_v initial_v r_load power_input sampling_freq : R)
    (points : option Z) (r : Simple.result) :
  Simple.calculate_simple_efficiency df reference_v initial_v r_load
    power_input sampling_freq points = Some r ->
  sampling_freq <> 0 /\
  (3 <= shape1 (truncate df points))%nat /\
  (2 <= length (ain2_samples (truncate df points)))%nat.
Proof.
  intros H.
  destruct (le_lt_dec 2 (length (ain2_samples (truncate df points)))) as [Hv|Hv].
  2:{ rewrite simple_efficiency_few in H by exact Hv. discriminate H. }
  unfold Simple.calculate_simple_efficiency in H.
  destruct (py_div 1 sampling_freq) as [t|] eqn:Et; [|discriminate H].
  apply py_div_some in Et as [Hf _]. simpl in H.
  destruct (df_empty (truncate df points)); [discriminate H|]. simpl in H.
  destruct (shape1 (truncate df points) <? 3)%nat eqn:Es; [discriminate H|].
  apply Nat.ltb_ge in Es. repeat split; assumption.
Qed.


(** [np.max] and [np.mean] on arrays without NaN. *)
Lemma foldl_fmax_real (x : R) (xs : list R) :
  foldl fmax (Some x) (map Some xs) = Some (foldl Rmax x xs).
Proof.
  revert x. induction xs as [|y xs IH]; intros x; simpl; [reflexivity|].
  apply IH.
Qed.

Lemma np_max_real (x : R) (xs : list R) :
  np_max (map Some (x :: xs)) = Some (Some (foldl Rmax x xs)).
Proof. simpl. rewrite foldl_fmax_real. reflexivity. Qed.

Lemma np_sum_real (xs : list R) :
  np_sum (map Some xs) = Some (foldr Rplus 0 xs).
Proof.
  unfold np_sum. induction xs as [|x xs IH]; simpl; [reflexivity|].
  rewrite IH. reflexivity.
Qed.

Lemma np_mean_real (xs : list R) :
  np_mean (map Some xs) = Some (foldr Rplus 0 xs / INR (length xs)).
Proof.
  unfold np_mean. rewrite np_sum_real, length_map. reflexivity.
Qed.

Lemma simple_efficiency_fields
    (df : DataFrame) (reference_v initial_v r_load power_input sampling_freq : R)
    (points : option Z) (r : Simple.result) :
  Simple.calculate_simple_efficiency df reference_v initial_v r_load
    power_input sampling_freq points = Some r ->
  np_max (Simple.power (Simple.plot_data r)) = Some (Simple.max_output_power r) /\
  Simple.avg_output_power r = np_mean (Simple.power (Simple.plot_data r)).
Proof.
  intros H. unfold Simple.calculate_simple_efficiency in H.
  destruct (py_div 1 sampling_freq) as [t|]; [|discriminate H]. simpl in H.
  destruct (df_empty _ || _); [discriminate H|].
  destruct (negb _); [discriminate H|].
  destruct (_ <? 2)%nat; [discriminate H|].
  destruct (np_max _) as [mx|] eqn:E; [|discriminate H].
  simpl in H. injection H as <-. simpl. split; [exact E|reflexivity].
Qed.

Lemma single_efficiency_fields
    (df : DataFrame) (reference_v initial_v r_load power_input sampling_freq : R)
    (points : option Z) (r : Single.result) :
  Single.calculate_single_efficiency df reference_v initial_v r_load
    power_input sampling_freq points = Some r ->
  np_max (Single.power (Single.plot_data r)) = Some (Single.max_output_power r) /\
  Single.avg_output_power r = np_mean (Single.power (Single.plot_data r)).
Proof.
  intros H. unfold Single.calculate_single_efficiency in H.
  destruct (df_empty _ || _); [discriminate H|].
  destruct (py_div 1 sampling_freq) as [t|]; [|discriminate H]. simpl in H.
  destruct (negb _); [discriminate H|].
  destruct (np_max _) as [mx|] eqn:E; [|discriminate H].
  simpl in H. injection H as <-. simpl. split; [exact E|reflexivity].
Qed.

(** ** The two verification implementations agree *)

(** X1.  Whenever [calculate_simple_efficiency] returns a result,
    [calculate_single_efficiency] returns one on the same arguments with the
    same efficiency, average and peak output power, duration and plot
    arrays. *)
Theorem single_agrees_with_simple
    (df : DataFrame) (reference_v initial_v r_load power_input sampling_freq : R)
    (points : option Z) (r : Simple.result) :
  Simple.calculate_simple_efficiency df reference_v initial_v r_load
    power_input sampling_freq points = Some r ->
  exists r',
    Single.calculate_single_efficiency df reference_v initial_v r_load
      power_input sampling_freq points = Some r' /\
    Single.efficiency r' = Simple.efficiency r /\
    Single.avg_output_power r' = Simple.avg_output_power r /\
    Single.max_output_power r' = Simple.max_output_power r /\
    Single.duration r' = Simple.duration r /\
    Single.time (Single.plot_data r') = Simple.time (Simple.plot_data r) /\
    Single.current (Single.plot_data r') = Simple.current (Simple.plot_data r) /\
    Single.power (Single.plot_data r') = Simple.power (Simple.plot_data r).
Proof.
  intros H.
  destruct (simple_efficiency_returns _ _ _ _ _ _ _ _ H) as (Hf & Hc & Hv).
  destruct (simple_efficiency_value df reference_v initial_v r_load power_input
              sampling_freq points Hf Hc Hv) as [mx E].
  destruct (single_efficiency_value df reference_v initial_v r_load power_input
              sampling_freq points Hf Hc) as [mx' E']; [lia|].
  cbv zeta in E, E'.
  pose proof (simple_efficiency_fields _ _ _ _ _ _ _ _ H) as [Hmax _].
  pose proof (single_efficiency_fields _ _ _ _ _ _ _ _ E') as [Hmax' _].
  rewrite H in E. injection E as Er. rewrite Er in Hmax.
  eexists. split; [exact E'|]. simpl in Hmax'. simpl in Hmax.
  rewrite Er. simpl.
  repeat split; try reflexivity.
  rewrite Hmax in Hmax'. injection Hmax' as <-. reflexivity.
Qed.

Lemma single_agrees_with_simple_witness :
  exists r r',
    Simple.calculate_simple_efficiency (ain2_table [Some 3; None; Some 3])
      1 1 1 1 100 None = Some r /\
    Single.calculate_single_efficiency (ain2_table [Some 3; None; Some 3])
      1 1 1 1 100 None = Some r' /\
    Single.efficiency r' = Simple.efficiency r.
Proof.
  destruct (simple_efficiency_value (ain2_table [Some 3; None; Some 3])
              1 1 1 1 100 None) as [mx E].
  - lra.
  - simpl. lia.
  - simpl. lia.
  - destruct (single_agrees_with_simple _ _ _ _ _ _ _ _ E) as (r' & E' & He & _).
    eexists. exists r'. split; [exact E|]. split; [exact E'|exact He].
Defined.

(** X2.  With exactly one numerically valid AIN2 sample (on a table of at
    least 3 columns, at a non-zero sampling frequency and current scale) the
    two differ:
    [calculate_simple_efficiency] returns [None], while
    [calculate_single_efficiency] returns a result, of efficiency 0 and of
    duration [1 / sampling_freq]. *)
Theorem single_sample_run
    (df : DataFrame) (reference_v initial_v r_load power_input sampling_freq : R)
    (points : option Z) :
  sampling_freq <> 0 ->
  reference_v <> 0 ->
  (3 <= shape1 (truncate df points))%nat ->
  length (ain2_samples (truncate df points)) = 1%nat ->
  Simple.calculate_simple_efficiency df reference_v initial_v r_load
    power_input sampling_freq points = None /\
  exists r',
    Single.calculate_single_efficiency df reference_v initial_v r_load
      power_input sampling_freq points = Some r' /\
    Single.efficiency r' = Some 0 /\
    Single.duration r' = Some (1 / sampling_freq) /\
    length (Single.time (Single.plot_data r')) = 1%nat.
Proof.
  intros Hf _ Hc Hone. split; [apply simple_efficiency_few; lia|].
  destruct (single_efficiency_value df reference_v initial_v r_load power_input
              sampling_freq points Hf Hc) as [mx' E']; [lia|].
  cbv zeta in E'. eexists. split; [exact E'|]. simpl.
  destruct (ain2_samples (truncate df points)) as [|[k v] [|? ?]];
    try discriminate Hone.
  simpl. split; [|split; [|reflexivity]].
  - destruct (Rlt_dec 0 _); [|reflexivity]. f_equal. unfold Rdiv. ring.
  - f_equal. ring.
Qed.

Lemma single_sample_run_witness :
  Simple.calculate_simple_efficiency (ain2_table [None; Some 3; None])
    1 1 1 1 100 None = None /\
  exists r',
    Single.calculate_single_efficiency (ain2_table [None; Some 3; None])
      1 1 1 1 100 None = Some r' /\
    Single.efficiency r' = Some 0.
Proof.
  destruct (single_sample_run (ain2_table [None; Some 3; None]) 1 1 1 1 100 None)
    as (H1 & r' & E & He & _).
  - lra.
  - lra.
  - simpl. lia.
  - reflexivity.
  - split; [exact H1|]. exists r'. split; [exact E|exact He].
Defined.

(** ** A run at rest *)

Lemma foldl_Rmax_zeros (xs : list R) :
  Forall (fun x => x = 0) xs -> foldl Rmax 0 xs = 0.
Proof.
  induction 1 as [|x xs -> _ IH]; simpl; [reflexivity|].
  rewrite Rmax_left by lra. exact IH.
Qed.

Lemma foldr_Rplus_zeros (xs : list R) :
  Forall (fun x => x = 0) xs -> foldr Rplus 0 xs = 0.
Proof.
  induction 1 as [|x xs -> _ IH]; simpl; [reflexivity|]. rewrite IH. lra.
Qed.

Lemma trapzR_zeros (ys xs : list R) :
  Forall (fun y => y = 0) ys -> trapzR ys xs = 0.
Proof.
  intros H. revert xs. induction H as [|y ys -> Hys IH]; intros xs; simpl.
  - reflexivity.
  - destruct xs as [|x0 xs]; [reflexivity|].
    destruct ys as [|y1 ys]; [reflexivity|].
    destruct xs as [|x1 xs]; [reflexivity|].
    apply Forall_cons in Hys as Hy. destruct Hy as [-> _].
    rewrite (IH (x1 :: xs)). lra.
Qed.

Lemma powers_at_rest (reference_v initial_v r_load : R) (s : list (nat * R)) :
  Forall (fun p : nat * R => p.2 = initial_v) s ->
  Forall (fun y => y = 0)
    (powers_of r_load (currents_of reference_v initial_v s)).
Proof.
  induction 1 as [|[k v] s Hv _ IH]; simpl; constructor; [|exact IH].
  simpl in Hv. subst v. unfold decode, Rdiv. ring.
Qed.

(** X3.  If every numerically valid AIN2 sample of a run equals [initial_v]
    (the sensor's zero offset) and [reference_v] is non-zero, a returned [calculate_simple_efficiency]
    result has output energy 0, efficiency 0, and average and peak output
    power 0, whatever the load, the input power and the sampling
    frequency. *)
Theorem run_at_rest
    (df : DataFrame) (reference_v initial_v r_load power_input sampling_freq : R)
    (points : option Z) (r : Simple.result) :
  reference_v <> 0 ->
  Simple.calculate_simple_efficiency df reference_v initial_v r_load
    power_input sampling_freq points = Some r ->
  Forall (fun p : nat * R => p.2 = initial_v) (ain2_samples (truncate df points)) ->
  Simple.output_energy r = Some 0 /\
  Simple.efficiency r = Some 0 /\
  Simple.avg_output_power r = Some 0 /\
  Simple.max_output_power r = Some 0.
Proof.
  intros _ H Hrest.
  destruct (simple_efficiency_returns _ _ _ _ _ _ _ _ H) as (Hf & Hc & Hv).
  destruct (simple_efficiency_value df reference_v initial_v r_load power_input
              sampling_freq points Hf Hc Hv) as [mx E].
  cbv zeta in E.
  pose proof (simple_efficiency_fields _ _ _ _ _ _ _ _ H) as [Hmax Havg].
  rewrite H in E. injection E as Er.
  pose proof (powers_at_rest reference_v initial_v r_load _ Hrest) as Hz.
  set (powers := powers_of r_load
         (currents_of reference_v initial_v (ain2_samples (truncate df points)))) in *.
  rewrite Er in Hmax, Havg. simpl in Hmax, Havg.
  rewrite Er. simpl. rewrite (trapzR_zeros _ _ Hz).
  split; [reflexivity|]. split.
  { destruct (Rlt_dec 0 _); [|reflexivity]. f_equal. unfold Rdiv. ring. }
  split.
  - rewrite np_mean_real, (foldr_Rplus_zeros _ Hz). f_equal. unfold Rdiv. ring.
  - destruct powers as [|p0 ps] eqn:Ep; [discriminate Hmax|].
    rewrite np_max_real in Hmax. injection Hmax as <-.
    apply Forall_cons in Hz as [-> Hps].
    rewrite (foldl_Rmax_zeros _ Hps). reflexivity.
Qed.

Lemma run_at_rest_witness :
  exists r,
    Simple.calculate_simple_efficiency
      (ain2_table [Some (252 / 100); Some (252 / 100); None; Some (252 / 100)])
      (185 / 1000) (252 / 100) 2 1 100 None = Some r /\
    Simple.efficiency r = Some 0 /\
    Simple.max_output_power r = Some 0.
Proof.
  destruct (simple_efficiency_value
              (ain2_table [Some (252 / 100); Some (252 / 100); None; Some (252 / 100)])
              (185 / 1000) (252 / 100) 2 1 100 None) as [mx E].
  - lra.
  - simpl. lia.
  - simpl. lia.
  - assert (Href : 185 / 1000 <> 0) by lra.
    destruct (run_at_rest _ _ _ _ _ _ _ _ Href E) as (_ & He & _ & Hm).
    + repeat constructor.
    + eexists. split; [exact E|]. split; [exact He|exact Hm].
Defined.

(** ** Sampling frequency *)

Lemma trapzR_scale_times (c : R) (ys xs : list R) :
  trapzR ys (map (fun x => x * c) xs) = c * trapzR ys xs.
Proof.
  revert xs. induction ys as [|y0 ys IH]; intros xs; simpl; [ring|].
  destruct xs as [|x0 xs]; simpl; [ring|].
  destruct ys as [|y1 ys]; [ring|].
  destruct xs as [|x1 xs]; simpl; [ring|].
  specialize (IH (x1 :: xs)). simpl in IH. rewrite IH. field.
Qed.

Lemma times_of_scaled (f : R) (s : list (nat * R)) :
  times_of f s = map (fun x => x * (1 / f)) (map (fun p : nat * R => INR p.1) s).
Proof. unfold times_of. rewrite map_map. reflexivity. Qed.

(** X4.  The verification efficiency does not depend on the sampling
    frequency: on the same table and parameters, two positive sampling
    frequencies give results with the same efficiency, the same currents and
    powers and the same average and peak output power (only times, energies
    and duration scale). *)
Theorem efficiency_independent_of_sampling_freq
    (df : DataFrame) (reference_v initial_v r_load power_input f f' : R)
    (points : option Z) (r : Simple.result) :
  0 < f -> 0 < f' -> reference_v <> 0 ->
  Simple.calculate_simple_efficiency df reference_v initial_v r_load
    power_input f points = Some r ->
  exists r',
    Simple.calculate_simple_efficiency df reference_v initial_v r_load
      power_input f' points = Some r' /\
    Simple.efficiency r' = Simple.efficiency r /\
    Simple.current (Simple.plot_data r') = Simple.current (Simple.plot_data r) /\
    Simple.power (Simple.plot_data r') = Simple.power (Simple.plot_data r) /\
    Simple.avg_output_power r' = Simple.avg_output_power r /\
    Simple.max_output_power r' = Simple.max_output_power r.
Proof.
  intros Hf Hf' _ H.
  destruct (simple_efficiency_returns _ _ _ _ _ _ _ _ H) as (_ & Hc & Hv).
  destruct (simple_efficiency_value df reference_v initial_v r_load power_input
              f points) as [mx E]; [lra|exact Hc|exact Hv|].
  destruct (simple_efficiency_value df reference_v initial_v r_load power_input
              f' points) as [mx' E']; [lra|exact Hc|exact Hv|].
  cbv zeta in E, E'.
  pose proof (simple_efficiency_fields _ _ _ _ _ _ _ _ H) as [Hmax _].
  pose proof (simple_efficiency_fields _ _ _ _ _ _ _ _ E') as [Hmax' _].
  rewrite H in E. injection E as Er. rewrite Er in Hmax.
  simpl in Hmax, Hmax'. rewrite Hmax in Hmax'. injection Hmax' as <-.
  eexists. split; [exact E'|]. rewrite Er. simpl.
  split; [|repeat split; reflexivity].
  set (s := ain2_samples (truncate df points)) in *.
  set (powers := powers_of r_load (currents_of reference_v initial_v s)).
  rewrite !times_of_scaled, !trapzR_scale_times.
  set (T := trapzR powers (map (fun p : nat * R => INR p.1) s)).
  assert (Hn : 0 < INR (length s)) by (apply lt_0_INR; lia).
  assert (Ht : 0 < 1 / f) by (apply Rdiv_lt_0_compat; lra).
  assert (Ht' : 0 < 1 / f') by (apply Rdiv_lt_0_compat; lra).
  assert (Hd : 0 < INR (length s) * (1 / f)) by (apply Rmult_lt_0_compat; assumption).
  assert (Hd' : 0 < INR (length s) * (1 / f')) by (apply Rmult_lt_0_compat; assumption).
  destruct (Rlt_dec 0 (power_input * (INR (length s) * (1 / f')))) as [Hp'|Hp'];
    destruct (Rlt_dec 0 (power_input * (INR (length s) * (1 / f)))) as [Hp|Hp].
  - f_equal. field. repeat split; try lra.
    intros ->. rewrite Rmult_0_l in Hp. lra.
  - exfalso. apply Hp. apply Rmult_lt_0_compat; [|exact Hd].
    destruct (Rlt_dec 0 power_input) as [Hpi|Hpi]; [exact Hpi|].
    exfalso. assert (power_input * (INR (length s) * (1 / f')) <= 0); [|lra].
    assert (power_input <= 0) by lra. nra.
  - exfalso. apply Hp'. apply Rmult_lt_0_compat; [|exact Hd'].
    destruct (Rlt_dec 0 power_input) as [Hpi|Hpi]; [exact Hpi|].
    exfalso. assert (power_input * (INR (length s) * (1 / f)) <= 0); [|lra].
    assert (power_input <= 0) by lra. nra.
  - reflexivity.
Qed.

Lemma efficiency_independent_of_sampling_freq_witness :
  exists r r',
    Simple.calculate_simple_efficiency (ain2_table [Some 3; None; Some 3])
      1 1 1 1 100 None = Some r /\
    Simple.calculate_simple_efficiency (ain2_table [Some 3; None; Some 3])
      1 1 1 1 87500 None = Some r' /\
    Simple.efficiency r' = Simple.efficiency r.
Proof.
  destruct (simple_efficiency_value (ain2_table [Some 3; None; Some 3])
              1 1 1 1 100 None) as [mx E].
  - lra.
  - simpl. lia.
  - simpl. lia.
  - assert (H100 : 0 < 100) by lra. assert (H87500 : 0 < 87500) by lra.
    destruct (efficiency_independent_of_sampling_freq
                (ain2_table [Some 3; None; Some 3]) 1 1 1 1 100 87500 None _
                H100 H87500 R1_neq_R0 E) as (r' & E' & He & _).
    eexists. exists r'. split; [exact E|]. split; [exact E'|exact He].
Defined.

(** ** The verification block of the unified calculator *)

Lemma verification_block_value (df : DataFrame)
    (reference_v initial_v r_load power_input time_once : R)
    (entry : Unified.ver_entry) :
  (3 <= shape1 df)%nat ->
  (2 <= length (ain2_samples df))%nat ->
  let s := ain2_samples df in
  let currents := currents_of reference_v initial_v s in
  let times := map (fun p : nat * R => INR p.1 * time_once) s in
  let powers := powers_of r_load currents in
  let input_energy := power_input * (INR (length s) * time_once) in
  Unified.verification_block df (Unified.time_of df time_once) reference_v
    initial_v r_load power_input time_once entry
  = Unified.mkVerEntry
      (if Rlt_dec 0 input_energy
       then Some (trapzR powers times / input_energy)
       else Unified.efficiency entry)
      (Unified.stats entry)
      (Unified.mkVerPlot (map Some times) (map Some currents) (map Some powers)).
Proof.
  intros Hc Hv s currents times powers input_energy.
  unfold Unified.verification_block.
  replace (2 <? shape1 df)%nat with true by (symmetry; apply Nat.ltb_lt; lia).
  rewrite (time_of_columns df time_once 2) by lia.
  rewrite verification_mask, (np_any_not_nan _ 0).
  fold (valid_samples (column df 2)). fold (ain2_samples df). fold s.
  change (2 <= length s)%nat in Hv.
  replace (length s =? 0)%nat with false by (symmetry; apply Nat.eqb_neq; lia).
  simpl negb. cbv iota.
  rewrite (select_decoded _ _ _ 0).
  unfold arange_times. rewrite (select_times _ _ 0).
  fold (valid_samples (column df 2)). fold (ain2_samples df). fold s.
  fold currents.
  change (map (λ p : nat * R, Some (INR p.1 * time_once)) s)
    with (map (fun p : nat * R => Some (INR p.1 * time_once)) s).
  replace (map (fun p : nat * R => Some (INR p.1 * time_once)) s)
    with (map Some times) by (unfold times; rewrite map_map; reflexivity).
  rewrite !length_map.
  change (length currents) with (length (currents_of reference_v initial_v s)).
  rewrite length_currents_of.
  replace (length times) with (length s) by (unfold times; rewrite length_map; reflexivity).
  replace (2 <=? length s)%nat with true by (symmetry; apply Nat.leb_le; lia).
  rewrite power_real. fold powers. rewrite trapz_real.
  fold input_energy.
  destruct (Rlt_dec 0 input_energy); reflexivity.
Qed.




(** A returned unified result comes from a non-zero frequency and a
    non-empty forward frame. *)
Lemma unified_returns
    (zheng_file fan_file : DataFrame)
    (reference_v initial_v r_load drive_v power_input sampling_freq : R)
    (points_zheng points_fan : option Z) (res : Unified.results) :
  Unified.calculate_unified_efficiencies zheng_file fan_file reference_v
    initial_v r_load drive_v power_input sampling_freq points_zheng points_fan
  = Some res ->
  sampling_freq <> 0 /\ df_empty (truncate zheng_file points_zheng) = false.
Proof.
  intros H. split.
  - intros ->. unfold Unified.calculate_unified_efficiencies, py_div in H.
    destruct (Req_dec_T 0 0); [discriminate H|contradiction].
  - destruct (df_empty (truncate zheng_file points_zheng)) eqn:Hz; [|reflexivity].
    rewrite unified_none_on_empty_forward in H by exact Hz. discriminate H.
Qed.

(** X5.  The unified calculator and the stand-alone one agree on the forward
    verification run: whenever [calculate_simple_efficiency] returns a result
    for a table, [calculate_unified_efficiencies] with that table as forward
    file (same calibration, same truncation, any reverse file) returns a
    result whose forward verification entry has the same efficiency and the
    same time, current and power arrays. *)
Theorem unified_verification_agrees_with_simple
    (zheng_file fan_file : DataFrame)
    (reference_v initial_v r_load drive_v power_input sampling_freq : R)
    (points_zheng points_fan : option Z) (r : Simple.result) :
  Simple.calculate_simple_efficiency zheng_file reference_v initial_v r_load
    power_input sampling_freq points_zheng = Some r ->
  exists res,
    Unified.calculate_unified_efficiencies zheng_file fan_file reference_v
      initial_v r_load drive_v power_input sampling_freq points_zheng points_fan
    = Some res /\
    Unified.efficiency (Unified.zheng (Unified.verification res))
      = Simple.efficiency r /\
    Unified.time (Unified.plot_data (Unified.zheng (Unified.verification res)))
      = Simple.time (Simple.plot_data r) /\
    Unified.current (Unified.plot_data (Unified.zheng (Unified.verification res)))
      = Simple.current (Simple.plot_data r) /\
    Unified.power (Unified.plot_data (Unified.zheng (Unified.verification res)))
      = Simple.power (Simple.plot_data r).
Proof.
  intros H.
  destruct (simple_efficiency_returns _ _ _ _ _ _ _ _ H) as (Hf & Hc & Hv).
  destruct (simple_efficiency_value zheng_file reference_v initial_v r_load
              power_input sampling_freq points_zheng Hf Hc Hv) as [mx E].
  cbv zeta in E. rewrite H in E. injection E as Er.
  assert (Hz : df_empty (truncate zheng_file points_zheng) = false).
  { unfold df_empty. apply orb_false_intro; apply Nat.eqb_neq; [|lia].
    pose proof (length_valid_from (column (truncate zheng_file points_zheng) 2) 0) as Hl.
    rewrite length_column in Hl. unfold ain2_samples, valid_samples in Hv. lia. }
  destruct (unified_efficiencies_value zheng_file fan_file reference_v
              initial_v r_load drive_v power_input sampling_freq points_zheng
              points_fan Hf Hz) as (res & Eu & Hvz & _).
  cbv zeta in Hvz. exists res. split; [exact Eu|].
  rewrite Hvz, Er. unfold Unified.process_polarity. simpl.
  rewrite verification_block_value by assumption. simpl.
  unfold times_of.
  split; [|repeat split; reflexivity].
  destruct (Rlt_dec 0 _); reflexivity.
Qed.

Lemma unified_verification_agrees_with_simple_witness :
  exists r res,
    Simple.calculate_simple_efficiency (ain2_table [Some 3; None; Some 3])
      1 1 1 1 100 None = Some r /\
    Unified.calculate_unified_efficiencies (ain2_table [Some 3; None; Some 3])
      (ain2_table []) 1 1 1 5 1 100 None None = Some res /\
    Unified.efficiency (Unified.zheng (Unified.verification res))
      = Simple.efficiency r.
Proof.
  destruct (simple_efficiency_value (ain2_table [Some 3; None; Some 3])
              1 1 1 1 100 None) as [mx E].
  - lra.
  - simpl. lia.
  - simpl. lia.
  - destruct (unified_verification_agrees_with_simple
                (ain2_table [Some 3; None; Some 3]) (ain2_table [])
                1 1 1 5 1 100 None None _ E) as (res & Eu & He & _).
    eexists. exists res. split; [exact E|]. split; [exact Eu|exact He].
Defined.

(** ** Invariants of the unified result *)

Lemma unified_comparison
    (zheng_file fan_file : DataFrame)
    (reference_v initial_v r_load drive_v power_input sampling_freq : R)
    (points_zheng points_fan : option Z) (res : Unified.results) :
  Unified.calculate_unified_efficiencies zheng_file fan_file reference_v
    initial_v r_load drive_v power_input sampling_freq points_zheng points_fan
  = Some res ->
  Unified.comparison res
  = Unified.mkComparison
      (abs (sub (Unified.t_efficiency (Unified.t_zheng (Unified.theoretical res)))
              (Unified.efficiency (Unified.zheng (Unified.verification res)))))
      (abs (sub (Unified.t_efficiency (Unified.t_fan (Unified.theoretical res)))
              (Unified.efficiency (Unified.fan (Unified.verification res)))))
      (abs (sub (Unified.t_finished_efficiency (Unified.theoretical res))
              (Unified.finished_efficiency (Unified.verification res)))).
Proof.
  intros H. unfold Unified.calculate_unified_efficiencies in H.
  destruct (py_div 1 sampling_freq) as [t|]; [|discriminate H].
  cbn [mbind option_bind] in H.
  destruct (df_empty (truncate zheng_file points_zheng)); [discriminate H|].
  destruct (Unified.process_polarity (truncate zheng_file points_zheng) _ _ _ _ _ _ _ _)
    as [vz tz].
  destruct (if negb (df_empty (truncate fan_file points_fan)) then _ else _)
    as [vf tf].
  injection H as <-. reflexivity.
Qed.

Lemma combine_self (e : float) : Unified.combine e e = max0 e.
Proof.
  unfold Unified.combine. destruct (max0_nonneg e) as (m & -> & Hm).
  simpl. rewrite sqrt_square by exact Hm. reflexivity.
Qed.



Lemma theo_finished_comm (a b : float) :
  Unified.theo_finished a b = Unified.theo_finished b a.
Proof.
  unfold Unified.theo_finished. rewrite andb_comm.
  destruct (geb b (Some 0) && geb a (Some 0)); [|reflexivity].
  destruct a as [x|], b as [y|]; simpl; try reflexivity.
  rewrite (Rmult_comm x y). reflexivity.
Qed.

Lemma theo_finished_self (x : float) :
  Unified.theo_finished (Unified.theo_processed x) (Unified.theo_processed x)
  = div (Unified.theo_processed x) (Some 100).
Proof.
  destruct (theo_processed_nonneg x) as (p & -> & Hp).
  unfold Unified.theo_finished, geb.
  destruct (Rle_dec 0 p) as [_|H]; [|contradiction]. simpl. f_equal.
  replace (p * p / 10000) with ((p / 100) * (p / 100)) by field.
  apply sqrt_square. lra.
Qed.



(** The combined verification efficiency of a file paired with itself. *)
Lemma self_finished_efficiency
    (file : DataFrame)
    (reference_v initial_v r_load drive_v power_input sampling_freq : R)
    (points : option Z) (res : Unified.results) :
  Unified.calculate_unified_efficiencies file file reference_v
    initial_v r_load drive_v power_input sampling_freq points points
  = Some res ->
  Unified.finished_efficiency (Unified.verification res)
  = max0 (Unified.efficiency (Unified.zheng (Unified.verification res))).
Proof.
  intros H.
  destruct (unified_returns _ _ _ _ _ _ _ _ _ _ _ H) as [Hf Hz].
  destruct (unified_efficiencies_value file file reference_v
              initial_v r_load drive_v power_input sampling_freq points
              points Hf Hz) as (res' & E & Hvz & Hvf & Hfin & _).
  rewrite H in E. injection E as <-. cbv zeta in *.
  rewrite Hz in Hvf, Hfin. rewrite Hfin, Hvz. apply combine_self.
Qed.

(** X7.  Self-combination.  When the same table serves as forward and as
    reverse file (the factor-exploration call), the reverse entries equal the
    forward ones, the combined verification efficiency is the forward
    verification efficiency clamped at zero, [max(0, e)], and the combined
    theoretical efficiency equals the returned forward theoretical
    efficiency. *)
Theorem unified_self_combination
    (file : DataFrame)
    (reference_v initial_v r_load drive_v power_input sampling_freq : R)
    (points : option Z) (res : Unified.results) :
  Unified.calculate_unified_efficiencies file file reference_v
    initial_v r_load drive_v power_input sampling_freq points points
  = Some res ->
  Unified.fan (Unified.verification res) = Unified.zheng (Unified.verification res) /\
  Unified.t_fan (Unified.theoretical res) = Unified.t_zheng (Unified.theoretical res) /\
  Unified.finished_efficiency (Unified.verification res)
    = max0 (Unified.efficiency (Unified.zheng (Unified.verification res))) /\
  Unified.t_finished_efficiency (Unified.theoretical res)
    = Unified.t_efficiency (Unified.t_zheng (Unified.theoretical res)).
Proof.
  intros H.
  destruct (unified_returns _ _ _ _ _ _ _ _ _ _ _ H) as [Hf Hz].
  destruct (unified_efficiencies_value file file reference_v
              initial_v r_load drive_v power_input sampling_freq points
              points Hf Hz) as (res' & E & Hvz & Hvf & Hfin & Htz & Htf & Htfin).
  rewrite H in E. injection E as <-. cbv zeta in *.
  rewrite Hz in Hvf, Hfin, Htf, Htfin.
  rewrite Hvz, Hvf, Htz, Htf, Hfin, Htfin. simpl.
  repeat split; try reflexivity.
  - apply combine_self.
  - apply theo_finished_self.
Qed.

Lemma unified_self_combination_witness :
  exists res,
    Unified.calculate_unified_efficiencies (ain2_table [Some 3; None; Some 3])
      (ain2_table [Some 3; None; Some 3]) 1 1 1 1 1 100 None None = Some res /\
    Unified.finished_efficiency (Unified.verification res)
      = max0 (Unified.efficiency (Unified.zheng (Unified.verification res))).
Proof.
  destruct (unified_efficiencies_value (ain2_table [Some 3; None; Some 3])
              (ain2_table [Some 3; None; Some 3]) 1 1 1 1 1 100 None None)
    as (res & E & _).
  - lra.
  - reflexivity.
  - exists res. split; [exact E|].
    exact (proj1 (proj2 (proj2 (unified_self_combination _ _ _ _ _ _ _ _ res E)))).
Defined.

(** X8.  Exchanging the two files.  With both frames non-empty after
    truncation, calling [calculate_unified_efficiencies] with the forward and
    reverse files (and their truncation counts) exchanged exchanges the
    per-polarity entries and the per-polarity deltas, and leaves both
    combined efficiencies and their delta unchanged. *)
Theorem unified_exchange_files
    (zheng_file fan_file : DataFrame)
    (reference_v initial_v r_load drive_v power_input sampling_freq : R)
    (points_zheng points_fan : option Z) (res : Unified.results) :
  Unified.calculate_unified_efficiencies zheng_file fan_file reference_v
    initial_v r_load drive_v power_input sampling_freq points_zheng points_fan
  = Some res ->
  df_empty (truncate fan_file points_fan) = false ->
  exists res',
    Unified.calculate_unified_efficiencies fan_file zheng_file reference_v
      initial_v r_load drive_v power_input sampling_freq points_fan points_zheng
    = Some res' /\
    Unified.zheng (Unified.verification res') = Unified.fan (Unified.verification res) /\
    Unified.fan (Unified.verification res') = Unified.zheng (Unified.verification res) /\
    Unified.t_zheng (Unified.theoretical res') = Unified.t_fan (Unified.theoretical res) /\
    Unified.t_fan (Unified.theoretical res') = Unified.t_zheng (Unified.theoretical res) /\
    Unified.finished_efficiency (Unified.verification res')
      = Unified.finished_efficiency (Unified.verification res) /\
    Unified.t_finished_efficiency (Unified.theoretical res')
      = Unified.t_finished_efficiency (Unified.theoretical res) /\
    Unified.zheng_diff (Unified.comparison res') = Unified.fan_diff (Unified.comparison res) /\
    Unified.fan_diff (Unified.comparison res') = Unified.zheng_diff (Unified.comparison res) /\
    Unified.finished_diff (Unified.comparison res')
      = Unified.finished_diff (Unified.comparison res).
Proof.
  intros H Hfan.
  destruct (unified_returns _ _ _ _ _ _ _ _ _ _ _ H) as [Hf Hz].
  destruct (unified_efficiencies_value zheng_file fan_file reference_v
              initial_v r_load drive_v power_input sampling_freq points_zheng
              points_fan Hf Hz) as (r1 & E & Hvz & Hvf & Hfin & Htz & Htf & Htfin).
  rewrite H in E. injection E as <-.
  destruct (unified_efficiencies_value fan_file zheng_file reference_v
              initial_v r_load drive_v power_input sampling_freq points_fan
              points_zheng Hf Hfan)
    as (res' & E' & Hvz' & Hvf' & Hfin' & Htz' & Htf' & Htfin').
  cbv zeta in *. rewrite Hfan in *. rewrite Hz in *.
  exists res'. split; [exact E'|].
  assert (A1 : Unified.zheng (Unified.verification res')
               = Unified.fan (Unified.verification res)) by (rewrite Hvz', Hvf; reflexivity).
  assert (A2 : Unified.fan (Unified.verification res')
               = Unified.zheng (Unified.verification res)) by (rewrite Hvf', Hvz; reflexivity).
  assert (A3 : Unified.t_zheng (Unified.theoretical res')
               = Unified.t_fan (Unified.theoretical res)) by (rewrite Htz', Htf; reflexivity).
  assert (A4 : Unified.t_fan (Unified.theoretical res')
               = Unified.t_zheng (Unified.theoretical res)) by (rewrite Htf', Htz; reflexivity).
  assert (A5 : Unified.finished_efficiency (Unified.verification res')
               = Unified.finished_efficiency (Unified.verification res)).
  { rewrite Hfin', Hfin. apply combine_comm. }
  assert (A6 : Unified.t_finished_efficiency (Unified.theoretical res')
               = Unified.t_finished_efficiency (Unified.theoretical res)).
  { rewrite Htfin', Htfin. apply theo_finished_comm. }
  rewrite (unified_comparison _ _ _ _ _ _ _ _ _ _ _ H).
  rewrite (unified_comparison _ _ _ _ _ _ _ _ _ _ _ E'). simpl.
  rewrite A1, A2, A3, A4, A5, A6. repeat split; reflexivity.
Qed.

Lemma unified_exchange_files_witness :
  exists res res',
    Unified.calculate_unified_efficiencies (ain2_table [Some 3; None; Some 3])
      (theo_table [(Some 1, Some 4); (Some 1, Some 4)])
      1 0 1 1 1 100 None None = Some res /\
    Unified.calculate_unified_efficiencies
      (theo_table [(Some 1, Some 4); (Some 1, Some 4)])
      (ain2_table [Some 3; None; Some 3])
      1 0 1 1 1 100 None None = Some res' /\
    Unified.finished_efficiency (Unified.verification res')
      = Unified.finished_efficiency (Unified.verification res).
Proof.
  destruct (unified_efficiencies_value (ain2_table [Some 3; None; Some 3])
              (theo_table [(Some 1, Some 4); (Some 1, Some 4)])
              1 0 1 1 1 100 None None) as (res & E & _).
  - lra.
  - reflexivity.
  - destruct (unified_exchange_files _ _ _ _ _ _ _ _ _ _ res E)
      as (res' & E' & _ & _ & _ & _ & H & _).
    + reflexivity.
    + exists res, res'. split; [exact E|]. split; [exact E'|exact H].
Defined.

(** ** Channel statistics *)

Lemma foldl_Rmax_spec (x : R) (xs : list R) :
  In (foldl Rmax x xs) (x :: xs) /\
  forall v, In v (x :: xs) -> v <= foldl Rmax x xs.
Proof.
  revert x. induction xs as [|y xs IH]; intros x.
  - simpl. split; [left; reflexivity|]. intros v [->|[]]. lra.
  - destruct (IH (Rmax x y)) as [Hin Hub]. cbn [foldl]. split.
    + destruct Hin as [Hin|Hin]; [|right; right; exact Hin].
      rewrite <- Hin. unfold Rmax. destruct (Rle_dec x y);
        [right; left; reflexivity|left; reflexivity].
    + intros v [->|[->|Hv]].
      * eapply Rle_trans; [apply Rmax_l|]. apply Hub. left. reflexivity.
      * eapply Rle_trans; [apply Rmax_r|]. apply Hub. left. reflexivity.
      * apply Hub. right. exact Hv.
Qed.

Lemma foldl_Rmin_spec (x : R) (xs : list R) :
  In (foldl Rmin x xs) (x :: xs) /\
  forall v, In v (x :: xs) -> foldl Rmin x xs <= v.
Proof.
  revert x. induction xs as [|y xs IH]; intros x.
  - simpl. split; [left; reflexivity|]. intros v [->|[]]. lra.
  - destruct (IH (Rmin x y)) as [Hin Hlb]. cbn [foldl]. split.
    + destruct Hin as [Hin|Hin]; [|right; right; exact Hin].
      rewrite <- Hin. unfold Rmin. destruct (Rle_dec x y);
        [left; reflexivity|right; left; reflexivity].
    + intros v [->|[->|Hv]].
      * eapply Rle_trans; [|apply Rmin_l]. apply Hlb. left. reflexivity.
      * eapply Rle_trans; [|apply Rmin_r]. apply Hlb. left. reflexivity.
      * apply Hlb. right. exact Hv.
Qed.

Lemma sum_between (lo hi : R) (xs : list R) :
  (forall v, In v xs -> lo <= v <= hi) ->
  INR (length xs) * lo <= foldr Rplus 0 xs <= INR (length xs) * hi.
Proof.
  induction xs as [|x xs IH]; intros H.
  - simpl. lra.
  - destruct IH as [IH1 IH2]; [intros v Hv; apply H; right; exact Hv|].
    destruct (H x) as [Hx1 Hx2]; [left; reflexivity|].
    cbn [foldr length]. rewrite S_INR. lra.
Qed.

Lemma non_null_In (col : list float) (v : R) :
  In v (Unified.non_null col) <-> In (Some v) col.
Proof.
  unfold Unified.non_null. induction col as [|[w|] col IH]; simpl.
  - reflexivity.
  - rewrite IH. split; intros [H|H]; auto; left; congruence.
  - rewrite IH. split; [auto|]. intros [H|H]; [discriminate H|exact H].
Qed.

(** X9.  [_calculate_column_stats] ignores the cells that are not numbers.
    A column without any number gets the NaN triple; otherwise max, min and
    avg are numbers, max and min are cells of the column that bound every
    numeric cell, and avg lies between them. *)
Theorem column_stats_bounds (col : list float) :
  ((forall v, ~ In (Some v) col) ->
   Unified._calculate_column_stats col = Unified.nan_stats) /\
  ((exists v, In (Some v) col) ->
   exists mx mn av,
     Unified._calculate_column_stats col
       = Unified.mkStats (Some mx) (Some mn) (Some av) /\
     In (Some mx) col /\ In (Some mn) col /\
     (forall v, In (Some v) col -> mn <= v <= mx) /\
     mn <= av <= mx).
Proof.
  unfold Unified._calculate_column_stats. split.
  - intros Hnone. destruct (Unified.non_null col) as [|x xs] eqn:E; [reflexivity|].
    exfalso. apply (Hnone x). apply non_null_In. rewrite E. left. reflexivity.
  - intros [v0 Hv0]. apply non_null_In in Hv0.
    destruct (Unified.non_null col) as [|x xs] eqn:E; [destruct Hv0|].
    destruct (foldl_Rmax_spec x xs) as [Hmax_in Hmax].
    destruct (foldl_Rmin_spec x xs) as [Hmin_in Hmin].
    eexists. eexists. eexists. split; [reflexivity|].
    split; [apply non_null_In; rewrite E; exact Hmax_in|].
    split; [apply non_null_In; rewrite E; exact Hmin_in|].
    assert (Hb : forall v, In v (x :: xs) ->
                   foldl Rmin x xs <= v <= foldl Rmax x xs).
    { intros v Hv. split; [apply Hmin|apply Hmax]; exact Hv. }
    split.
    + intros v Hv. apply Hb. rewrite <- E. apply non_null_In. exact Hv.
    + pose proof (sum_between _ _ (x :: xs) Hb) as [Hs1 Hs2].
      assert (Hn : 0 < INR (length (x :: xs))) by (apply lt_0_INR; simpl; lia).
      split.
      * apply Rmult_le_reg_l with (INR (length (x :: xs))); [exact Hn|].
        replace (INR (length (x :: xs)) * (foldr Rplus 0 (x :: xs) / INR (length (x :: xs))))
          with (foldr Rplus 0 (x :: xs)) by (field; lra).
        exact Hs1.
      * apply Rmult_le_reg_l with (INR (length (x :: xs))); [exact Hn|].
        replace (INR (length (x :: xs)) * (foldr Rplus 0 (x :: xs) / INR (length (x :: xs))))
          with (foldr Rplus 0 (x :: xs)) by (field; lra).
        exact Hs2.
Qed.

Lemma column_stats_bounds_witness :
  Unified._calculate_column_stats [None; None] = Unified.nan_stats /\
  exists mx mn av,
    Unified._calculate_column_stats [Some 2; None; Some 5]
      = Unified.mkStats (Some mx) (Some mn) (Some av) /\
    mn <= av <= mx.
Proof.
  split.
  - apply (proj1 (column_stats_bounds [None; None])).
    intros v [H|[H|[]]]; discriminate H.
  - destruct (proj2 (column_stats_bounds [Some 2; None; Some 5]))
      as (mx & mn & av & E & _ & _ & _ & H).
    + exists 2. left. reflexivity.
    + exists mx, mn, av. split; [exact E|exact H].
Defined.

Lemma insert_if {V : Type} (b : bool) (k : string) (x y : V) (m : gmap string V) :
  (if b then <[k := x]> m else <[k := y]> m) = <[k := if b then x else y]> m.
Proof. destruct b; reflexivity. Qed.

(** The statistics of channel [k] (1-based) of a frame. *)
Lemma channel_stats_lookup (df : DataFrame) (i : nat) (name : string) :
  Unified.channel_names !! i = Some name ->
  Unified.channel_stats df !! name
  = Some (if (i + 1 <? shape1 df)%nat
          then Unified._calculate_column_stats (column df (i + 1))
          else Unified.nan_stats).
Proof.
  intros Hi. unfold Unified.channel_stats.
  cbn [Unified.channel_names length seq zip zip_with foldl].
  rewrite !insert_if.
  do 8 (destruct i as [|i];
        [injection Hi as <-; simplify_map_eq; reflexivity|]).
  discriminate Hi.
Qed.

Lemma channel_stats_keys (df : DataFrame) (key : string) :
  is_Some (Unified.channel_stats df !! key) <-> In key Unified.channel_names.
Proof.
  unfold Unified.channel_stats.
  cbn [Unified.channel_names length seq zip zip_with foldl].
  rewrite !insert_if. rewrite !lookup_insert_is_Some, lookup_empty.
  simpl. split.
  - intros H. repeat (destruct H as [H|[_ H]]; [subst; tauto|]).
    destruct H as [? H]. discriminate H.
  - intros H. repeat (destruct H as [<-|H]; [simplify_map_eq; tauto|]).
    destruct H.
Qed.

Lemma verification_block_stats (df : DataFrame) (time_arr : list float)
    (reference_v initial_v r_load power_input time_once : R)
    (entry : Unified.ver_entry) :
  Unified.stats (Unified.verification_block df time_arr reference_v initial_v
                   r_load power_input time_once entry)
  = Unified.stats entry.
Proof.
  unfold Unified.verification_block.
  destruct (2 <? shape1 df)%nat; [|reflexivity].
  destruct (np_any _); [|reflexivity].
  destruct (2 <=? _)%nat; [|reflexivity].
  destruct (Rlt_dec 0 _); reflexivity.
Qed.

Lemma theoretical_block_stats (df : DataFrame) (time_arr : list float)
    (reference_v initial_v r_load drive_v : R) (entry : Unified.theo_entry) :
  Unified.t_stats (Unified.theoretical_block df time_arr reference_v initial_v
                     r_load drive_v entry)
  = Unified.t_stats entry.
Proof.
  unfold Unified.theoretical_block.
  destruct (7 <? shape1 df)%nat; [|reflexivity].
  destruct (np_any _); [|reflexivity].
  destruct (2 <=? _)%nat; [|reflexivity].
  destruct (gtb _ _); reflexivity.
Qed.

(** X10.  Channel statistics of a unified result.  For each polarity whose
    frame is not empty after truncation, the verification and the theoretical
    entry carry the same [stats] dict; its keys are exactly AIN1 .. AIN8; the
    entry of AINk is the statistics of column k of the frame when the frame has
    more than k columns and the NaN triple otherwise.  The statistics do not
    depend on the calibration.  An empty reverse frame leaves the reverse
    [stats] empty. *)
Theorem unified_channel_statistics
    (zheng_file fan_file : DataFrame)
    (reference_v initial_v r_load drive_v power_input sampling_freq : R)
    (points_zheng points_fan : option Z) (res : Unified.results) :
  Unified.calculate_unified_efficiencies zheng_file fan_file reference_v
    initial_v r_load drive_v power_input sampling_freq points_zheng points_fan
  = Some res ->
  let stats_of (df : DataFrame) (i : nat) :=
    Some (if (i + 1 <? shape1 df)%nat
          then Unified._calculate_column_stats (column df (i + 1))
          else Unified.nan_stats) in
  Unified.t_stats (Unified.t_zheng (Unified.theoretical res))
    = Unified.stats (Unified.zheng (Unified.verification res)) /\
  Unified.t_stats (Unified.t_fan (Unified.theoretical res))
    = Unified.stats (Unified.fan (Unified.verification res)) /\
  (forall key,
      is_Some (Unified.stats (Unified.zheng (Unified.verification res)) !! key)
      <-> In key Unified.channel_names) /\
  (forall i name,
      Unified.channel_names !! i = Some name ->
      Unified.stats (Unified.zheng (Unified.verification res)) !! name
      = stats_of (truncate zheng_file points_zheng) i) /\
  (df_empty (truncate fan_file points_fan) = true ->
   Unified.stats (Unified.fan (Unified.verification res)) = ∅) /\
  (df_empty (truncate fan_file points_fan) = false ->
   forall i name,
     Unified.channel_names !! i = Some name ->
     Unified.stats (Unified.fan (Unified.verification res)) !! name
     = stats_of (truncate fan_file points_fan) i).
Proof.
  intros H stats_of.
  destruct (unified_returns _ _ _ _ _ _ _ _ _ _ _ H) as [Hf Hz].
  destruct (unified_efficiencies_value zheng_file fan_file reference_v
              initial_v r_load drive_v power_input sampling_freq points_zheng
              points_fan Hf Hz) as (res' & E & Hvz & Hvf & _ & Htz & Htf & _).
  rewrite H in E. injection E as <-. cbv zeta in *.
  assert (Sz : Unified.stats (Unified.zheng (Unified.verification res))
               = Unified.channel_stats (truncate zheng_file points_zheng)).
  { rewrite Hvz. unfold Unified.process_polarity. cbn [fst].
    apply verification_block_stats. }
  assert (Tz : Unified.t_stats (Unified.t_zheng (Unified.theoretical res))
               = Unified.channel_stats (truncate zheng_file points_zheng)).
  { rewrite Htz. cbn [Unified.t_stats]. unfold Unified.process_polarity. cbn [snd].
    apply theoretical_block_stats. }
  assert (Sf : Unified.stats (Unified.fan (Unified.verification res))
               = if df_empty (truncate fan_file points_fan) then ∅
                 else Unified.channel_stats (truncate fan_file points_fan)).
  { rewrite Hvf. destruct (df_empty (truncate fan_file points_fan)); [reflexivity|].
    unfold Unified.process_polarity. cbn [fst]. apply verification_block_stats. }
  assert (Tf : Unified.t_stats (Unified.t_fan (Unified.theoretical res))
               = if df_empty (truncate fan_file points_fan) then ∅
                 else Unified.channel_stats (truncate fan_file points_fan)).
  { rewrite Htf. cbn [Unified.t_stats].
    destruct (df_empty (truncate fan_file points_fan)); [reflexivity|].
    unfold Unified.process_polarity. cbn [snd]. apply theoretical_block_stats. }
  split; [rewrite Sz, Tz; reflexivity|].
  split; [rewrite Sf, Tf; reflexivity|].
  split; [intros key; rewrite Sz; apply channel_stats_keys|].
  split; [intros i name Hi; rewrite Sz; apply channel_stats_lookup, Hi|].
  split.
  - intros Hfan. rewrite Sf, Hfan. reflexivity.
  - intros Hfan i name Hi. rewrite Sf, Hfan. apply channel_stats_lookup, Hi.
Qed.

Lemma unified_channel_statistics_witness :
  exists res,
    Unified.calculate_unified_efficiencies (ain2_table [Some 3; None; Some 5])
      (ain2_table []) 1 0 1 1 1 100 None None = Some res /\
    Unified.stats (Unified.zheng (Unified.verification res)) !! "AIN2"%string
      = Some (Unified._calculate_column_stats [Some 3; None; Some 5]) /\
    Unified.stats (Unified.zheng (Unified.verification res)) !! "AIN3"%string
      = Some Unified.nan_stats /\
    Unified.stats (Unified.fan (Unified.verification res)) = ∅.
Proof.
  destruct (unified_efficiencies_value (ain2_table [Some 3; None; Some 5])
              (ain2_table []) 1 0 1 1 1 100 None None) as (res & E & _).
  - lra.
  - reflexivity.
  - destruct (unified_channel_statistics _ _ _ _ _ _ _ _ _ _ res E)
      as (_ & _ & _ & Hz & Hempty & _).
    exists res. split; [exact E|].
    split; [exact (Hz 1%nat "AIN2"%string eq_refl)|].
    split; [exact (Hz 2%nat "AIN3"%string eq_refl)|].
    apply Hempty. reflexivity.
Defined.

(** ** Truncation *)

Lemma valid_from_take (col : list float) (n k : nat) :
  exists rest, valid_from k col = valid_from k (take n col) ++ rest.
Proof.
  revert n k. induction col as [|[v|] col IH]; intros n k.
  - exists []. destruct n; reflexivity.
  - destruct n as [|n]; simpl.
    + eexists. reflexivity.
    + destruct (IH n (S k)) as [rest ->]. exists rest. reflexivity.
  - destruct n as [|n]; simpl.
    + eexists. reflexivity.
    + apply IH.
Qed.

Lemma ain2_samples_truncate (df : DataFrame) (points : option Z) :
  exists rest,
    ain2_samples df = ain2_samples (truncate df points) ++ rest.
Proof.
  unfold truncate. destruct points as [p|]; [|exists []; rewrite app_nil_r; reflexivity].
  destruct (0 <? p)%Z; [|exists []; rewrite app_nil_r; reflexivity].
  unfold ain2_samples, valid_samples. rewrite column_head. apply valid_from_take.
Qed.

(** X11.  Truncation only cuts the series off.  If
    [calculate_simple_efficiency] returns a result on the first
    [points_to_process] rows, it returns one on the whole table as well, and
    the time, current and power arrays of the truncated run are prefixes of
    those of the whole run. *)
Theorem truncated_series_are_prefixes
    (df : DataFrame) (reference_v initial_v r_load power_input sampling_freq : R)
    (points : option Z) (r : Simple.result) :
  Simple.calculate_simple_efficiency df reference_v initial_v r_load
    power_input sampling_freq points = Some r ->
  exists r_full,
    Simple.calculate_simple_efficiency df reference_v initial_v r_load
      power_input sampling_freq None = Some r_full /\
    Simple.time (Simple.plot_data r) `prefix_of` Simple.time (Simple.plot_data r_full) /\
    Simple.current (Simple.plot_data r)
      `prefix_of` Simple.current (Simple.plot_data r_full) /\
    Simple.power (Simple.plot_data r) `prefix_of` Simple.power (Simple.plot_data r_full).
Proof.
  intros H.
  destruct (simple_efficiency_returns _ _ _ _ _ _ _ _ H) as (Hf & Hc & Hv).
  destruct (simple_efficiency_value df reference_v initial_v r_load power_input
              sampling_freq points Hf Hc Hv) as [mx E].
  cbv zeta in E. rewrite H in E. injection E as Er.
  destruct (ain2_samples_truncate df points) as [rest Hrest].
  destruct (simple_efficiency_value df reference_v initial_v r_load power_input
              sampling_freq None Hf) as [mx' E'].
  { rewrite shape1_truncate in Hc. exact Hc. }
  { simpl truncate. rewrite Hrest, length_app. lia. }
  cbv zeta in E'. simpl truncate in E'.
  eexists. split; [exact E'|]. rewrite Er. simpl.
  rewrite Hrest. unfold times_of, powers_of, currents_of.
  rewrite !map_app. repeat split; eexists; reflexivity.
Qed.

Lemma truncated_series_are_prefixes_witness :
  exists r r_full,
    Simple.calculate_simple_efficiency (ain2_table [Some 3; None; Some 3; Some 4])
      1 1 1 1 100 (Some 3%Z) = Some r /\
    Simple.calculate_simple_efficiency (ain2_table [Some 3; None; Some 3; Some 4])
      1 1 1 1 100 None = Some r_full /\
    Simple.current (Simple.plot_data r)
      `prefix_of` Simple.current (Simple.plot_data r_full).
Proof.
  destruct (simple_efficiency_value (ain2_table [Some 3; None; Some 3; Some 4])
              1 1 1 1 100 (Some 3%Z)) as [mx E].
  - lra.
  - simpl. lia.
  - simpl. lia.
  - destruct (truncated_series_are_prefixes _ _ _ _ _ _ _ _ E)
      as (r_full & E' & _ & Hc & _).
    eexists. exists r_full. split; [exact E|]. split; [exact E'|exact Hc].
Defined.

(** ** Configuring an experiment *)

Lemma get_experiment_params_nat {V : Type}
    (cfg : Config.ExperimentConfig V) (i : nat) (level : gmap string V) :
  Config.variable_params cfg !! i = Some level ->
  Config.get_experiment_params cfg (Z.of_nat i)
  = Config.Returned
      (Config.dict_update
         (Config.dict_update (Config.common_params cfg) (Config.fixed_params cfg))
         level).
Proof.
  intros Hi. apply lookup_lt_Some in Hi as Hlt.
  destruct (get_experiment_params_in_range cfg (Z.of_nat i)) as (l & Hl & Hget); [lia|].
  replace (Z.of_nat i <? 0)%Z with false in Hl by (symmetry; apply Z.ltb_ge; lia).
  rewrite Nat2Z.id, Hi in Hl. injection Hl as <-. exact Hget.
Qed.

(** X12.  A magnetic-distance sweep.  After
    [configure_magnetic_distance_exploration(distance_levels, drive_v_fixed,
    r_load_fixed)] there is one level per distance, in order, and the
    parameter set of level [i] has [magnetic_distance] equal to the i-th
    distance, [power_input] equal to 10.0 and [drive_v] equal to
    [drive_v_fixed], whatever [common_params] and the earlier [fixed_params]
    hold for these keys; [r_load] is [r_load_fixed] when given and the common
    value otherwise; every other key has its common value. *)
Theorem magnetic_distance_levels
    (self : Config.ExperimentConfig R) (distance_levels : list R)
    (drive_v_fixed : R) (r_load_fixed : option R) (i : nat) (distance : R) :
  distance_levels !! i = Some distance ->
  let cfg := Configure.configure_magnetic_distance_exploration self
               distance_levels drive_v_fixed r_load_fixed in
  length (Config.variable_params cfg) = length distance_levels /\
  exists params,
    Config.get_experiment_params cfg (Z.of_nat i) = Config.Returned params /\
    params !! "magnetic_distance"%string = Some distance /\
    params !! "power_input"%string = Some 10 /\
    params !! "drive_v"%string = Some drive_v_fixed /\
    params !! "r_load"%string
      = match r_load_fixed with
        | Some r => Some r
        | None => Config.common_params self !! "r_load"%string
        end /\
    forall key : string,
      ~ In key ["magnetic_distance"; "power_input"; "drive_v"; "r_load"]%string ->
      params !! key = Config.common_params self !! key.
Proof.
  intros Hi cfg. split; [unfold cfg; simpl; apply length_map|].
  eexists. split.
  { apply get_experiment_params_nat. unfold cfg. simpl.
    change (map ?f distance_levels) with (f <$> distance_levels).
    rewrite list_lookup_fmap, Hi. reflexivity. }
  unfold cfg. cbn [Config.common_params Config.fixed_params
                   Configure.configure_magnetic_distance_exploration].
  rewrite !dict_update_lookup. unfold layered_lookup.
  split; [simplify_map_eq; reflexivity|].
  split; [simplify_map_eq; reflexivity|].
  split; [destruct r_load_fixed; simplify_map_eq; reflexivity|].
  split; [destruct r_load_fixed; simplify_map_eq; reflexivity|].
  intros key Hkey.
  assert (key <> "magnetic_distance"%string) by (intros ->; apply Hkey; simpl; auto).
  assert (key <> "power_input"%string) by (intros ->; apply Hkey; simpl; auto).
  assert (key <> "drive_v"%string) by (intros ->; apply Hkey; simpl; auto).
  assert (key <> "r_load"%string) by (intros ->; apply Hkey; simpl; auto).
  rewrite dict_update_lookup. unfold layered_lookup.
  destruct r_load_fixed; simplify_map_eq; reflexivity.
Qed.

Lemma magnetic_distance_levels_witness :
  exists params,
    Config.get_experiment_params
      (Configure.configure_magnetic_distance_exploration two_level_config
         [5; 8] 12 None) 1 = Config.Returned params /\
    params !! "magnetic_distance"%string = Some 8 /\
    params !! "power_input"%string = Some 10 /\
    params !! "r_load"%string = Some 5.
Proof.
  destruct (magnetic_distance_levels two_level_config [5; 8] 12 None 1 8 eq_refl)
    as (_ & params & Hget & Hd & Hp & _ & Hr & _).
  exists params. split; [exact Hget|]. split; [exact Hd|]. split; [exact Hp|].
  rewrite Hr. reflexivity.
Defined.

(** X13.  Reconfiguring a configuration object.
    [configure_voltage_exploration] updates [fixed_params] in place, so a
    [drive_v] fixed by an earlier [configure_resistance_exploration] still
    resolves in the voltage sweep for every level that does not set
    [drive_v] itself.  [configure_resistance_exploration] replaces
    [fixed_params], so an [r_load] fixed by an earlier
    [configure_voltage_exploration] is gone: [r_load] resolves to the level's
    value, else to the common one. *)
Theorem reconfiguration_keeps_or_drops_fixed
    (self : Config.ExperimentConfig R)
    (earlier_levels levels : list (gmap string R))
    (drive_v_fixed r_load_fixed : R) (i : nat) (level : gmap string R) :
  levels !! i = Some level ->
  (exists params,
      Config.get_experiment_params
        (Configure.configure_voltage_exploration
           (Configure.configure_resistance_exploration self earlier_levels
              drive_v_fixed)
           levels None) (Z.of_nat i) = Config.Returned params /\
      params !! "drive_v"%string
        = Some (default drive_v_fixed (level !! "drive_v"%string))) /\
  (exists params,
      Config.get_experiment_params
        (Configure.configure_resistance_exploration
           (Configure.configure_voltage_exploration self earlier_levels
              (Some r_load_fixed))
           levels drive_v_fixed) (Z.of_nat i) = Config.Returned params /\
      params !! "r_load"%string
        = match level !! "r_load"%string with
          | Some r => Some r
          | None => Config.common_params self !! "r_load"%string
          end).
Proof.
  intros Hi. split.
  - eexists. split; [apply get_experiment_params_nat; exact Hi|].
    rewrite dict_update_lookup. unfold layered_lookup. simpl.
    destruct (level !! "drive_v"%string); simplify_map_eq; reflexivity.
  - eexists. split; [apply get_experiment_params_nat; exact Hi|].
    rewrite dict_update_lookup. unfold layered_lookup. simpl.
    destruct (level !! "r_load"%string); simplify_map_eq; reflexivity.
Qed.

Lemma reconfiguration_keeps_or_drops_fixed_witness :
  exists params,
    Config.get_experiment_params
      (Configure.configure_voltage_exploration
         (Configure.configure_resistance_exploration (Configure.init true) [] 12)
         [ {[ "power_input"%string := 5 ]} ] None) 0 = Config.Returned params /\
    params !! "drive_v"%string = Some 12.
Proof.
  destruct (reconfiguration_keeps_or_drops_fixed (Configure.init true) []
              [ {[ "power_input"%string := 5 ]} ] 12 0 0%nat
              {[ "power_input"%string := 5 ]} eq_refl)
    as [(params & Hget & Hd) _].
  exists params. split; [exact Hget|]. rewrite Hd. reflexivity.
Defined.

(** ** The batch loop *)

Lemma run_levels_acc (config : Config.ExperimentConfig R)
    (zp : nat -> Batch.file) (fp : option (nat -> Batch.file))
    (points : option Z) (levels : list nat) (acc : list Batch.entry) :
  Batch.run_levels config zp fp points levels acc
  = (acc ++ (Batch.run_levels config zp fp points levels []).1,
     (Batch.run_levels config zp fp points levels []).2).
Proof.
  revert acc. induction levels as [|i levels IH]; intros acc; simpl.
  - rewrite app_nil_r. reflexivity.
  - destruct (Batch.level_step config zp fp points i) as [|e| |e].
    + apply IH.
    + rewrite (IH (acc ++ [e])), (IH [e]). simpl.
      rewrite <- app_assoc. reflexivity.
    + rewrite app_nil_r. reflexivity.
    + rewrite app_nil_r. reflexivity.
Qed.

(** The results are produced, in order, by some of the levels. *)
Lemma run_levels_trace (config : Config.ExperimentConfig R)
    (zp : nat -> Batch.file) (fp : option (nat -> Batch.file))
    (points : option Z) (levels : list nat) :
  exists taken,
    taken `sublist_of` levels /\
    Forall2 (fun i e => Batch.level_step config zp fp points i = Batch.Append e)
      taken (Batch.run_levels config zp fp points levels []).1.
Proof.
  induction levels as [|i levels (taken & Hsub & Hall)]; simpl.
  - exists []. split; constructor.
  - destruct (Batch.level_step config zp fp points i) as [|e| |e] eqn:E.
    + exists taken. split; [apply sublist_cons; exact Hsub|exact Hall].
    + rewrite run_levels_acc. simpl. exists (i :: taken).
      split; [apply sublist_skip; exact Hsub|]. constructor; assumption.
    + exists []. split; [apply sublist_nil_l|constructor].
    + exists []. split; [apply sublist_nil_l|constructor].
Qed.

(** An exception that ends the loop was raised by one of the levels. *)
Lemma run_levels_raise (config : Config.ExperimentConfig R)
    (zp : nat -> Batch.file) (fp : option (nat -> Batch.file))
    (points : option Z) (levels : list nat) (e : Batch.error) :
  (Batch.run_levels config zp fp points levels []).2 = Some e ->
  exists i, In i levels /\ Batch.level_step config zp fp points i = Batch.Raise e.
Proof.
  induction levels as [|i levels IH]; simpl; [discriminate|].
  destruct (Batch.level_step config zp fp points i) as [|e'| |e'] eqn:E.
  - intros H. destruct (IH H) as (j & Hj & Hstep). exists j. auto.
  - rewrite run_levels_acc. simpl. intros H.
    destruct (IH H) as (j & Hj & Hstep). exists j. auto.
  - discriminate.
  - intros [= ->]. exists i. auto.
Qed.

Lemma level_step_append (config : Config.ExperimentConfig R)
    (zp : nat -> Batch.file) (fp : option (nat -> Batch.file))
    (points : option Z) (i : nat) (e : Batch.entry) :
  Batch.level_step config zp fp points i = Batch.Append e ->
  Batch.experiment_index e = (i + 1)%nat /\
  Config.get_experiment_params config (Z.of_nat i)
  = Config.Returned (Batch.experiment_params e).
Proof.
  unfold Batch.level_step.
  destruct (Config.get_experiment_params config (Z.of_nat i)) as [params|x];
    [|discriminate].
  destruct (Config.is_factor_exploration_mode config).
  - destruct (negb _); [discriminate|].
    destruct (Batch.call_unified _ _ _ _) as [[res|]|x]; try discriminate.
    intros [= <-]. split; reflexivity.
  - destruct fp as [fan|]; [|discriminate].
    destruct (negb _ || negb _); [discriminate|].
    destruct (Batch.call_unified _ _ _ _) as [[res|]|x]; try discriminate.
    intros [= <-]. split; reflexivity.
Qed.

Lemma call_unified_exception (params : gmap string R)
    (zheng fan : Batch.file) (points : option Z) (e : Batch.error) :
  Batch.call_unified params zheng fan points = Batch.Exception e ->
  exists key, e = Batch.KeyError key /\ In key required_keys /\ params !! key = None.
Proof.
  unfold Batch.call_unified, Batch.bind, Batch.getitem.
  destruct (params !! "reference_v"%string) eqn:E1;
    [|intros [= <-]; exists "reference_v"%string; split; [reflexivity|]; split; [simpl; auto 10|assumption]].
  destruct (params !! "initial_v"%string) eqn:E2;
    [|intros [= <-]; exists "initial_v"%string; split; [reflexivity|]; split; [simpl; auto 10|assumption]].
  destruct (params !! "r_load"%string) eqn:E3;
    [|intros [= <-]; exists "r_load"%string; split; [reflexivity|]; split; [simpl; auto 10|assumption]].
  destruct (params !! "power_input"%string) eqn:E4;
    [|intros [= <-]; exists "power_input"%string; split; [reflexivity|]; split; [simpl; auto 10|assumption]].
  destruct (params !! "sampling_freq"%string) eqn:E5;
    [|intros [= <-]; exists "sampling_freq"%string; split; [reflexivity|]; split; [simpl; auto 10|assumption]].
  discriminate.
Qed.

Lemma level_step_raise (config : Config.ExperimentConfig R)
    (zp : nat -> Batch.file) (fp : option (nat -> Batch.file))
    (points : option Z) (i : nat) (e : Batch.error) :
  (i < length (Config.variable_params config))%nat ->
  Batch.level_step config zp fp points i = Batch.Raise e ->
  exists key params,
    e = Batch.KeyError key /\ In key required_keys /\
    Config.get_experiment_params config (Z.of_nat i) = Config.Returned params /\
    params !! key = None /\
    Batch.path_exists (zp (i + 1)%nat) = true.
Proof.
  intros Hi. unfold Batch.level_step.
  destruct (lookup_lt_is_Some_2 _ _ Hi) as [level Hlevel].
  rewrite (get_experiment_params_nat config i level Hlevel).
  set (params := Config.dict_update _ level).
  destruct (Config.is_factor_exploration_mode config).
  - destruct (Batch.path_exists (zp (i + 1)%nat)) eqn:Ex; [|discriminate]. simpl.
    destruct (Batch.call_unified _ _ _ _) as [[res|]|x] eqn:Ec; try discriminate.
    intros [= <-].
    destruct (call_unified_exception _ _ _ _ _ Ec) as (key & -> & Hk & Hn).
    exists key, params. repeat split; assumption.
  - destruct fp as [fan|]; [|discriminate].
    destruct (Batch.path_exists (zp (i + 1)%nat)) eqn:Ex; [|discriminate]. simpl.
    destruct (negb _); [discriminate|].
    destruct (Batch.call_unified _ _ _ _) as [[res|]|x] eqn:Ec; try discriminate.
    intros [= <-].
    destruct (call_unified_exception _ _ _ _ _ Ec) as (key & -> & Hk & Hn).
    exists key, params. repeat split; assumption.
Qed.

(** X14.  Results of a batch run are in level order.  Whatever the
    configuration, the files and the mode, the experiment indices of
    [self.results] form a subsequence of 1, 2, ..., N (N the number of
    levels): they are strictly increasing and no level appears twice; each
    entry carries the parameter set [get_experiment_params] gives for its own
    level; and the loop never fails with the out-of-range error of
    [get_experiment_params]. *)
Theorem batch_results_in_level_order
    (config : Config.ExperimentConfig R)
    (zp : nat -> Batch.file) (fp : option (nat -> Batch.file))
    (points : option Z) :
  let out := Batch.run_batch_experiments config zp fp points in
  map Batch.experiment_index out.1
    `sublist_of` seq 1 (length (Config.variable_params config)) /\
  (forall e, In e out.1 ->
     Config.get_experiment_params config (Z.of_nat (Batch.experiment_index e) - 1)
     = Config.Returned (Batch.experiment_params e)) /\
  (forall x, out.2 <> Some (Batch.ConfigError x)).
Proof.
  intros out. unfold out, Batch.run_batch_experiments.
  set (N := length (Config.variable_params config)).
  destruct (run_levels_trace config zp fp points (seq 0 N)) as (taken & Hsub & Hall).
  set (results := (Batch.run_levels config zp fp points (seq 0 N) []).1) in *.
  assert (Hidx : map Batch.experiment_index results = map S taken).
  { clear Hsub. induction Hall as [|i e taken results Hstep _ IH]; [reflexivity|].
    simpl. rewrite IH. apply level_step_append in Hstep as [-> _].
    f_equal. lia. }
  split; [|split].
  - rewrite Hidx, <- fmap_S_seq. apply (fmap_sublist S). exact Hsub.
  - intros e He. clear Hsub Hidx.
    induction Hall as [|i e' taken results Hstep _ IH]; [destruct He|].
    destruct He as [->|He]; [|apply IH; exact He].
    apply level_step_append in Hstep as [-> Hget].
    rewrite <- Hget. f_equal. lia.
  - intros x Hx. apply run_levels_raise in Hx as (i & Hi & Hstep).
    apply in_seq in Hi.
    apply level_step_raise in Hstep as (key & params & Hkey & _); [|unfold N in Hi; lia].
    discriminate Hkey.
Qed.

Lemma call_unified_value (params : gmap string R)
    (zheng fan : Batch.file) (points : option Z) (res : Unified.results) :
  Batch.call_unified params zheng fan points = Batch.Value (Some res) ->
  exists (dz dfan : DataFrame) (reference_v initial_v r_load power_input sampling_freq : R),
    zheng = Batch.Readable dz /\ fan = Batch.Readable dfan /\
    params !! "reference_v"%string = Some reference_v /\
    params !! "initial_v"%string = Some initial_v /\
    params !! "r_load"%string = Some r_load /\
    params !! "power_input"%string = Some power_input /\
    params !! "sampling_freq"%string = Some sampling_freq /\
    Unified.calculate_unified_efficiencies dz dfan reference_v initial_v r_load
      (default 0 (params !! "drive_v"%string)) power_input sampling_freq
      points points = Some res.
Proof.
  unfold Batch.call_unified, Batch.bind, Batch.getitem.
  destruct (params !! "reference_v"%string) as [reference_v|]; [|discriminate].
  destruct (params !! "initial_v"%string) as [initial_v|]; [|discriminate].
  destruct (params !! "r_load"%string) as [r_load|]; [|discriminate].
  destruct (params !! "power_input"%string) as [power_input|]; [|discriminate].
  destruct (params !! "sampling_freq"%string) as [sampling_freq|]; [|discriminate].
  unfold Batch.unified_on_paths.
  destruct zheng as [| |dz]; try discriminate.
  destruct fan as [| |dfan]; try discriminate.
  intros [= H].
  exists dz, dfan, reference_v, initial_v, r_load, power_input, sampling_freq.
  repeat split; try reflexivity. exact H.
Qed.

Lemma max0_is_nonneg (x : float) : exists v, max0 x = Some v /\ 0 <= v.
Proof. apply max0_nonneg. Qed.

(** X15.  What a factor-exploration batch records.  In factor-exploration
    mode every entry of [self.results] is a simplified result; its file was
    read into a frame and paired with itself, and its [efficiency] is the
    verification efficiency of that single run clamped at zero, [max(0, e)] (a
    non-negative number, not the square root of [e]); its plot data are the
    run's forward verification arrays. *)
Theorem factor_mode_entries
    (config : Config.ExperimentConfig R)
    (zp : nat -> Batch.file) (fp : option (nat -> Batch.file))
    (points : option Z) (e : Batch.entry) :
  Config.is_factor_exploration_mode config = true ->
  In e (Batch.run_batch_experiments config zp fp points).1 ->
  exists s df res,
    e = Batch.Simplified s /\
    Batch.s_factor_exploration_mode s = true /\
    zp (Batch.s_experiment_index s) = Batch.Readable df /\
    Batch.call_unified (Batch.s_experiment_params s) (Batch.Readable df)
      (Batch.Readable df) points = Batch.Value (Some res) /\
    Batch.s_efficiency s
      = max0 (Unified.efficiency (Unified.zheng (Unified.verification res))) /\
    (exists v, Batch.s_efficiency s = Some v /\ 0 <= v) /\
    Batch.s_plot_data s
      = Unified.plot_data (Unified.zheng (Unified.verification res)).
Proof.
  intros Hmode He. unfold Batch.run_batch_experiments in He.
  destruct (run_levels_trace config zp fp points
              (seq 0 (length (Config.variable_params config))))
    as (taken & _ & Hall).
  assert (Hstep : exists i, Batch.level_step config zp fp points i = Batch.Append e).
  { induction Hall as [|i e' taken results Hstep _ IH]; [destruct He|].
    destruct He as [->|He]; [exists i; exact Hstep|apply IH; exact He]. }
  destruct Hstep as [i Hstep]. unfold Batch.level_step in Hstep.
  destruct (Config.get_experiment_params config (Z.of_nat i)) as [params|x];
    [|discriminate Hstep].
  rewrite Hmode in Hstep.
  destruct (negb _); [discriminate Hstep|].
  destruct (Batch.call_unified _ _ _ _) as [[res|]|x] eqn:Ec; try discriminate Hstep.
  injection Hstep as <-.
  destruct (call_unified_value _ _ _ _ _ Ec)
    as (dz & dfan & rv & iv & rl & pw & sf & Hz & Hfan & _ & _ & _ & _ & _ & Hu).
  rewrite Hz in Hfan. injection Hfan as <-.
  pose proof (self_finished_efficiency _ _ _ _ _ _ _ _ _ Hu) as Hself.
  eexists. exists dz, res. split; [reflexivity|]. simpl.
  split; [reflexivity|]. split; [exact Hz|].
  split; [rewrite <- Hz; exact Ec|].
  split; [exact Hself|]. split; [|reflexivity].
  rewrite Hself. apply max0_is_nonneg.
Qed.

(** X16.  Dual-motor mode needs the reverse pattern.  Outside
    factor-exploration mode and without [fan_file_pattern], the method
    returns at once: [self.results] is empty and nothing is raised, whatever
    the levels and the files. *)
Theorem dual_mode_without_reverse_pattern
    (config : Config.ExperimentConfig R)
    (zp : nat -> Batch.file) (points : option Z) :
  Config.is_factor_exploration_mode config = false ->
  Batch.run_batch_experiments config zp None points = ([], None).
Proof.
  intros Hmode. unfold Batch.run_batch_experiments.
  destruct (Config.variable_params config) as [|level levels] eqn:E; [reflexivity|].
  cbn [length seq Batch.run_levels]. unfold Batch.level_step.
  rewrite (get_experiment_params_nat config 0 level) by (rewrite E; reflexivity).
  rewrite Hmode. reflexivity.
Qed.

Lemma dual_mode_without_reverse_pattern_witness :
  Batch.run_batch_experiments two_level_config sweep_files None None = ([], None).
Proof.
  apply dual_mode_without_reverse_pattern. reflexivity.
Defined.

(** X17.  Missing calibration keys.  The only exception a batch run ends
    with is the [KeyError] of one of the keys [reference_v], [initial_v],
    [r_load], [power_input], [sampling_freq], raised at a level whose file
    exists and whose resolved parameter set lacks the key; a level whose file
    is missing is skipped before its parameters are read.  If every level
    resolves all five keys, the run raises nothing. *)
Theorem batch_key_errors
    (config : Config.ExperimentConfig R)
    (zp : nat -> Batch.file) (fp : option (nat -> Batch.file))
    (points : option Z) :
  (forall e,
      (Batch.run_batch_experiments config zp fp points).2 = Some e ->
      exists key i params,
        e = Batch.KeyError key /\ In key required_keys /\
        (i < length (Config.variable_params config))%nat /\
        Config.get_experiment_params config (Z.of_nat i) = Config.Returned params /\
        params !! key = None /\
        Batch.path_exists (zp (i + 1)%nat) = true) /\
  ((forall i params key,
       (i < length (Config.variable_params config))%nat ->
       Config.get_experiment_params config (Z.of_nat i) = Config.Returned params ->
       In key required_keys -> is_Some (params !! key)) ->
   (Batch.run_batch_experiments config zp fp points).2 = None).
Proof.
  assert (Hraise : forall e,
      (Batch.run_batch_experiments config zp fp points).2 = Some e ->
      exists key i params,
        e = Batch.KeyError key /\ In key required_keys /\
        (i < length (Config.variable_params config))%nat /\
        Config.get_experiment_params config (Z.of_nat i) = Config.Returned params /\
        params !! key = None /\
        Batch.path_exists (zp (i + 1)%nat) = true).
  { intros e He. unfold Batch.run_batch_experiments in He.
    apply run_levels_raise in He as (i & Hi & Hstep). apply in_seq in Hi.
    destruct (level_step_raise config zp fp points i e) as
      (key & params & -> & Hk & Hget & Hn & Hex); [lia|exact Hstep|].
    exists key, i, params. repeat split; try assumption. lia. }
  split; [exact Hraise|].
  intros Hall.
  destruct (Batch.run_batch_experiments config zp fp points).2 as [e|] eqn:E;
    [|reflexivity].
  destruct (Hraise e eq_refl) as (key & i & params & _ & Hk & Hi & Hget & Hn & _).
  destruct (Hall i params key Hi Hget Hk) as [v Hv]. congruence.
Qed.

(** X18.  The default configuration has no load.  A freshly constructed
    factor-exploration configuration, set up by
    [configure_voltage_exploration] without [r_load_fixed] and with levels that
    do not set [r_load], cannot run: the batch ends with [KeyError('r_load')]
    and no result as soon as one level's file exists, and with no result and
    no exception when none does. *)
Theorem default_config_lacks_r_load
    (levels : list (gmap string R))
    (zp : nat -> Batch.file) (fp : option (nat -> Batch.file))
    (points : option Z) :
  Forall (fun level : gmap string R => level !! "r_load"%string = None) levels ->
  Batch.run_batch_experiments
    (Configure.configure_voltage_exploration (Configure.init true) levels None)
    zp fp points
  = ([], if existsb (fun i => Batch.path_exists (zp (i + 1)%nat))
              (seq 0 (length levels))
         then Some (Batch.KeyError "r_load")
         else None).
Proof.
  intros Hlevels. unfold Batch.run_batch_experiments.
  set (cfg := Configure.configure_voltage_exploration (Configure.init true) levels None).
  change (Config.variable_params cfg) with levels.
  assert (Hstep : forall i, (i < length levels)%nat ->
            Batch.level_step cfg zp fp points i
            = if Batch.path_exists (zp (i + 1)%nat)
              then Batch.Raise (Batch.KeyError "r_load")
              else Batch.Continue).
  { intros i Hi. destruct (lookup_lt_is_Some_2 _ _ Hi) as [level Hlevel].
    unfold Batch.level_step.
    rewrite (get_experiment_params_nat cfg i level Hlevel).
    change (Config.is_factor_exploration_mode cfg) with true. cbv iota.
    destruct (Batch.path_exists (zp (i + 1)%nat)); [|reflexivity]. simpl negb.
    cbv iota.
    assert (Hr : level !! "r_load"%string = None).
    { rewrite Forall_forall in Hlevels. apply Hlevels.
      eapply list_elem_of_lookup_2. exact Hlevel. }
    unfold Batch.call_unified, Batch.bind, Batch.getitem.
    rewrite !dict_update_lookup. unfold layered_lookup. rewrite Hr.
    change (Config.fixed_params cfg) with (∅ : gmap string R).
    change (Config.common_params cfg)
      with (Config.common_params (Configure.init true)).
    destruct (level !! "reference_v"%string), (level !! "initial_v"%string);
      simplify_map_eq; reflexivity. }
  assert (Hgen : forall idx,
            Forall (fun i => i < length levels)%nat idx ->
            Batch.run_levels cfg zp fp points idx []
            = ([], if existsb (fun i => Batch.path_exists (zp (i + 1)%nat)) idx
                   then Some (Batch.KeyError "r_load") else None)).
  { induction idx as [|i idx IH]; intros Hidx; [reflexivity|].
    apply Forall_cons in Hidx as [Hi Hidx].
    cbn [Batch.run_levels existsb]. rewrite (Hstep i Hi).
    destruct (Batch.path_exists (zp (i + 1)%nat)); [reflexivity|].
    apply IH, Hidx. }
  apply Hgen. apply Forall_forall. intros i Hi.
  apply list_elem_of_In, in_seq in Hi. lia.
Qed.

Lemma default_config_lacks_r_load_witness :
  Batch.run_batch_experiments
    (Configure.configure_voltage_exploration (Configure.init true)
       [ {[ "power_input"%string := 5 ]} ; {[ "power_input"%string := 8 ]} ] None)
    sweep_files None None
  = ([], Some (Batch.KeyError "r_load")).
Proof.
  rewrite default_config_lacks_r_load; [reflexivity|].
  repeat constructor.
Defined.

Lemma run_levels_complete (config : Config.ExperimentConfig R)
    (zp : nat -> Batch.file) (fp : option (nat -> Batch.file))
    (points : option Z) (levels : list nat) (i : nat) (e : Batch.entry) :
  (forall j, In j levels -> Batch.level_step config zp fp points j <> Batch.Return) ->
  (Batch.run_levels config zp fp points levels []).2 = None ->
  In i levels ->
  Batch.level_step config zp fp points i = Batch.Append e ->
  In e (Batch.run_levels config zp fp points levels []).1.
Proof.
  induction levels as [|j levels IH]; intros Hret Herr Hi Hstep; [destruct Hi|].
  cbn [Batch.run_levels] in *.
  assert (Hret' : forall k, In k levels ->
            Batch.level_step config zp fp points k <> Batch.Return)
    by (intros k Hk; apply Hret; right; exact Hk).
  destruct (Batch.level_step config zp fp points j) as [|e'| |e'] eqn:Ej.
  - destruct Hi as [->|Hi]; [congruence|]. apply IH; assumption.
  - rewrite run_levels_acc in Herr |- *. cbn [fst snd] in *.
    destruct Hi as [->|Hi].
    + rewrite Ej in Hstep. injection Hstep as ->. left. reflexivity.
    + right. apply IH; assumption.
  - exfalso. apply (Hret j); [left; reflexivity|exact Ej].
  - discriminate Herr.
Qed.

Lemma factor_step_never_returns (config : Config.ExperimentConfig R)
    (zp : nat -> Batch.file) (fp : option (nat -> Batch.file))
    (points : option Z) (i : nat) :
  Config.is_factor_exploration_mode config = true ->
  Batch.level_step config zp fp points i <> Batch.Return.
Proof.
  intros Hmode. unfold Batch.level_step.
  destruct (Config.get_experiment_params config (Z.of_nat i)); [|discriminate].
  rewrite Hmode. destruct (negb _); [discriminate|].
  destruct (Batch.call_unified _ _ _ _) as [[res|]|x]; discriminate.
Qed.

(** X19.  A failed level only skips itself.  In factor-exploration mode, when
    the run raises nothing, experiment [k] has an entry in [self.results]
    exactly when [k] is one of the levels 1 .. N and the unified calculation on
    its file, with its resolved parameters, returns a result: a missing or
    unreadable file, or a calculation without result, affects no other
    level. *)
Theorem factor_batch_collects_every_success
    (config : Config.ExperimentConfig R)
    (zp : nat -> Batch.file) (fp : option (nat -> Batch.file))
    (points : option Z) (k : nat) :
  Config.is_factor_exploration_mode config = true ->
  (Batch.run_batch_experiments config zp fp points).2 = None ->
  (exists e, In e (Batch.run_batch_experiments config zp fp points).1 /\
             Batch.experiment_index e = k)
  <->
  ((1 <= k <= length (Config.variable_params config))%nat /\
   exists params res,
     Config.get_experiment_params config (Z.of_nat k - 1) = Config.Returned params /\
     Batch.call_unified params (zp k) (zp k) points = Batch.Value (Some res)).
Proof.
  intros Hmode Herr. unfold Batch.run_batch_experiments in *.
  set (N := length (Config.variable_params config)) in *.
  split.
  - intros (e & He & Hk).
    destruct (run_levels_trace config zp fp points (seq 0 N)) as (taken & Hsub & Hall).
    assert (Hstep : exists i, In i taken /\
              Batch.level_step config zp fp points i = Batch.Append e).
    { clear Hsub. induction Hall as [|i e' taken results Hstep _ IH]; [destruct He|].
      destruct He as [->|He].
      - exists i. split; [left; reflexivity|exact Hstep].
      - destruct (IH He) as (j & Hj & Hs). exists j. split; [right; exact Hj|exact Hs]. }
    destruct Hstep as (i & Hi & Hstep).
    assert (HiN : (i < N)%nat).
    { apply list_elem_of_In in Hi. eapply elem_of_sublist in Hi; [|exact Hsub].
      apply list_elem_of_In, in_seq in Hi. lia. }
    destruct (level_step_append _ _ _ _ _ _ Hstep) as [Hidx Hget].
    rewrite <- Hk, Hidx. clear Hk. split; [lia|].
    unfold Batch.level_step in Hstep.
    assert (Hzi : (Z.of_nat (i + 1) - 1 = Z.of_nat i)%Z) by lia. rewrite Hzi.
    destruct (Config.get_experiment_params config (Z.of_nat i)) as [params|x] eqn:Eg;
      [|discriminate Hstep].
    rewrite Hmode in Hstep.
    destruct (negb _); [discriminate Hstep|].
    destruct (Batch.call_unified _ _ _ _) as [[res|]|x] eqn:Ec; try discriminate Hstep.
    exists params, res. split; [reflexivity|exact Ec].
  - intros (Hk & params & res & Hget & Hcall).
    destruct k as [|i]; [lia|].
    replace (Z.of_nat (S i) - 1)%Z with (Z.of_nat i) in Hget by lia.
    replace (S i) with (i + 1)%nat in Hcall by lia.
    destruct (call_unified_value _ _ _ _ _ Hcall) as (dz & _ & _ & _ & _ & _ & _ & Hz & _).
    assert (Hstep : exists e, Batch.level_step config zp fp points i = Batch.Append e /\
                              Batch.experiment_index e = S i).
    { unfold Batch.level_step. rewrite Hget, Hmode, Hz. simpl negb. cbv iota.
      rewrite <- Hz, Hcall. eexists. split; [reflexivity|]. simpl. lia. }
    destruct Hstep as (e & Hstep & Hidx).
    exists e. split; [|exact Hidx].
    apply (run_levels_complete config zp fp points (seq 0 N) i e).
    + intros j _. apply factor_step_never_returns, Hmode.
    + exact Herr.
    + apply in_seq. lia.
    + exact Hstep.
Qed.

(** The sweep [sweep_config] over [sweep_files]: experiment 1 has no file and
    is skipped, experiment 2 gives the only entry. *)
Lemma sweep_run :
  exists e res,
    Batch.run_batch_experiments sweep_config sweep_files None None = ([e], None) /\
    Batch.experiment_index e = 2%nat /\
    Config.get_experiment_params sweep_config 1
      = Config.Returned (Batch.experiment_params e) /\
    Batch.call_unified (Batch.experiment_params e) (sweep_files 2) (sweep_files 2)
      None = Batch.Value (Some res).
Proof.
  destruct (unified_efficiencies_value (ain2_table [Some 3; None; Some 3])
              (ain2_table [Some 3; None; Some 3]) 1 0 2 12 1 100 None None)
    as (res & E & _); [lra|reflexivity|].
  set (level := <["drive_v"%string := 12]> ({[ "power_input"%string := 1 ]} : gmap string R)).
  assert (Hget : Config.get_experiment_params sweep_config 1
                 = Config.Returned
                     (Config.dict_update
                        (Config.dict_update (Config.common_params sweep_config)
                           (Config.fixed_params sweep_config)) level)).
  { apply (get_experiment_params_nat sweep_config 1). reflexivity. }
  set (params := Config.dict_update _ level) in Hget.
  assert (Hcall : Batch.call_unified params (sweep_files 2) (sweep_files 2) None
                  = Batch.Value (Some res)).
  { unfold Batch.call_unified, Batch.bind, Batch.getitem, params.
    rewrite !dict_update_lookup. unfold layered_lookup, level, sweep_config.
    cbn [Config.common_params Config.fixed_params
         Configure.configure_voltage_exploration].
    simplify_map_eq. cbn [default].
    change (sweep_files 2) with (Batch.Readable (ain2_table [Some 3; None; Some 3])).
    cbn [Batch.unified_on_paths]. rewrite E. reflexivity. }
  assert (S0 : Batch.level_step sweep_config sweep_files None None 0 = Batch.Continue)
    by reflexivity.
  eexists. exists res.
  unfold Batch.run_batch_experiments.
  change (seq 0 (length (Config.variable_params sweep_config))) with [0%nat; 1%nat].
  cbn [Batch.run_levels]. rewrite S0.
  unfold Batch.level_step at 1.
  change (Z.of_nat 1) with 1%Z. rewrite Hget.
  change (Config.is_factor_exploration_mode sweep_config) with true. cbv iota.
  change (Batch.path_exists (sweep_files (1 + 1))) with true.
  change (sweep_files (1 + 1)) with (sweep_files 2).
  cbn [negb]. cbv iota. rewrite Hcall.
  split; [reflexivity|]. cbn [Batch.experiment_index Batch.s_experiment_index
                              Batch.experiment_params Batch.s_experiment_params].
  split; [reflexivity|]. split; [exact Hget|exact Hcall].
Qed.

Lemma batch_results_in_level_order_witness :
  exists e,
    In e (Batch.run_batch_experiments sweep_config sweep_files None None).1 /\
    Config.get_experiment_params sweep_config
      (Z.of_nat (Batch.experiment_index e) - 1)
    = Config.Returned (Batch.experiment_params e).
Proof.
  destruct sweep_run as (e & res & Hrun & _).
  assert (He : In e (Batch.run_batch_experiments sweep_config sweep_files None None).1)
    by (rewrite Hrun; left; reflexivity).
  exists e. split; [exact He|].
  exact (proj1 (proj2 (batch_results_in_level_order sweep_config sweep_files
                         None None)) e He).
Defined.

Lemma factor_mode_entries_witness :
  exists e v,
    In e (Batch.run_batch_experiments sweep_config sweep_files None None).1 /\
    (exists s, e = Batch.Simplified s /\ Batch.s_efficiency s = Some v) /\
    0 <= v.
Proof.
  destruct sweep_run as (e & res & Hrun & _).
  assert (He : In e (Batch.run_batch_experiments sweep_config sweep_files None None).1)
    by (rewrite Hrun; left; reflexivity).
  destruct (factor_mode_entries sweep_config sweep_files None None e eq_refl He)
    as (s & df & res' & Hs & _ & _ & _ & _ & (v & Hv & Hpos) & _).
  exists e, v. split; [exact He|]. split; [|exact Hpos].
  exists s. split; [exact Hs|exact Hv].
Defined.

(** A run that stops on a missing key. *)
Lemma lacking_load_run :
  Batch.run_batch_experiments
    (Configure.configure_voltage_exploration (Configure.init true)
       [ {[ "power_input"%string := 5 ]} ; {[ "power_input"%string := 8 ]} ] None)
    sweep_files None None
  = ([], Some (Batch.KeyError "r_load")).
Proof. reflexivity. Qed.

Lemma batch_key_errors_witness :
  (Batch.run_batch_experiments sweep_config sweep_files None None).2 = None /\
  exists key i,
    In key required_keys /\ (i < 2)%nat /\
    Batch.path_exists (sweep_files (i + 1)) = true.
Proof.
  split.
  - apply (proj2 (batch_key_errors sweep_config sweep_files None None)).
    intros i params key Hi Hget Hkey.
    change (length (Config.variable_params sweep_config)) with 2%nat in Hi.
    destruct (lookup_lt_is_Some_2 (Config.variable_params sweep_config) i Hi)
      as [level Hlevel].
    rewrite (get_experiment_params_nat sweep_config i level Hlevel) in Hget.
    injection Hget as <-. rewrite dict_update_lookup. unfold layered_lookup.
    destruct i as [|[|i]]; [| |simpl in Hi; lia];
      injection Hlevel as <-; simpl in Hkey;
      repeat (destruct Hkey as [<-|Hkey];
              [unfold sweep_config; simpl; simplify_map_eq; eexists; reflexivity|]);
      destruct Hkey.
  - destruct (proj1 (batch_key_errors
                       (Configure.configure_voltage_exploration (Configure.init true)
                          [ {[ "power_input"%string := 5 ]} ;
                            {[ "power_input"%string := 8 ]} ] None)
                       sweep_files None None) (Batch.KeyError "r_load"))
      as (key & i & params & _ & Hk & Hi & _ & _ & Hex).
    + rewrite lacking_load_run. reflexivity.
    + exists key, i. split; [exact Hk|]. split; [exact Hi|exact Hex].
Defined.

Lemma factor_batch_collects_every_success_witness :
  exists e,
    In e (Batch.run_batch_experiments sweep_config sweep_files None None).1 /\
    Batch.experiment_index e = 2%nat.
Proof.
  destruct sweep_run as (e & res & Hrun & Hidx & Hget & Hcall).
  apply (proj2 (factor_batch_collects_every_success sweep_config sweep_files
                  None None 2 eq_refl ltac:(rewrite Hrun; reflexivity))).
  split; [simpl; lia|].
  exists (Batch.experiment_params e), res. split; [exact Hget|exact Hcall].
Defined.

(** ** The factor experiment *)















(** ** Comparing two runs with [compare_dual_motor_efficiencies] *)



(** ** Saving and loading a configuration *)

(** X23.  What a saved configuration keeps.  Loading the record
    [save_config] wrote gives back [exploration_type], [fixed_params],
    [variable_params] and [common_params]; the timestamp is ignored and
    [is_factor_exploration_mode] is not stored: the loaded configuration is in
    dual-motor mode whatever the saved one was.  A record that lacks one of the four
    fields makes [load_config] raise the [KeyError] of the first missing one,
    in the order exploration_type, fixed_params, variable_params,
    common_params. *)
Theorem save_load_config
    (self : Config.ExperimentConfig R) (now : string) :
  (exists loaded,
      Persist.load_config (Persist.save_config self now) = Batch.Value loaded /\
      Config.exploration_type loaded = Config.exploration_type self /\
      Config.fixed_params loaded = Config.fixed_params self /\
      Config.variable_params loaded = Config.variable_params self /\
      Config.common_params loaded = Config.common_params self /\
      Config.is_factor_exploration_mode loaded = false /\
      (forall i, Config.get_experiment_params loaded i
                 = Config.get_experiment_params self i)) /\
  (forall doc : Persist.document,
      (forall loaded, Persist.load_config doc <> Batch.Value loaded)
      <->
      (Persist.d_exploration_type doc = None \/ Persist.d_fixed_params doc = None \/
       Persist.d_variable_params doc = None \/ Persist.d_common_params doc = None)) /\
  (forall doc : Persist.document,
      Persist.d_exploration_type doc <> None ->
      Persist.d_fixed_params doc = None ->
      Persist.load_config doc = Batch.Exception (Batch.KeyError "fixed_params")).
Proof.
  split; [|split].
  - eexists. split; [reflexivity|]. simpl.
    repeat split; reflexivity.
  - intros [[et|] [fx|] [vp|] [cp|] ts]; unfold Persist.load_config; simpl; split;
      try (intros H; exfalso; eapply H; reflexivity);
      try (intros [H|[H|[H|H]]]; discriminate H);
      try (intros _ loaded; discriminate);
      auto.
  - intros [[et|] [fx|] vp cp ts] H1 H2; simpl in *; try congruence; reflexivity.
Qed.

Lemma save_load_config_witness :
  exists loaded,
    Persist.load_config (Persist.save_config sweep_config "2024-01-01 00:00:00")
      = Batch.Value loaded /\
    Config.is_factor_exploration_mode sweep_config = true /\
    Config.is_factor_exploration_mode loaded = false /\
    Persist.load_config
      (Persist.mkDocument (Some (Some Config.voltage)) None None None None)
    = Batch.Exception (Batch.KeyError "fixed_params").
Proof.
  destruct (save_load_config sweep_config "2024-01-01 00:00:00")
    as ((loaded & E & _ & _ & _ & _ & Hmode & _) & _ & Hmissing).
  exists loaded. split; [exact E|]. split; [reflexivity|]. split; [exact Hmode|].
  apply Hmissing; [discriminate|reflexivity].
Defined.

(** ** The comparison table *)

(** Where an entry of a batch run comes from. *)
Lemma batch_entry_origin
    (config : Config.ExperimentConfig R)
    (zp : nat -> Batch.file) (fp : option (nat -> Batch.file))
    (points : option Z) (e : Batch.entry) :
  In e (Batch.run_batch_experiments config zp fp points).1 ->
  exists i zheng fan res,
    (i < length (Config.variable_params config))%nat /\
    Batch.experiment_index e = (i + 1)%nat /\
    Config.get_experiment_params config (Z.of_nat i)
      = Config.Returned (Batch.experiment_params e) /\
    Batch.call_unified (Batch.experiment_params e) zheng fan points
      = Batch.Value (Some res) /\
    (if Config.is_factor_exploration_mode config
     then exists s, e = Batch.Simplified s
     else exists f, e = Batch.Full f).
Proof.
  intros He. unfold Batch.run_batch_experiments in He.
  destruct (run_levels_trace config zp fp points
              (seq 0 (length (Config.variable_params config))))
    as (taken & Hsub & Hall).
  assert (Hstep : exists i, In i taken /\
            Batch.level_step config zp fp points i = Batch.Append e).
  { clear Hsub. induction Hall as [|i e' taken results Hstep _ IH]; [destruct He|].
    destruct He as [->|He].
    - exists i. split; [left; reflexivity|exact Hstep].
    - destruct (IH He) as (j & Hj & Hs). exists j. split; [right; exact Hj|exact Hs]. }
  destruct Hstep as (i & Hi & Hstep).
  assert (HiN : (i < length (Config.variable_params config))%nat).
  { apply list_elem_of_In in Hi. eapply elem_of_sublist in Hi; [|exact Hsub].
    apply list_elem_of_In, in_seq in Hi. lia. }
  destruct (level_step_append _ _ _ _ _ _ Hstep) as [Hidx Hget].
  unfold Batch.level_step in Hstep. rewrite Hget in Hstep.
  destruct (Config.is_factor_exploration_mode config).
  - destruct (negb _); [discriminate Hstep|].
    destruct (Batch.call_unified _ _ _ _) as [[res|]|x] eqn:Ec; try discriminate Hstep.
    exists i, (zp (i + 1)%nat), (zp (i + 1)%nat), res.
    repeat split; try assumption. injection Hstep as <-. eexists. reflexivity.
  - destruct fp as [fan|]; [|discriminate Hstep].
    destruct (negb _ || negb _); [discriminate Hstep|].
    destruct (Batch.call_unified _ _ _ _) as [[res|]|x] eqn:Ec; try discriminate Hstep.
    exists i, (zp (i + 1)%nat), (fan (i + 1)%nat), res.
    repeat split; try assumption. injection Hstep as <-. eexists. reflexivity.
Qed.

Lemma sublist_seq_lookup (l : list nat) (a n i x : nat) :
  l `sublist_of` seq a n -> l !! i = Some x -> (a + i <= x < a + n)%nat.
Proof.
  revert l a i. induction n as [|n IH]; intros l a i Hsub Hx.
  - simpl in Hsub. apply sublist_nil_r in Hsub. subst l. discriminate Hx.
  - simpl in Hsub. apply sublist_cons_r in Hsub as [Hsub|(l' & -> & Hsub)].
    + specialize (IH l (S a) i Hsub Hx). lia.
    + destruct i as [|i]; simpl in Hx.
      * injection Hx as <-. lia.
      * specialize (IH l' (S a) i Hsub Hx). lia.
Qed.

(** X24.  No comparison table after a factor-exploration batch.  The
    simplified results [run_batch_experiments] collects in factor-exploration
    mode have neither a ['simple_mode'] nor a ['verification'] key, so
    [generate_comparison_table] fails on the first of them: it raises
    [KeyError('verification')], or [KeyError('drive_v')] before that when the
    exploration type is voltage and the first result's parameters have no
    [drive_v].  With no result at all it returns [None]. *)
Theorem no_comparison_table_after_factor_batch
    (config : Config.ExperimentConfig R)
    (zp : nat -> Batch.file) (fp : option (nat -> Batch.file))
    (points : option Z) :
  Config.is_factor_exploration_mode config = true ->
  let results := (Batch.run_batch_experiments config zp fp points).1 in
  (results = [] -> Table.generate_comparison_table config results = Batch.Value None) /\
  (results <> [] ->
   Table.generate_comparison_table config results
     = Batch.Exception (Batch.KeyError "verification") \/
   (Config.exploration_type config = Some Config.voltage /\
    Table.generate_comparison_table config results
      = Batch.Exception (Batch.KeyError "drive_v"))).
Proof.
  intros Hmode results. split.
  - intros ->. reflexivity.
  - intros Hne. destruct results as [|e rest] eqn:Eres; [contradiction|].
    assert (He : In e (Batch.run_batch_experiments config zp fp points).1).
    { fold results. rewrite Eres. left. reflexivity. }
    destruct (batch_entry_origin config zp fp points e He)
      as (i & zheng & fan & res & HiN & Hidx & Hget & Hcall & Hkind).
    rewrite Hmode in Hkind. destruct Hkind as [s ->].
    destruct (call_unified_value _ _ _ _ _ Hcall)
      as (_ & _ & rv & iv & rl & pw & sf & _ & _ & _ & _ & Hrl & Hpw & _).
    destruct (lookup_lt_is_Some_2 (Config.variable_params config) 0) as [lvl Hlvl];
      [lia|].
    unfold Table.generate_comparison_table.
    cbn [Table.table_rows]. unfold Table.table_row, Table.swept_columns.
    cbn [Batch.experiment_params] in *.
    unfold Batch.getitem. rewrite Hlvl, Hpw, Hrl.
    destruct (Config.exploration_type config) as [[| |]|] eqn:Et;
      cbn [Batch.bind Table.efficiency_columns]; try (left; reflexivity).
    destruct (Batch.s_experiment_params s !! "drive_v"%string);
      cbn [Batch.bind Table.efficiency_columns]; [left; reflexivity|].
    right. split; reflexivity.
Qed.

Lemma no_comparison_table_after_factor_batch_witness :
  Table.generate_comparison_table sweep_config
    (Batch.run_batch_experiments sweep_config sweep_files None None).1
  = Batch.Exception (Batch.KeyError "verification").
Proof.
  destruct sweep_run as (e & res & Hrun & _ & Hget & _).
  destruct (no_comparison_table_after_factor_batch sweep_config sweep_files None
              None eq_refl) as [_ H].
  destruct H as [H|[_ H]].
  - rewrite Hrun. discriminate.
  - exact H.
  - exfalso. rewrite Hrun in H. cbn [fst] in H.
    pose proof (get_experiment_params_nat sweep_config 1
                  (<["drive_v"%string := 12]> {[ "power_input"%string := 1 ]})
                  eq_refl) as Hget'.
    change (Z.of_nat 1) with 1%Z in Hget'. rewrite Hget' in Hget.
    injection Hget as Hp.
    unfold Table.generate_comparison_table in H.
    cbn [Table.table_rows] in H. unfold Table.table_row, Table.swept_columns in H.
    rewrite <- Hp in H. unfold Batch.getitem in H.
    rewrite !dict_update_lookup in H. unfold layered_lookup in H.
    change (Config.exploration_type sweep_config) with (Some Config.voltage) in H.
    cbv iota in H. simplify_map_eq.
    destruct e; discriminate H.
Defined.

(** The entry at a position of the result list comes from a level at that
    position or later. *)
Lemma batch_entry_at
    (config : Config.ExperimentConfig R)
    (zp : nat -> Batch.file) (fp : option (nat -> Batch.file))
    (points : option Z) (p : nat) (e : Batch.entry) :
  (Batch.run_batch_experiments config zp fp points).1 !! p = Some e ->
  exists i,
    (p <= i < length (Config.variable_params config))%nat /\
    Batch.level_step config zp fp points i = Batch.Append e.
Proof.
  intros He. unfold Batch.run_batch_experiments in He.
  destruct (run_levels_trace config zp fp points
              (seq 0 (length (Config.variable_params config))))
    as (taken & Hsub & Hall).
  destruct (Forall2_lookup_r _ _ _ _ _ Hall He) as (i & Hi & Hstep).
  exists i. split; [|exact Hstep].
  pose proof (sublist_seq_lookup _ _ _ _ _ Hsub Hi). lia.
Qed.

(** The sweep [distance_config] with [sweep_files] for both polarities:
    experiment 1 has no file and is skipped, experiment 2 gives the only
    entry. *)
Lemma distance_run :
  exists e,
    Batch.run_batch_experiments distance_config sweep_files (Some sweep_files) None
    = ([e], None) /\
    Batch.experiment_index e = 2%nat.
Proof.
  destruct (unified_efficiencies_value (ain2_table [Some 3; None; Some 3])
              (ain2_table [Some 3; None; Some 3]) 1 0 2 12 10 100 None None)
    as (res & E & _); [lra|reflexivity|].
  set (level := <["power_input"%string := 10]>
                  ({[ "magnetic_distance"%string := 8 ]} : gmap string R)).
  assert (Hget : Config.get_experiment_params distance_config 1
                 = Config.Returned
                     (Config.dict_update
                        (Config.dict_update (Config.common_params distance_config)
                           (Config.fixed_params distance_config)) level)).
  { apply (get_experiment_params_nat distance_config 1). reflexivity. }
  set (params := Config.dict_update _ level) in Hget.
  assert (Hcall : Batch.call_unified params (sweep_files 2) (sweep_files 2) None
                  = Batch.Value (Some res)).
  { unfold Batch.call_unified, Batch.bind, Batch.getitem, params.
    rewrite !dict_update_lookup. unfold layered_lookup, level, distance_config.
    cbn [Config.common_params Config.fixed_params
         Configure.configure_magnetic_distance_exploration].
    simplify_map_eq. cbn [default].
    change (sweep_files 2) with (Batch.Readable (ain2_table [Some 3; None; Some 3])).
    cbn [Batch.unified_on_paths]. rewrite E. reflexivity. }
  assert (S0 : Batch.level_step distance_config sweep_files (Some sweep_files) None 0
               = Batch.Continue) by reflexivity.
  eexists.
  unfold Batch.run_batch_experiments.
  change (seq 0 (length (Config.variable_params distance_config)))
    with [0%nat; 1%nat].
  cbn [Batch.run_levels]. rewrite S0.
  unfold Batch.level_step at 1.
  change (Z.of_nat 1) with 1%Z. rewrite Hget.
  change (Config.is_factor_exploration_mode distance_config) with false. cbv iota.
  change (Batch.path_exists (sweep_files (1 + 1))) with true.
  change (sweep_files (1 + 1)) with (sweep_files 2).
  cbn [negb orb]. cbv iota. rewrite Hcall.
  split; reflexivity.
Qed.

(** X25.  The distance column of the comparison table goes by position.
    For a dual-motor batch over a magnetic-distance sweep, the table row of
    the result at position [p] of the result list is built without error and
    shows the distance of level [p], while the result's own parameters hold
    the distance of the level it was computed from, level
    [experiment_index - 1], which is [p] or a later one: after a skipped
    level the two are different levels.  The row starts with the experiment
    index, the distance and the input power 10.0, followed by the nine
    efficiency columns. *)
Theorem table_distance_by_position
    (self : Config.ExperimentConfig R) (distance_levels : list R)
    (drive_v_fixed : R) (r_load_fixed : option R)
    (zp : nat -> Batch.file) (fp : option (nat -> Batch.file))
    (points : option Z) (p : nat) (e : Batch.entry) :
  Config.is_factor_exploration_mode self = false ->
  let cfg := Configure.configure_magnetic_distance_exploration self
               distance_levels drive_v_fixed r_load_fixed in
  (Batch.run_batch_experiments cfg zp fp points).1 !! p = Some e ->
  exists (d_row d_own : R) (effs : Table.row),
    (p < Batch.experiment_index e)%nat /\
    distance_levels !! p = Some d_row /\
    distance_levels !! (Batch.experiment_index e - 1)%nat = Some d_own /\
    Batch.experiment_params e !! "magnetic_distance"%string = Some d_own /\
    Table.efficiency_columns e = Batch.Value effs /\
    length effs = 9%nat /\
    Table.table_row cfg p e
    = Batch.Value
        (("实验组"%string, Table.Int (Batch.experiment_index e))
         :: ("磁场距离(mm)"%string, Table.Number d_row)
         :: ("输入功率(W)"%string, Table.Number 10) :: effs).
Proof.
  intros Hmode cfg He.
  destruct (batch_entry_at cfg zp fp points p e He) as (i & Hi & Hstep).
  destruct (level_step_append _ _ _ _ _ _ Hstep) as [Hidx Hget].
  assert (HN : length (Config.variable_params cfg) = length distance_levels)
    by (unfold cfg; simpl; apply length_map).
  destruct (lookup_lt_is_Some_2 distance_levels p) as [d_row Hrow]; [lia|].
  destruct (lookup_lt_is_Some_2 distance_levels i) as [d_own Hown]; [lia|].
  assert (Hlvl : forall j d, distance_levels !! j = Some d ->
            Config.variable_params cfg !! j
            = Some (<["power_input"%string := 10]>
                      ({[ "magnetic_distance"%string := d ]} : gmap string R))).
  { intros j d Hj. unfold cfg. simpl.
    change (map ?f distance_levels) with (f <$> distance_levels).
    rewrite list_lookup_fmap, Hj. reflexivity. }
  rewrite (get_experiment_params_nat cfg i _ (Hlvl i d_own Hown)) in Hget.
  injection Hget as Hparams.
  assert (Hfull : exists f, e = Batch.Full f).
  { unfold Batch.level_step in Hstep.
    destruct (Config.get_experiment_params cfg (Z.of_nat i)); [|discriminate Hstep].
    change (Config.is_factor_exploration_mode cfg)
      with (Config.is_factor_exploration_mode self) in Hstep.
    rewrite Hmode in Hstep.
    destruct fp as [fan|]; [|discriminate Hstep].
    destruct (negb _ || negb _); [discriminate Hstep|].
    destruct (Batch.call_unified _ _ _ _) as [[res|]|x]; try discriminate Hstep.
    injection Hstep as <-. eexists. reflexivity. }
  destruct Hfull as [f ->].
  exists d_row, d_own. eexists.
  split; [lia|]. split; [exact Hrow|].
  split; [rewrite Hidx; replace (i + 1 - 1)%nat with i by lia; exact Hown|].
  split.
  { rewrite <- Hparams. rewrite dict_update_lookup. unfold layered_lookup.
    simplify_map_eq. reflexivity. }
  split; [reflexivity|]. split; [reflexivity|].
  unfold Table.table_row, Table.swept_columns.
  change (Config.exploration_type cfg) with (Some Config.magnetic_distance).
  cbv iota. rewrite (Hlvl p d_row Hrow).
  assert (Hpw : Batch.experiment_params (Batch.Full f) !! "power_input"%string
                = Some 10).
  { rewrite <- Hparams. rewrite dict_update_lookup. unfold layered_lookup.
    simplify_map_eq. reflexivity. }
  unfold Batch.getitem. rewrite Hpw.
  simplify_map_eq. reflexivity.
Qed.

Lemma table_distance_by_position_witness :
  exists e,
    (Batch.run_batch_experiments distance_config sweep_files (Some sweep_files)
       None).1 !! 0%nat = Some e /\
    Batch.experiment_params e !! "magnetic_distance"%string = Some 8 /\
    exists effs,
      Table.table_row distance_config 0 e
      = Batch.Value
          (("实验组"%string, Table.Int 2)
           :: ("磁场距离(mm)"%string, Table.Number 5)
           :: ("输入功率(W)"%string, Table.Number 10) :: effs).
Proof.
  destruct distance_run as (e & Hrun & Hidx).
  assert (He : (Batch.run_batch_experiments distance_config sweep_files
                  (Some sweep_files) None).1 !! 0%nat = Some e)
    by (rewrite Hrun; reflexivity).
  exists e. split; [exact He|].
  destruct (table_distance_by_position
              (Config.mkConfig None ∅ []
                 (<["reference_v"%string := 1]>
                    (<["initial_v"%string := 0]>
                       (<["sampling_freq"%string := 100]> ∅)))
                 false)
              [5; 8] 12 (Some 2) sweep_files (Some sweep_files) None 0 e eq_refl He)
    as (d_row & d_own & effs & _ & Hrow & Hown & Hd & _ & _ & Htab).
  rewrite Hidx in Hown, Htab. simpl in Hrow, Hown.
  injection Hrow as <-. injection Hown as <-.
  split; [exact Hd|]. exists effs. exact Htab.
Defined.
